(** * xrage-format: VTK snapshots to Parquet, and Parquet repacking

  A shallow embedding of the four converters of the repository

  - [vti2pqtv2a.cc]   one Parquet file for a directory, one row group per
                      timestep (module [V2a]);
  - [vti2pqtv2b.cc]   one family of split Parquet files per snapshot
                      (module [V2b]) followed by the repack tool that
                      re-chunks Parquet files (module [Repack]);
  - [unnamed/part_000] one Parquet file per snapshot with key/value
                      metadata (module [Meta]);
  - [unnamed/part_001] the unstructured-grid converter in namespace
                      [xrage] (module [Xrage]);

  together with the properties of the specification that they satisfy or
  fail, and further properties of the programs.  Every effect of the
  programs (standard output, standard error, files created, what is
  streamed into a Parquet writer) is recorded in order in a trace. *)

From Stdlib Require Import ZArith List String Ascii Bool Lia QArith Qabs.
From Stdlib Require Import DecimalString Floats.SpecFloat Sorting.Sorted.
From Stdlib Require Import Sorting.Permutation.
Import ListNotations.
Local Open Scope Z_scope.

(* ===================================================================== *)
(** * Part I.  The embedding                                              *)
(* ===================================================================== *)

(** ** C and C++ library behaviour used by the programs *)

Module Cxx.

Definition INT_MAX : Z := 2147483647.
Definition EXIT_FAILURE : Z := 1.

(** [int] and [int32_t] arithmetic: the result reduced to 32 bits, two's
    complement. *)
Definition wrap32 (z : Z) : Z := (z + 2 ^ 31) mod 2 ^ 32 - 2 ^ 31.

(** [size_t] arithmetic on a 64-bit target. *)
Definition wrap_size (z : Z) : Z := z mod 2 ^ 64.

Definition size (s : string) : Z := Z.of_nat (String.length s).

(** [std::to_string(int)]. *)
Definition to_string (i : Z) : string := NilZero.string_of_int (Z.to_int i).

(** [s.resize(n)]: truncation, or padding with NUL characters. *)
Definition resize (s : string) (n : nat) : string :=
  (substring 0 n s
     ++ string_of_list_ascii (repeat zero (n - String.length s)))%string.

(** [s.substr(pos, count)] with [pos] and [count] of type [size_t];
    [None] stands for the [std::out_of_range] it throws when
    [pos > s.size()]. *)
Definition substr (s : string) (pos count : Z) : option string :=
  if size s <? pos then None
  else Some (substring (Z.to_nat pos) (Z.to_nat count) s).

Definition isspace (c : ascii) : bool :=
  let n := nat_of_ascii c in
  (Nat.eqb n 32 || (Nat.leb 9 n && Nat.leb n 13))%bool.

Definition digit_of (c : ascii) : option Z :=
  let n := Z.of_nat (nat_of_ascii c) in
  if (48 <=? n) && (n <=? 57) then Some (n - 48) else None.

Fixpoint skip_spaces (s : string) : string :=
  match s with
  | String c s' => if isspace c then skip_spaces s' else s
  | EmptyString => s
  end.

Fixpoint atoi_digits (s : string) (acc : Z) : Z :=
  match s with
  | String c s' =>
      match digit_of c with
      | Some d => atoi_digits s' (10 * acc + d)
      | None => acc
      end
  | EmptyString => acc
  end.

(** [atoi]: leading white space, an optional sign, then decimal digits up
    to the first character that is not one. *)
Definition atoi (s : string) : Z :=
  match skip_spaces s with
  | String "-"%char s' => wrap32 (- atoi_digits s' 0)
  | String "+"%char s' => wrap32 (atoi_digits s' 0)
  | s' => wrap32 (atoi_digits s' 0)
  end.

(** [StringEndWith], the same function in all four programs. *)
Definition StringEndWith (str suffix : string) : bool :=
  let lenstr := String.length str in
  let lensuffix := String.length suffix in
  if Nat.ltb lenstr lensuffix then false
  else String.eqb (substring (lenstr - lensuffix) lensuffix str) suffix.

(** [std::map<int, std::string>]: the entries in ascending key order;
    [m[k] = v] inserts, or assigns to the entry already there. *)
Definition map_int (V : Type) : Type := list (Z * V).

Fixpoint map_assign {V : Type} (k : Z) (v : V) (m : map_int V) : map_int V :=
  match m with
  | [] => [(k, v)]
  | (k', v') :: m' =>
      if k <? k' then (k, v) :: m
      else if k =? k' then (k, v) :: m'
      else (k', v') :: map_assign k v m'
  end.

(** [std::unordered_map<std::string, V>]: the entries the map holds, each
    key once, listed as they were inserted.  That order is not the one in
    which the map iterates, which the hash table of the library decides:
    see [Sys.unordered_order]. *)
Definition unordered_map (V : Type) : Type := list (string * V).

(** [m[k] = v] on an [unordered_map]. *)
Fixpoint unordered_assign {V : Type} (k : string) (v : V)
    (m : unordered_map V) : unordered_map V :=
  match m with
  | [] => [(k, v)]
  | (k', v') :: m' =>
      if String.eqb k' k then (k, v) :: m'
      else (k', v') :: unordered_assign k v m'
  end.

Fixpoint map_find {V : Type} (k : Z) (m : map_int V) : option V :=
  match m with
  | [] => None
  | (k', v') :: m' => if k =? k' then Some v' else map_find k m'
  end.

End Cxx.

(** ** IEEE 754 binary32, the C type [float] *)

Module F32.

Definition prec : Z := 24.
Definition emax : Z := 128.

Definition float : Type := spec_float.

Definition mul : float -> float -> float := SFmul prec emax.
Definition div : float -> float -> float := SFdiv prec emax.

(** Conversion of an integer to [float]. *)
Definition of_Z (n : Z) : float := binary_normalize prec emax n 0 false.

(** The integer nearest to [m * 2^e], halfway cases away from zero. *)
Definition nearest_away (m : positive) (e : Z) : Z :=
  match e with
  | Zneg k => (Zpos m + 2 ^ (Zpos k - 1)) / 2 ^ Zpos k
  | _ => Zpos m * 2 ^ e
  end.

(** The [float] of sign [s] and magnitude [n]. *)
Definition of_int (s : bool) (n : Z) : float :=
  binary_normalize prec emax (if s then - n else n) 0 s.

(** [roundf]: zeros, infinities and NaN are returned as they are, and so
    is a value whose exponent is not negative (an integer already); the
    sign of the argument is kept. *)
Definition roundf (x : float) : float :=
  match x with
  | S754_finite s m (Zneg k) =>
      match nearest_away m (Zneg k) with
      | Z0 => S754_zero s
      | n => of_int s n
      end
  | _ => x
  end.

(** The literal [1000000], converted to [float] by the usual arithmetic
    conversions. *)
Definition million : float := of_Z 1000000.

(** [roundf(v * 1000000) / 1000000], as in [ParquetWriter::Append]. *)
Definition quantize (v : float) : float :=
  div (roundf (mul v million)) million.

(** The rational number a finite [float] stands for. *)
Definition to_Q (x : float) : option Q :=
  match x with
  | S754_zero _ => Some 0%Q
  | S754_finite s m e =>
      let a := (inject_Z (Zpos m) * Qpower 2 e)%Q in
      Some (if s then Qopp a else a)
  | _ => None
  end.

(** Where a value [w] with [0 <= w < D] lies in the interval from 0 to
    [D]: at 0, below the middle, at the middle or above it. *)
Definition position (w D : Z) : location :=
  if w =? 0 then loc_Exact else loc_Inexact (2 * w ?= D).

(** The record of a right shift stands for the value [V / D]: its
    mantissa is the integer part, its round and sticky bits tell where
    the rest lies. *)
Definition describes (rec : shr_record) (V D : Z) : Prop :=
  0 <= shr_m rec
  /\ shr_m rec * D <= V < (shr_m rec + 1) * D
  /\ loc_of_shr_record rec = position (V - shr_m rec * D) D.

End F32.

(** ** Effects: the trace, and the monad the programs run in *)

Module Run.

(** A value streamed into a [parquet::StreamWriter] column. *)
Inductive Cell : Type :=
| I32 (z : Z)
| F32 (f : F32.float).

(** What [operator<<] hands to the [StreamWriter]: the cells of one row
    closed by [parquet::EndRow], or the manipulator
    [parquet::EndRowGroup]. *)
Inductive Item : Type :=
| Row (cells : list Cell)
| EndRowGroup.

Inductive Compression : Type := UNCOMPRESSED | SNAPPY | GZIP | ZSTD.
Inductive Encoding : Type := PLAIN | DELTA_BINARY_PACKED | RLE_DICTIONARY.

(** The state of a [parquet::WriterProperties::Builder]: the defaults for
    every column and the settings given for a column by name. *)
Record Builder : Type := mkBuilder {
  default_compression : Compression;
  default_encoding : Encoding;
  default_dictionary : bool;
  column_compression : list (string * Compression);
  column_encoding : list (string * Encoding)
}.

Inductive PrimitiveType : Type := INT32 | FLOAT.

(** The observable actions, in the order the program performs them. *)
Inductive IO : Type :=
| Stdout (line : string)
| Stderr (line : string)
| Create (path : string)
    (* arrow::io::FileOutputStream::Open *)
| OpenWriter (path : string) (schema : list (string * PrimitiveType))
    (props : Builder) (kv : list (string * string))
    (* parquet::ParquetFileWriter::Open *)
| Write (path : string) (item : Item)
| Close (path : string).
    (* delete writer_ *)

Definition Trace : Type := list IO.

(** Why a run stops before the end of [main]. *)
Inductive Fault : Type := NullDereference | OutOfBounds.

Inductive Abort : Type :=
| Exited (code : Z)              (* exit(code) *)
| Terminated (exception : string) (* an exception nobody catches *)
| Undefined (f : Fault).          (* undefined behaviour *)

Inductive Outcome (A : Type) : Type :=
| Ok (a : A)
| Stop (why : Abort)
| OutOfFuel.
Arguments Ok {A} a.
Arguments Stop {A} why.
Arguments OutOfFuel {A}.

(** A computation yields an outcome and the actions performed up to it;
    the actions of a computation that stops are kept. *)
Definition M (A : Type) : Type := Outcome A * Trace.

Definition ret {A : Type} (a : A) : M A := (Ok a, []).

Definition bind {A B : Type} (m : M A) (k : A -> M B) : M B :=
  match m with
  | (Ok a, t) => let '(o, t') := k a in (o, t ++ t')
  | (Stop why, t) => (Stop why, t)
  | (OutOfFuel, t) => (OutOfFuel, t)
  end.

Definition act (a : IO) : M unit := (Ok tt, [a]).
Definition stop {A : Type} (why : Abort) : M A := (Stop why, []).

Declare Scope run_scope.
Delimit Scope run_scope with run.
Notation "x <- m ;; k" := (bind m (fun x => k))
  (at level 61, m at next level, right associativity) : run_scope.
Notation "' p <- m ;; k" := (bind m (fun x => let 'p := x in k))
  (at level 61, p pattern, m at next level, right associativity) : run_scope.
Notation "m ;;; k" := (bind m (fun _ => k))
  (at level 61, right associativity) : run_scope.

(** [while (cond) body], unrolled at most [fuel] times. *)
Fixpoint while {S : Type} (fuel : nat) (cond : S -> bool) (body : S -> M S)
    (s : S) : M S :=
  if cond s then
    match fuel with
    | O => (OutOfFuel, [])
    | Datatypes.S fuel' => bind (body s) (while fuel' cond body)
    end
  else ret s.

(** A range-based [for] over a container. *)
Fixpoint for_each {A S : Type} (l : list A) (body : A -> S -> M S) (s : S)
    : M S :=
  match l with
  | [] => ret s
  | a :: l' => bind (body a s) (for_each l' body)
  end.

(** A pointer that may be null; dereferencing it when it is null is
    undefined. *)
Definition deref {A : Type} (p : option A) : M A :=
  match p with
  | Some a => ret a
  | None => stop (Undefined NullDereference)
  end.

(** The rows written to the files of a trace, per file in the order the
    files were created ([Create]), every row under the newest file of its
    path. *)
Fixpoint add_row (path : string) (r : list Cell)
    (files : list (string * list (list Cell))) :=
  match files with
  | [] => []
  | (p, rows) :: files' =>
      if String.eqb p path then (p, r :: rows) :: files'
      else (p, rows) :: add_row path r files'
  end.

(** Files newest first, rows newest first. *)
Fixpoint collect (t : Trace) (files : list (string * list (list Cell))) :=
  match t with
  | [] => files
  | Create p :: t' => collect t' ((p, []) :: files)
  | Write p (Row r) :: t' => collect t' (add_row p r files)
  | _ :: t' => collect t' files
  end.

Definition outputs (t : Trace) : list (string * list (list Cell)) :=
  rev (map (fun f => (fst f, rev (snd f))) (collect t [])).

(** The items streamed to a path. *)
Fixpoint items (path : string) (t : Trace) : list Item :=
  match t with
  | [] => []
  | Write p i :: t' =>
      if String.eqb p path then i :: items path t' else items path t'
  | _ :: t' => items path t'
  end.

Fixpoint rows_of (l : list Item) : list (list Cell) :=
  match l with
  | [] => []
  | Row r :: l' => r :: rows_of l'
  | EndRowGroup :: l' => rows_of l'
  end.

(** The row groups that the [EndRowGroup] manipulators delimit. *)
Fixpoint groups_from (cur : list (list Cell)) (l : list Item)
    : list (list (list Cell)) :=
  match l with
  | [] => [rev cur]
  | Row r :: l' => groups_from (r :: cur) l'
  | EndRowGroup :: l' => rev cur :: groups_from [] l'
  end.

Definition groups (l : list Item) : list (list (list Cell)) :=
  groups_from [] l.

Definition std_err (t : Trace) : list string :=
  flat_map (fun a => match a with Stderr s => [s] | _ => [] end) t.

Definition std_out (t : Trace) : list string :=
  flat_map (fun a => match a with Stdout s => [s] | _ => [] end) t.

(** The rows streamed, whatever the file, in the order of the trace. *)
Definition rows_written (t : Trace) : list (list Cell) :=
  flat_map (fun a => match a with Write _ (Row r) => [r] | _ => [] end) t.

End Run.

(** ** The collaborators: VTK images, the file system, Parquet writers *)

Module Sys.
Import Run.
Local Open Scope string_scope.
Local Open Scope run_scope.

Definition nl : string := String (ascii_of_nat 10) EmptyString.

(** A [vtkAbstractArray]; [vtkFloatArray::FastDownCast] yields a null
    pointer for an array of another class, and for a null pointer. *)
Inductive vtkArray : Type :=
| vtkFloatArray (values : list F32.float)
| vtkIntArray (values : list Z)
| vtkOtherArray.

(** What the programs read of a [vtkImageData]; [double] values are
    binary64 numbers. *)
Record vtkImageData : Type := mkImage {
  NumberOfPoints : Z;                       (* vtkIdType, 64 bits *)
  PointData : list (string * vtkArray);
  FieldData : list (string * vtkArray);
  Extent : Z * Z * Z * Z * Z * Z;
  Origin : spec_float * spec_float * spec_float;
  Spacing : spec_float * spec_float * spec_float
}.

Fixpoint GetAbstractArray (data : list (string * vtkArray)) (name : string)
    : option vtkArray :=
  match data with
  | [] => None
  | (n, a) :: data' =>
      if String.eqb n name then Some a else GetAbstractArray data' name
  end.

Definition FastDownCast_float (a : option vtkArray) : option (list F32.float) :=
  match a with
  | Some (vtkFloatArray v) => Some v
  | _ => None
  end.

Definition FastDownCast_int (a : option vtkArray) : option (list Z) :=
  match a with
  | Some (vtkIntArray v) => Some v
  | _ => None
  end.

(** The point data arrays a reader loads after [DisableAllArrays] and
    [EnableArray] of the names given. *)
Definition enable_arrays (names : list string) (image : vtkImageData)
    : vtkImageData :=
  mkImage (NumberOfPoints image)
    (filter (fun na => existsb (String.eqb (fst na)) names) (PointData image))
    (FieldData image) (Extent image) (Origin image) (Spacing image).

Inductive d_type_t : Type := DT_REG | DT_LNK | DT_DIR | DT_UNKNOWN.

Record dirent : Type := mkDirent { d_type : d_type_t; d_name : string }.

(** The environment of a run: directories ([inl] is the text of [strerror]
    when [opendir] fails), the snapshot a reader produces for a path, the
    paths at which a file can be created, the rows a Parquet file holds
    ([None] when it cannot be opened), and the order in which the C++
    library iterates a [std::unordered_map] of strings that holds the
    entries given. *)
Record Env : Type := mkEnv {
  opendir : string -> string + list dirent;
  read_vti : string -> vtkImageData;
  can_create : string -> bool;
  read_parquet : string -> option (list (list Cell));
  unordered_order : Cxx.unordered_map string -> list (string * string)
}.

(** [p[i]] for a raw pointer [p] into an array. *)
Definition index {A : Type} (p : list A) (i : Z) : M A :=
  if (i <? 0)%Z then stop (Undefined OutOfBounds)
  else match nth_error p (Z.to_nat i) with
       | Some a => ret a
       | None => stop (Undefined OutOfBounds)
       end.

(** [PARQUET_ASSIGN_OR_THROW(file, arrow::io::FileOutputStream::Open(path))];
    the stream is known by its path. *)
Definition FileOutputStream_Open (env : Env) (path : string) : M string :=
  if can_create env path then act (Create path) ;;; ret path
  else stop (Terminated "parquet::ParquetStatusException").

(** [s.substr(pos, count)] where nothing catches [std::out_of_range]. *)
Definition substr_or_throw (s : string) (pos count : Z) : M string :=
  match Cxx.substr s pos count with
  | Some r => ret r
  | None => stop (Terminated "std::out_of_range")
  end.

(** The [WriterProperties::Builder] calls. *)
Definition compression_for (name : string) (c : Compression) (b : Builder) :=
  mkBuilder (default_compression b) (default_encoding b) (default_dictionary b)
    ((name, c) :: column_compression b) (column_encoding b).

Definition compression_all (c : Compression) (b : Builder) :=
  mkBuilder c (default_encoding b) (default_dictionary b)
    (column_compression b) (column_encoding b).

Definition encoding_for (name : string) (e : Encoding) (b : Builder) :=
  mkBuilder (default_compression b) (default_encoding b) (default_dictionary b)
    (column_compression b) ((name, e) :: column_encoding b).

Definition encoding_all (e : Encoding) (b : Builder) :=
  mkBuilder (default_compression b) e (default_dictionary b)
    (column_compression b) (column_encoding b).

Definition disable_dictionary (b : Builder) :=
  mkBuilder (default_compression b) (default_encoding b) false
    (column_compression b) (column_encoding b).

Fixpoint assoc {V : Type} (name : string) (l : list (string * V)) : option V :=
  match l with
  | [] => None
  | (n, v) :: l' => if String.eqb n name then Some v else assoc name l'
  end.

(** What [builder.build()] gives for a column: the setting made for the
    column by name, else the default. *)
Definition compression (b : Builder) (column : string) : Compression :=
  match assoc column (column_compression b) with
  | Some c => c
  | None => default_compression b
  end.

Definition encoding (b : Builder) (column : string) : Encoding :=
  match assoc column (column_encoding b) with
  | Some e => e
  | None => default_encoding b
  end.

Definition dictionary_enabled (b : Builder) (column : string) : bool :=
  default_dictionary b.

(** The defaults of a fresh [parquet::WriterProperties::Builder] in Apache
    Arrow ([parquet/properties.h]: [DEFAULT_COMPRESSION_TYPE],
    [DEFAULT_ENCODING], [DEFAULT_IS_DICTIONARY_ENABLED]). *)
Definition arrow_defaults : Builder :=
  mkBuilder UNCOMPRESSED PLAIN true [] [].

End Sys.

(** ** What [vti2pqtv2a.cc] and [vti2pqtv2b.cc] have in common

    The class [Iterator], [GetSchema] and the builder calls of the
    [ParquetWriter] constructor are the same text in both files (and the
    last two also in the repack tool). *)

Module Vti.
Import Run Sys.
Local Open Scope string_scope.
Local Open Scope run_scope.

Record Iterator : Type := mkIterator {
  n_ : Z;                      (* int: total number of elements *)
  v02_ : list F32.float;       (* float* *)
  v03_ : list F32.float;
  i_ : Z                       (* int *)
}.

Definition SeekToFirst (it : Iterator) : Iterator :=
  mkIterator (n_ it) (v02_ it) (v03_ it) 0.

Definition Valid (it : Iterator) : bool :=
  ((0 <=? i_ it) && (i_ it <? n_ it))%Z.

Definition Next (it : Iterator) : Iterator :=
  mkIterator (n_ it) (v02_ it) (v03_ it) (Cxx.wrap32 (i_ it + 1)).

Definition v02 (it : Iterator) : M F32.float := index (v02_ it) (i_ it).
Definition v03 (it : Iterator) : M F32.float := index (v03_ it) (i_ it).

(** The macro [GET_POINTER]: the result of [FastDownCast] is dereferenced
    without a test. *)
Definition GET_POINTER (pointData : list (string * vtkArray))
    (attributename : string) : M (list F32.float) :=
  deref (FastDownCast_float (GetAbstractArray pointData attributename)).

Definition Iterator_new (image : vtkImageData) : M Iterator :=
  let pointData := PointData image in
  let n := Cxx.wrap32 (NumberOfPoints image) in
  v02 <- GET_POINTER pointData "v02" ;;
  v03 <- GET_POINTER pointData "v03" ;;
  ret (mkIterator n v02 v03 0).

(** An upper bound of the number of times a loop that calls [Next] once
    per turn can find the iterator [Valid]. *)
Definition remaining (it : Iterator) : nat := Z.to_nat (n_ it - i_ it).

Definition GetSchema : list (string * PrimitiveType) :=
  [("timestep", INT32); ("rowid", INT32); ("v02", FLOAT); ("v03", FLOAT)].

(** The builder calls of the constructor, from the builder's initial
    state. *)
Definition properties (init : Builder) : Builder :=
  disable_dictionary
    (encoding_all PLAIN
       (encoding_for "rowid" DELTA_BINARY_PACKED
          (encoding_for "timestep" DELTA_BINARY_PACKED
             (compression_all UNCOMPRESSED
                (compression_for "rowid" SNAPPY
                   (compression_for "timestep" SNAPPY init)))))).

End Vti.

(** ** [vti2pqtv2a.cc]: one file, one row group per timestep *)

Module V2a.
Import Run Sys Vti.
Local Open Scope string_scope.
Local Open Scope run_scope.

Record ParquetWriter : Type := mkWriter {
  writer_ : option string;     (* the StreamWriter, known by the path it
                                  writes to; None is nullptr *)
  rowid_ : Z;                  (* int32_t *)
  pending_rgflush_ : bool
}.

Definition ParquetWriter_new (file : string) : M ParquetWriter :=
  act (OpenWriter file GetSchema (properties arrow_defaults) []) ;;;
  ret (mkWriter (Some file) 0 false).

(** [*writer_ << ...]. *)
Definition put (w : ParquetWriter) (item : Item) : M unit :=
  path <- deref (writer_ w) ;;
  act (Write path item).

Definition Append (w : ParquetWriter) (timestep : Z) (v02 v03 : F32.float)
    : M ParquetWriter :=
  w <- (if pending_rgflush_ w
        then put w EndRowGroup ;;; ret (mkWriter (writer_ w) (rowid_ w) false)
        else ret w) ;;
  put w (Row [I32 timestep; I32 (rowid_ w);
              F32 (F32.quantize v02); F32 (F32.quantize v03)]) ;;;
  ret (mkWriter (writer_ w) (Cxx.wrap32 (rowid_ w + 1)) (pending_rgflush_ w)).

Definition FlushRowGroup (w : ParquetWriter) : ParquetWriter :=
  mkWriter (writer_ w) 0 true.

Definition Finish (w : ParquetWriter) : M ParquetWriter :=
  match writer_ w with
  | Some path => act (Close path)
  | None => ret tt
  end ;;;
  ret (mkWriter None (rowid_ w) (pending_rgflush_ w)).

Section Program.
Variable env : Env.

Definition Rewrite (from : string) (timestep : Z) (writer : ParquetWriter)
    : M ParquetWriter :=
  act (Stdout ("Processing " ++ from ++ "... " ++ nl)) ;;;
  let image := enable_arrays ["v02"; "v03"] (read_vti env from) in
  it <- Iterator_new image ;;
  let it := SeekToFirst it in
  s <- while (remaining it) (fun s => Valid (fst s))
         (fun s =>
            let '(it, writer) := s in
            a <- v02 it ;;
            b <- v03 it ;;
            writer <- Append writer timestep a b ;;
            ret (Next it, writer))
         (it, writer) ;;
  ret (FlushRowGroup (snd s)).

(** One turn of the [readdir] loop: the state is [work_items], [tmp1] and
    [tmp2]. *)
Definition scan_entry (base1 base2 : nat) (entry : dirent)
    (s : Cxx.map_int string * string * string)
    : M (Cxx.map_int string * string * string) :=
  let '(work_items, tmp1, tmp2) := s in
  match d_type entry with
  | DT_REG =>
      let f := d_name entry in
      if Cxx.StringEndWith f ".vti" then
        let tmp1 := Cxx.resize tmp1 base1 ++ "/" ++ f in
        tmp2 <- (if Nat.eqb (String.length tmp2) base2 then
                   stem <- substr_or_throw f 0
                             (Cxx.wrap_size (Cxx.size f - 4 - 5 - 1)) ;;
                   ret (tmp2 ++ "/" ++ stem ++ ".parquet")
                 else ret tmp2) ;;
        key <- substr_or_throw f (Cxx.wrap_size (Cxx.size f - 4 - 5)) 5 ;;
        let t := Cxx.atoi key in
        ret (Cxx.map_assign t tmp1 work_items, tmp1, tmp2)
      else ret s
  | _ => ret s
  end.

Definition scan (indir outdir : string) (entries : list dirent)
    : M (Cxx.map_int string * string * string) :=
  for_each entries
    (scan_entry (String.length indir) (String.length outdir))
    ([], indir, outdir).

Definition ProcessDir (indir outdir : string) : M unit :=
  match opendir env indir with
  | inl error =>
      act (Stderr ("Fail to open dir " ++ indir ++ ": " ++ error ++ nl)) ;;;
      stop (Exited Cxx.EXIT_FAILURE)
  | inr entries =>
      s <- scan indir outdir entries ;;
      let '(work_items, _, tmp2) := s in
      file <- FileOutputStream_Open env tmp2 ;;
      writer <- ParquetWriter_new file ;;
      writer <- for_each work_items
                  (fun kv writer => Rewrite (snd kv) (fst kv) writer)
                  writer ;;
      _ <- Finish writer ;;
      act (Stdout ("Done!" ++ nl))
  end.

Definition main (argv : list string) : M Z :=
  match argv with
  | _ :: indir :: rest =>
      ProcessDir indir (match rest with outdir :: _ => outdir | [] => "." end) ;;;
      ret 0%Z
  | _ =>
      act (Stderr ("Usage: " ++ hd "" argv ++ " inputdir <outputdir>")) ;;;
      stop (Exited Cxx.EXIT_FAILURE)
  end.

End Program.
End V2a.

(** ** [vti2pqtv2b.cc]: split files per snapshot, continuous row ids *)

Module V2b.
Import Run Sys Vti.
Local Open Scope string_scope.
Local Open Scope run_scope.

Record ParquetWriterOptions : Type := mkOptions { rowid : Z }.

Record ParquetWriter : Type := mkWriter {
  writer_ : option string;     (* the StreamWriter; None is nullptr *)
  rowid_ : Z                   (* int32_t *)
}.

Definition ParquetWriter_new (options : ParquetWriterOptions) (file : string)
    : M ParquetWriter :=
  act (OpenWriter file GetSchema (properties arrow_defaults) []) ;;;
  ret (mkWriter (Some file) (rowid options)).

Definition put (w : ParquetWriter) (item : Item) : M unit :=
  path <- deref (writer_ w) ;;
  act (Write path item).

Definition Append (w : ParquetWriter) (timestep : Z) (v02 v03 : F32.float)
    : M ParquetWriter :=
  put w (Row [I32 timestep; I32 (rowid_ w);
              F32 (F32.quantize v02); F32 (F32.quantize v03)]) ;;;
  ret (mkWriter (writer_ w) (Cxx.wrap32 (rowid_ w + 1))).

Definition Finish (w : ParquetWriter) : M ParquetWriter :=
  match writer_ w with
  | Some path => act (Close path)
  | None => ret tt
  end ;;;
  ret (mkWriter None (rowid_ w)).

Section Program.
Variable env : Env.

(** The row-count ceiling of one physical file; [100 * 500 * 500] in the
    source. *)
Variable ceiling : Z.

(** The iterator is passed by pointer: its state after the call is
    returned with [n]. *)
Definition Rewrite0 (timestep rowid : Z) (it : Iterator) (from to : string)
    : M (Z * Iterator) :=
  file <- FileOutputStream_Open env to ;;
  writer <- ParquetWriter_new (mkOptions rowid) file ;;
  s <- while (remaining it)
         (fun s => let '(_, n, it) := s in (Valid it && (n <? ceiling)%Z)%bool)
         (fun s =>
            let '(writer, n, it) := s in
            a <- v02 it ;;
            b <- v03 it ;;
            writer <- Append writer timestep a b ;;
            ret (writer, Cxx.wrap32 (n + 1), Next it))
         (writer, 0%Z, it) ;;
  let '(writer, n, it) := s in
  _ <- Finish writer ;;
  ret (n, it).

Definition Rewrite (timestep : Z) (from to : string) : M unit :=
  act (Stdout ("Rewriting " ++ from ++ " to parquet... " ++ nl)) ;;;
  let image := enable_arrays ["v02"; "v03"] (read_vti env from) in
  it <- Iterator_new image ;;
  let it := SeekToFirst it in
  _ <- while (remaining it)
         (fun s => let '(_, _, _, it) := s in Valid it)
         (fun s =>
            let '(myto, i, rowid, it) := s in
            let myto := Cxx.resize myto (String.length to) in
            let myto := myto ++ "." in
            let myto := myto ++ Cxx.to_string i in
            let i := Cxx.wrap32 (i + 1) in
            r <- Rewrite0 timestep rowid it from myto ;;
            ret (myto, i, Cxx.wrap32 (rowid + fst r), snd r))
         (to, 0%Z, 0%Z, it) ;;
  ret tt.

(** One turn of the [readdir] loop: the state is [tmp1] and [tmp2]. *)
Definition process_entry (base1 base2 : nat) (entry : dirent)
    (s : string * string) : M (string * string) :=
  let '(tmp1, tmp2) := s in
  match d_type entry with
  | DT_REG =>
      let f := d_name entry in
      if Cxx.StringEndWith f ".vti" then
        let tmp1 := Cxx.resize tmp1 base1 ++ "/" ++ f in
        stem <- substr_or_throw f 0 (Cxx.wrap_size (Cxx.size f - 4)) ;;
        let tmp2 := Cxx.resize tmp2 base2 ++ "/" ++ stem ++ ".parquet" in
        key <- substr_or_throw f (Cxx.wrap_size (Cxx.size f - 4 - 5)) 5 ;;
        let t := Cxx.atoi key in
        Rewrite t tmp1 tmp2 ;;;
        ret (tmp1, tmp2)
      else ret s
  | _ => ret s
  end.

Definition ProcessDir (indir outdir : string) : M unit :=
  match opendir env indir with
  | inl error =>
      act (Stderr ("Fail to open dir " ++ indir ++ ": " ++ error ++ nl)) ;;;
      stop (Exited Cxx.EXIT_FAILURE)
  | inr entries =>
      _ <- for_each entries
             (process_entry (String.length indir) (String.length outdir))
             (indir, outdir) ;;
      act (Stdout ("Done!" ++ nl))
  end.

End Program.

(** The program as compiled: the ceiling is [100 * 500 * 500]. *)
Definition CEILING : Z := 100 * 500 * 500.

Definition main (env : Env) (argv : list string) : M Z :=
  match argv with
  | _ :: indir :: rest =>
      ProcessDir env CEILING indir
        (match rest with outdir :: _ => outdir | [] => "." end) ;;;
      ret 0%Z
  | _ =>
      act (Stderr ("Usage: " ++ hd "" argv ++ " inputdir <outputdir>")) ;;;
      stop (Exited Cxx.EXIT_FAILURE)
  end.

End V2b.

(** ** The repack tool (second program of [vti2pqtv2b.cc]) *)

Module Repack.
Import Run Sys.
Local Open Scope string_scope.
Local Open Scope run_scope.

Record ParquetWriter : Type := mkWriter {
  writer_ : option string      (* the StreamWriter; None is nullptr *)
}.

Definition ParquetWriter_new (file : string) : M ParquetWriter :=
  act (OpenWriter file Vti.GetSchema (Vti.properties arrow_defaults) []) ;;;
  ret (mkWriter (Some file)).

Definition put (w : ParquetWriter) (item : Item) : M unit :=
  path <- deref (writer_ w) ;;
  act (Write path item).

Definition Append (w : ParquetWriter) (timestep rowid : Z)
    (v02 v03 : F32.float) : M unit :=
  put w (Row [I32 timestep; I32 rowid; F32 v02; F32 v03]).

Definition Finish (w : ParquetWriter) : M ParquetWriter :=
  match writer_ w with
  | Some path => act (Close path)
  | None => ret tt
  end ;;;
  ret (mkWriter None).

(** A [parquet::StreamReader]: the rows not read yet. *)
Definition StreamReader : Type := list (list Cell).

Definition eof (reader : StreamReader) : bool :=
  match reader with [] => true | _ => false end.

(** [*reader >> timestep >> rowid >> v02 >> v03 >> parquet::EndRow]: the
    reader throws when the row at hand is not of these column types. *)
Definition read_row (reader : StreamReader)
    : M (Z * Z * F32.float * F32.float * StreamReader) :=
  match reader with
  | [I32 timestep; I32 rowid; F32 v02; F32 v03] :: reader' =>
      ret (timestep, rowid, v02, v03, reader')
  | _ => stop (Terminated "parquet::ParquetException")
  end.

Section Program.
Variable env : Env.

(** The row-count ceiling of one physical file; [31250000] in the
    source. *)
Variable ceiling : Z.

Definition Rewrite0 (reader : StreamReader) (dst : string) : M StreamReader :=
  file <- FileOutputStream_Open env dst ;;
  writer <- ParquetWriter_new file ;;
  s <- while (List.length reader)
         (fun s => let '(n, reader) := s in (negb (eof reader) && (n <? ceiling)%Z)%bool)
         (fun s =>
            let '(n, reader) := s in
            r <- read_row reader ;;
            let '(timestep, rowid, v02, v03, reader) := r in
            Append writer timestep rowid v02 v03 ;;;
            ret (Cxx.wrap32 (n + 1), reader))
         (0%Z, reader) ;;
  _ <- Finish writer ;;
  ret (snd s).

Definition Rewrite (src : string) : M unit :=
  act (Stdout ("Rewriting " ++ src ++ " to parquet... " ++ nl)) ;;;
  match read_parquet env src with
  | None => stop (Terminated "parquet::ParquetStatusException")
  | Some reader =>
      _ <- while (List.length reader)
             (fun s => let '(_, _, reader) := s in negb (eof reader))
             (fun s =>
                let '(dst, i, reader) := s in
                let dst := Cxx.resize dst (String.length src) in
                let dst := dst ++ "." in
                let dst := dst ++ Cxx.to_string i in
                let i := Cxx.wrap32 (i + 1) in
                reader <- Rewrite0 reader dst ;;
                ret (dst, i, reader))
             (src, 0%Z, reader) ;;
      ret tt
  end.

Definition process_entry (base : nat) (entry : dirent) (tmp : string)
    : M string :=
  match d_type entry with
  | DT_REG =>
      let f := d_name entry in
      if Cxx.StringEndWith f ".parquet" then
        let tmp := Cxx.resize tmp base ++ "/" ++ f in
        Rewrite tmp ;;; ret tmp
      else ret tmp
  | _ => ret tmp
  end.

Definition ProcessDir (indir : string) : M unit :=
  match opendir env indir with
  | inl error =>
      act (Stderr ("Fail to open dir " ++ indir ++ ": " ++ error ++ nl)) ;;;
      stop (Exited Cxx.EXIT_FAILURE)
  | inr entries =>
      _ <- for_each entries (process_entry (String.length indir)) indir ;;
      act (Stdout ("Done!" ++ nl))
  end.

End Program.

(** The program as compiled. *)
Definition CEILING : Z := 31250000.

Definition main (env : Env) (argv : list string) : M Z :=
  match argv with
  | _ :: indir :: _ =>
      ProcessDir env CEILING indir ;;;
      ret 0%Z
  | _ =>
      act (Stderr ("Usage: " ++ hd "" argv ++ " inputdir")) ;;;
      stop (Exited Cxx.EXIT_FAILURE)
  end.

End Repack.

(** ** [unnamed/part_000]: one file per snapshot, with metadata *)

Module Meta.
Import Run Sys.
Local Open Scope string_scope.
Local Open Scope run_scope.

Record Iterator : Type := mkIterator {
  n_ : Z;
  prs_ : list F32.float;
  tev_ : list F32.float;
  v02_ : list F32.float;
  v03_ : list F32.float;
  i_ : Z
}.

Definition SeekToFirst (it : Iterator) : Iterator :=
  mkIterator (n_ it) (prs_ it) (tev_ it) (v02_ it) (v03_ it) 0.

Definition Valid (it : Iterator) : bool :=
  ((0 <=? i_ it) && (i_ it <? n_ it))%Z.

Definition Next (it : Iterator) : Iterator :=
  mkIterator (n_ it) (prs_ it) (tev_ it) (v02_ it) (v03_ it)
    (Cxx.wrap32 (i_ it + 1)).

Definition v02 (it : Iterator) : M F32.float := index (v02_ it) (i_ it).
Definition v03 (it : Iterator) : M F32.float := index (v03_ it) (i_ it).

Definition Iterator_new (image : vtkImageData) : M Iterator :=
  let pointData := PointData image in
  let n := Cxx.wrap32 (NumberOfPoints image) in
  prs <- Vti.GET_POINTER pointData "prs" ;;
  tev <- Vti.GET_POINTER pointData "tev" ;;
  v02 <- Vti.GET_POINTER pointData "v02" ;;
  v03 <- Vti.GET_POINTER pointData "v03" ;;
  ret (mkIterator n prs tev v02 v03 0).

Definition remaining (it : Iterator) : nat := Z.to_nat (n_ it - i_ it).

Definition GetSchema : list (string * PrimitiveType) :=
  [("rowid", INT32); ("v02", FLOAT); ("v03", FLOAT)].

Definition properties (init : Builder) : Builder :=
  disable_dictionary
    (encoding_all PLAIN
       (encoding_for "rowid" DELTA_BINARY_PACKED
          (compression_all UNCOMPRESSED
             (compression_for "rowid" SNAPPY init)))).

Record ParquetWriter : Type := mkWriter {
  writer_ : option string;
  rowid_ : Z
}.

Definition ParquetWriter_new (file : string) (kv : list (string * string))
    : M ParquetWriter :=
  act (OpenWriter file GetSchema (properties arrow_defaults) kv) ;;;
  ret (mkWriter (Some file) 0).

Definition put (w : ParquetWriter) (item : Item) : M unit :=
  path <- deref (writer_ w) ;;
  act (Write path item).

Definition Append (w : ParquetWriter) (it : Iterator) : M ParquetWriter :=
  a <- v02 it ;;
  b <- v03 it ;;
  put w (Row [I32 (rowid_ w); F32 (F32.quantize a); F32 (F32.quantize b)]) ;;;
  ret (mkWriter (writer_ w) (Cxx.wrap32 (rowid_ w + 1))).

Definition Finish (w : ParquetWriter) : M ParquetWriter :=
  match writer_ w with
  | Some path => act (Close path)
  | None => ret tt
  end ;;;
  ret (mkWriter None (rowid_ w)).

Section Program.
Variable env : Env.

(** [std::to_string(double)]. *)
Variable to_string_double : spec_float -> string.

(** The [unordered_map] the thirteen assignments [kv[...] = ...] build. *)
Definition ExtraMetadata (image : vtkImageData)
    : M (Cxx.unordered_map string) :=
  let fieldData := FieldData image in
  let kv : Cxx.unordered_map string := [] in
  let '(e0, e1, e2, e3, e4, e5) := Extent image in
  let kv := Cxx.unordered_assign "extent_0" (Cxx.to_string e0) kv in
  let kv := Cxx.unordered_assign "extent_1" (Cxx.to_string e1) kv in
  let kv := Cxx.unordered_assign "extent_2" (Cxx.to_string e2) kv in
  let kv := Cxx.unordered_assign "extent_3" (Cxx.to_string e3) kv in
  let kv := Cxx.unordered_assign "extent_4" (Cxx.to_string e4) kv in
  let kv := Cxx.unordered_assign "extent_5" (Cxx.to_string e5) kv in
  let '(o0, o1, o2) := Origin image in
  let kv := Cxx.unordered_assign "origin_0" (to_string_double o0) kv in
  let kv := Cxx.unordered_assign "origin_1" (to_string_double o1) kv in
  let kv := Cxx.unordered_assign "origin_2" (to_string_double o2) kv in
  let '(s0, s1, s2) := Spacing image in
  let kv := Cxx.unordered_assign "spacing_0" (to_string_double s0) kv in
  let kv := Cxx.unordered_assign "spacing_1" (to_string_double s1) kv in
  let kv := Cxx.unordered_assign "spacing_2" (to_string_double s2) kv in
  values <- deref (FastDownCast_int (GetAbstractArray fieldData "cycle_index")) ;;
  cycle_index <- index values 0 ;;
  ret (Cxx.unordered_assign "cycle_index" (Cxx.to_string cycle_index) kv).

(** [std::make_shared<arrow::KeyValueMetadata>(ExtraMetadata(image))] takes
    the keys and the values of the map in the order in which the map
    iterates: that is the order of the metadata of the file. *)
Definition Rewrite (from to : string) : M unit :=
  act (Stdout ("Rewriting " ++ from ++ " to parquet... " ++ nl)) ;;;
  let image := read_vti env from in
  file <- FileOutputStream_Open env to ;;
  kv <- ExtraMetadata image ;;
  writer <- ParquetWriter_new file (unordered_order env kv) ;;
  it <- Iterator_new image ;;
  let it := SeekToFirst it in
  s <- while (remaining it) (fun s => Valid (fst s))
         (fun s =>
            let '(it, writer) := s in
            writer <- Append writer it ;;
            ret (Next it, writer))
         (it, writer) ;;
  _ <- Finish (snd s) ;;
  ret tt.

Definition process_entry (base1 base2 : nat) (entry : dirent)
    (s : string * string) : M (string * string) :=
  let '(tmp1, tmp2) := s in
  match d_type entry with
  | DT_REG | DT_LNK =>
      let f := d_name entry in
      if Cxx.StringEndWith f ".vti" then
        let tmp1 := Cxx.resize tmp1 base1 ++ "/" ++ f in
        stem <- substr_or_throw f 0 (Cxx.wrap_size (Cxx.size f - 4)) ;;
        let tmp2 := Cxx.resize tmp2 base2 ++ "/" ++ stem ++ ".parquet" in
        Rewrite tmp1 tmp2 ;;;
        ret (tmp1, tmp2)
      else ret s
  | _ => ret s
  end.

Definition ProcessDir (indir outdir : string) : M unit :=
  match opendir env indir with
  | inl error =>
      act (Stderr ("Fail to open dir " ++ indir ++ ": " ++ error ++ nl)) ;;;
      stop (Exited Cxx.EXIT_FAILURE)
  | inr entries =>
      _ <- for_each entries
             (process_entry (String.length indir) (String.length outdir))
             (indir, outdir) ;;
      act (Stdout ("Done!" ++ nl))
  end.

Definition main (argv : list string) : M Z :=
  match argv with
  | _ :: indir :: rest =>
      ProcessDir indir (match rest with outdir :: _ => outdir | [] => "." end) ;;;
      ret 0%Z
  | _ =>
      act (Stderr ("Usage: " ++ hd "" argv ++ " inputdir <outputdir>")) ;;;
      stop (Exited Cxx.EXIT_FAILURE)
  end.

End Program.
End Meta.

(** ** [unnamed/part_001]: the unstructured-grid converter, namespace [xrage] *)

Module Xrage.
Import Run Sys.
Local Open Scope string_scope.

Definition GetSchema : list (string * PrimitiveType) :=
  [("rho", FLOAT); ("prs", FLOAT); ("tev", FLOAT); ("xdt", FLOAT);
   ("ydt", FLOAT); ("zdt", FLOAT); ("snd", FLOAT); ("grd", FLOAT);
   ("mat", FLOAT); ("v02", FLOAT); ("v03", FLOAT)].

(** The only builder call is [builder.compression(ZSTD)]; the call of
    [disable_dictionary] is commented out in the source. *)
Definition properties (init : Builder) : Builder :=
  compression_all ZSTD init.

Record ParquetWriter : Type := mkWriter {
  writer_ : option string
}.

Definition ParquetWriter_new (file : string) : M ParquetWriter :=
  bind (act (OpenWriter file GetSchema (properties arrow_defaults) []))
    (fun _ => ret (mkWriter (Some file))).

Local Open Scope run_scope.

(** What the program reads of a [vtkUnstructuredGrid]. *)
Record vtkUnstructuredGrid : Type := mkGrid {
  NumberOfCells : Z;                        (* vtkIdType, 64 bits *)
  CellData : list (string * vtkArray)
}.

Record Iterator : Type := mkIterator {
  n_ : Z;                      (* int: total number of elements *)
  rho_ : list F32.float;       (* float* *)
  prs_ : list F32.float;
  tev_ : list F32.float;
  xdt_ : list F32.float;
  ydt_ : list F32.float;
  zdt_ : list F32.float;
  snd_ : list F32.float;
  grd_ : list F32.float;
  mat_ : list F32.float;
  v02_ : list F32.float;
  v03_ : list F32.float;
  i_ : Z                       (* int *)
}.

Definition seek (it : Iterator) (i : Z) : Iterator :=
  mkIterator (n_ it) (rho_ it) (prs_ it) (tev_ it) (xdt_ it) (ydt_ it)
    (zdt_ it) (snd_ it) (grd_ it) (mat_ it) (v02_ it) (v03_ it) i.

Definition SeekToFirst (it : Iterator) : Iterator := seek it 0.

Definition Valid (it : Iterator) : bool :=
  ((0 <=? i_ it) && (i_ it <? n_ it))%Z.

Definition Next (it : Iterator) : Iterator :=
  seek it (Cxx.wrap32 (i_ it + 1)).

Definition rho (it : Iterator) : M F32.float := index (rho_ it) (i_ it).
Definition prs (it : Iterator) : M F32.float := index (prs_ it) (i_ it).
Definition tev (it : Iterator) : M F32.float := index (tev_ it) (i_ it).
Definition xdt (it : Iterator) : M F32.float := index (xdt_ it) (i_ it).
Definition ydt (it : Iterator) : M F32.float := index (ydt_ it) (i_ it).
Definition zdt (it : Iterator) : M F32.float := index (zdt_ it) (i_ it).
Definition snd (it : Iterator) : M F32.float := index (snd_ it) (i_ it).
Definition grd (it : Iterator) : M F32.float := index (grd_ it) (i_ it).
Definition mat (it : Iterator) : M F32.float := index (mat_ it) (i_ it).
Definition v02 (it : Iterator) : M F32.float := index (v02_ it) (i_ it).
Definition v03 (it : Iterator) : M F32.float := index (v03_ it) (i_ it).

(** The constructor; the macro [GET_POINTER] is that of the image
    converters, applied to the cell data. *)
Definition Iterator_new (grid : vtkUnstructuredGrid) : M Iterator :=
  let celldata := CellData grid in
  let n := Cxx.wrap32 (NumberOfCells grid) in
  rho <- Vti.GET_POINTER celldata "rho" ;;
  prs <- Vti.GET_POINTER celldata "prs" ;;
  tev <- Vti.GET_POINTER celldata "tev" ;;
  xdt <- Vti.GET_POINTER celldata "xdt" ;;
  ydt <- Vti.GET_POINTER celldata "ydt" ;;
  zdt <- Vti.GET_POINTER celldata "zdt" ;;
  snd <- Vti.GET_POINTER celldata "snd" ;;
  grd <- Vti.GET_POINTER celldata "grd" ;;
  mat <- Vti.GET_POINTER celldata "mat" ;;
  v02 <- Vti.GET_POINTER celldata "v02" ;;
  v03 <- Vti.GET_POINTER celldata "v03" ;;
  ret (mkIterator n rho prs tev xdt ydt zdt snd grd mat v02 v03 0).

Definition remaining (it : Iterator) : nat := Z.to_nat (n_ it - i_ it).

Definition put (w : ParquetWriter) (item : Item) : M unit :=
  path <- deref (writer_ w) ;;
  act (Write path item).

Definition Append (w : ParquetWriter) (it : Iterator) : M unit :=
  rho <- rho it ;;
  prs <- prs it ;;
  tev <- tev it ;;
  xdt <- xdt it ;;
  ydt <- ydt it ;;
  zdt <- zdt it ;;
  snd <- snd it ;;
  grd <- grd it ;;
  mat <- mat it ;;
  v02 <- v02 it ;;
  v03 <- v03 it ;;
  put w (Row [F32 rho; F32 prs; F32 tev; F32 xdt; F32 ydt; F32 zdt;
              F32 snd; F32 grd; F32 mat; F32 v02; F32 v03]).

Definition Finish (w : ParquetWriter) : M ParquetWriter :=
  match writer_ w with
  | Some path => act (Close path)
  | None => ret tt
  end ;;;
  ret (mkWriter None).

Section Program.
Variable env : Env.

(** The grid a [vtkXMLUnstructuredGridReader] produces for a path. *)
Variable read_vtu : string -> vtkUnstructuredGrid.

Definition Rewrite (from to : string) : M unit :=
  act (Stdout ("Rewriting " ++ from ++ " to parquet... " ++ nl)) ;;;
  let grid := read_vtu from in
  file <- FileOutputStream_Open env to ;;
  writer <- ParquetWriter_new file ;;
  it <- Iterator_new grid ;;
  let it := SeekToFirst it in
  _ <- while (remaining it) Valid
         (fun it =>
            Append writer it ;;;
            ret (Next it))
         it ;;
  _ <- Finish writer ;;
  ret tt.

Definition process_entry (base1 base2 : nat) (entry : dirent)
    (s : string * string) : M (string * string) :=
  let '(tmp1, tmp2) := s in
  match d_type entry with
  | DT_REG | DT_LNK =>
      let f := d_name entry in
      if Cxx.StringEndWith f ".vtu" then
        let tmp1 := Cxx.resize tmp1 base1 ++ "/" ++ f in
        stem <- substr_or_throw f 0 (Cxx.wrap_size (Cxx.size f - 4)) ;;
        let tmp2 := Cxx.resize tmp2 base2 ++ "/" ++ stem ++ ".parquet" in
        Rewrite tmp1 tmp2 ;;;
        ret (tmp1, tmp2)
      else ret s
  | _ => ret s
  end.

Definition ProcessDir (indir outdir : string) : M unit :=
  match opendir env indir with
  | inl error =>
      act (Stderr ("Fail to open dir " ++ indir ++ ": " ++ error ++ nl)) ;;;
      stop (Exited Cxx.EXIT_FAILURE)
  | inr entries =>
      _ <- for_each entries
             (process_entry (String.length indir) (String.length outdir))
             (indir, outdir) ;;
      act (Stdout ("Done!" ++ nl))
  end.

Definition main (argv : list string) : M Z :=
  match argv with
  | _ :: indir :: rest =>
      ProcessDir indir (match rest with outdir :: _ => outdir | [] => "." end) ;;;
      ret 0%Z
  | _ =>
      act (Stderr ("Usage: " ++ hd "" argv ++ " inputdir <outputdir>")) ;;;
      stop (Exited Cxx.EXIT_FAILURE)
  end.

End Program.

End Xrage.

(** ** Notions the statements below are phrased with *)

Module Spec.
Import Run.

(** A list cut into pieces of [c] elements, the last one shorter when the
    length is not a multiple of [c]. *)
Fixpoint chunks_fuel {A : Type} (fuel c : nat) (l : list A) : list (list A) :=
  match fuel, l with
  | O, _ | _, [] => []
  | S fuel', _ => firstn c l :: chunks_fuel fuel' c (skipn c l)
  end.

Definition chunks {A : Type} (c : nat) (l : list A) : list (list A) :=
  chunks_fuel (List.length l) c l.

(** The column [rowid] of a row of the four-column schema, and of the
    three-column one. *)
Definition rowid4 (row : list Cell) : option Z :=
  match row with
  | [I32 _; I32 r; F32 _; F32 _] => Some r
  | _ => None
  end.

Definition timestep4 (row : list Cell) : option Z :=
  match row with
  | [I32 t; I32 _; F32 _; F32 _] => Some t
  | _ => None
  end.

(** [start; start+1; ...; start+n-1]. *)
Definition iota (start : Z) (n : nat) : list Z :=
  map (fun k => start + Z.of_nat k) (seq 0 n).

(** The row that [Append] of either [vti2pqtv2*.cc] streams for the values
    [v] of the fields [v02] and [v03]. *)
Definition row4 (timestep rowid : Z) (v : F32.float * F32.float) : list Cell :=
  [I32 timestep; I32 rowid;
   F32 (F32.quantize (fst v)); F32 (F32.quantize (snd v))].

(** The rows for a sequence of records, row ids counting up from [rowid]. *)
Fixpoint rows_from (timestep rowid : Z) (l : list (F32.float * F32.float))
    : list (list Cell) :=
  match l with
  | [] => []
  | v :: l' => row4 timestep rowid v :: rows_from timestep (rowid + 1) l'
  end.

(** The actions that produce one physical output file holding [rows]. *)
Definition file_trace (path : string) (rows : list (list Cell)) : Trace :=
  Create path
    :: OpenWriter path Vti.GetSchema (Vti.properties Sys.arrow_defaults) []
    :: map (fun r => Write path (Row r)) rows ++ [Close path].

(** The name of the split file of sequence index [k]. *)
Definition split_name (base : string) (k : Z) : string :=
  (base ++ "." ++ Cxx.to_string k)%string.

(** The actions that produce one file per piece, numbered from [k]. *)
Fixpoint split_trace (base : string) (k : Z) (pieces : list (list (list Cell)))
    : Trace :=
  match pieces with
  | [] => []
  | rows :: pieces' =>
      file_trace (split_name base k) rows ++ split_trace base (k + 1) pieces'
  end.

(** The files [split_trace] produces. *)
Fixpoint split_files (base : string) (k : Z) (pieces : list (list (list Cell)))
    : list (string * list (list Cell)) :=
  match pieces with
  | [] => []
  | rows :: pieces' => (split_name base k, rows) :: split_files base (k + 1) pieces'
  end.

(** [files] is the row sequence [all] cut in order into files of at most
    [c] rows named [base.0], [base.1], ...: every file but the last holds
    [c] rows, the last holds what remains (at least one row), and the
    counts add up to the length of [all]. *)
Definition partition_of (base : string) (c : nat) (all : list (list Cell))
    (files : list (string * list (list Cell))) : Prop :=
  map fst files = map (split_name base) (iota 0 (List.length files))
  /\ List.concat (map snd files) = all
  /\ (forall k rows, nth_error (map snd files) k = Some rows ->
        (0 < List.length rows <= c)%nat
        /\ (S k < List.length files -> List.length rows = c)%nat)
  /\ Z.of_nat (List.length files)
     = (Z.of_nat (List.length all) + Z.of_nat c - 1) / Z.of_nat c
  /\ list_sum (map (fun f => List.length (snd f)) files) = List.length all.

(** A directory entry that [ProcessDir] of [vti2pqtv2a.cc] and
    [vti2pqtv2b.cc] takes for a snapshot. *)
Definition is_vti (e : Sys.dirent) : bool :=
  match Sys.d_type e with
  | Sys.DT_REG => Cxx.StringEndWith (Sys.d_name e) ".vti"
  | _ => false
  end.

(** The timestep in a file name: the five characters before [.vti]. *)
Definition key_of (f : string) : Z :=
  Cxx.atoi (substring (String.length f - 9) 5 f).

(** A name long enough for its key to be cut out. *)
Definition name_ok (e : Sys.dirent) : Prop :=
  is_vti e = true -> 9 <= Cxx.size (Sys.d_name e) < 2 ^ 64.

(** The ordered mapping after the entries were enumerated in order. *)
Definition work_items (indir : string) (entries : list Sys.dirent)
    : Cxx.map_int string :=
  fold_left
    (fun m e =>
       if is_vti e
       then Cxx.map_assign (key_of (Sys.d_name e))
              (indir ++ "/" ++ Sys.d_name e)%string m
       else m)
    entries [].

(** The path of the last snapshot enumerated whose key is [k]. *)
Definition last_with_key (indir : string) (k : Z) (entries : list Sys.dirent)
    : option string :=
  fold_left
    (fun found e =>
       if (is_vti e && (key_of (Sys.d_name e) =? k))%bool
       then Some (indir ++ "/" ++ Sys.d_name e)%string
       else found)
    entries None.

(** The progress line [Rewrite] of [vti2pqtv2a.cc] prints. *)
Definition processing (path : string) : string :=
  ("Processing " ++ path ++ "... " ++ Sys.nl)%string.

(** The column [timestep] of the rows streamed, in order. *)
Definition timesteps_written (t : Trace) : list (option Z) :=
  map timestep4 (rows_written t).

(** The product [v * 1000000] is zero, infinite, not a number, or rounds
    to an integer of magnitude below [8000011]. *)
Definition small_scaled (p : F32.float) : Prop :=
  match p with
  | S754_finite _ m e => e < 0 /\ F32.nearest_away m e < 8000011
  | _ => True
  end.

(** [stored] is within the relative error [bound] of [v]. *)
Definition relative_error_within (bound : Q) (stored v : F32.float) : Prop :=
  match F32.to_Q stored, F32.to_Q v with
  | Some a, Some b => (Qabs (a - b) <= bound * Qabs b)%Q
  | _, _ => False
  end.

(** The encoding policy of the specification for a column of a schema:
    an integer key column is delta encoded and compressed with the
    byte-oriented codec; a measurement column is plain encoded, has the
    file-level default compression, and no dictionary. *)
Definition column_policy (b : Builder) (column : string * PrimitiveType) : Prop :=
  match snd column with
  | INT32 =>
      Sys.encoding b (fst column) = DELTA_BINARY_PACKED
      /\ Sys.compression b (fst column) = SNAPPY
  | FLOAT =>
      Sys.encoding b (fst column) = PLAIN
      /\ Sys.compression b (fst column) = default_compression b
      /\ Sys.dictionary_enabled b (fst column) = false
  end.

(** One of the named arrays is absent from the data, or is not a
    [vtkFloatArray]. *)
Definition lacks_float (data : list (string * Sys.vtkArray))
    (names : list string) : Prop :=
  Exists
    (fun name => Sys.FastDownCast_float (Sys.GetAbstractArray data name) = None)
    names.

(** A run that ends in a fatal error reported to the user: [exit] with a
    status other than 0 after a line on the standard error stream, or an
    exception nobody catches (the runtime reports it and aborts). *)
Definition reported_fatal_error {A : Type} (run : M A) : Prop :=
  match fst run with
  | Stop (Exited code) => code <> 0 /\ std_err (snd run) <> []
  | Stop (Terminated _) => True
  | _ => False
  end.

(** A snapshot whose point data has the [float] arrays [v02] and [v03],
    one value per point, the number of points fitting an [int]. *)
Definition snapshot (image : Sys.vtkImageData) (v02 v03 : list F32.float) : Prop :=
  Sys.GetAbstractArray (Sys.PointData image) "v02" = Some (Sys.vtkFloatArray v02)
  /\ Sys.GetAbstractArray (Sys.PointData image) "v03" = Some (Sys.vtkFloatArray v03)
  /\ Sys.NumberOfPoints image = Z.of_nat (List.length v02)
  /\ List.length v03 = List.length v02
  /\ Z.of_nat (List.length v02) <= Cxx.INT_MAX.

(** A row of the schema [timestep, rowid, v02, v03]. *)
Definition typed4 (row : list Cell) : bool :=
  match row with
  | [I32 _; I32 _; F32 _; F32 _] => true
  | _ => false
  end.

(** The row ids of the rows of a group count up from 0 by 1. *)
Definition counted (g : list (list Cell)) : Prop :=
  map rowid4 g = map Some (iota 0 (List.length g)).

End Spec.

(** Writer operations as a caller may issue them on a [V2a.ParquetWriter],
    and their execution in order. *)
Module Ops.
Import Run.

Inductive Op : Type :=
| DoAppend (timestep : Z) (v02 v03 : F32.float)
| DoFlushRowGroup.

Definition step (op : Op) (w : V2a.ParquetWriter) : M V2a.ParquetWriter :=
  match op with
  | DoAppend timestep a b => V2a.Append w timestep a b
  | DoFlushRowGroup => ret (V2a.FlushRowGroup w)
  end.

Definition run (ops : list Op) (w : V2a.ParquetWriter) : M V2a.ParquetWriter :=
  for_each ops step w.

(** Every [EndRowGroup] is directly followed by a row: the row group it
    opens is not empty, and it is not the last item. *)
Fixpoint opens_no_empty_group (l : list Item) : bool :=
  match l with
  | [] => true
  | Row _ :: l' => opens_no_empty_group l'
  | EndRowGroup :: l' =>
      match l' with
      | Row _ :: _ => opens_no_empty_group l'
      | _ => false
      end
  end.

End Ops.

(** ** Concrete inputs *)

Module Examples.
Import Run Sys.
Local Open Scope string_scope.

Definition zero64 : spec_float := S754_zero false.

(** A snapshot of [n] points whose [v02] and [v03] hold small integers. *)
Definition image (n : nat) (offset : Z) : vtkImageData :=
  mkImage (Z.of_nat n)
    [("prs", vtkFloatArray (map F32.of_Z (Spec.iota (offset + 20) n)));
     ("tev", vtkFloatArray (map F32.of_Z (Spec.iota (offset + 30) n)));
     ("v02", vtkFloatArray (map F32.of_Z (Spec.iota offset n)));
     ("v03", vtkFloatArray (map F32.of_Z (Spec.iota (offset + 10) n)))]
    [("cycle_index", vtkIntArray [42])]
    (0, 1, 0, 1, 0, 1) (zero64, zero64, zero64) (zero64, zero64, zero64).

(** The same snapshot without the array [v02]. *)
Definition image_without_v02 : vtkImageData :=
  mkImage 2
    [("v03", vtkFloatArray (map F32.of_Z [10; 11]))]
    [("cycle_index", vtkIntArray [42])]
    (0, 1, 0, 1, 0, 1) (zero64, zero64, zero64) (zero64, zero64, zero64).

(** A snapshot with all point arrays and no [cycle_index]. *)
Definition image_without_cycle_index : vtkImageData :=
  mkImage 2 (PointData (image 2 0)) []
    (0, 1, 0, 1, 0, 1) (zero64, zero64, zero64) (zero64, zero64, zero64).

Definition seven_rows : list (list Cell) :=
  map (fun k => [I32 5; I32 k; F32 (F32.of_Z k); F32 (F32.of_Z (k + 10))])
    (Spec.iota 0 7).

(** A directory [in] of four snapshots whose names carry the timesteps 7,
    2, 15 and 2 in this order, a subdirectory and a file of another kind;
    every snapshot has one point, whose [v02] is 70, 20, 150 and 21. *)
Definition listing : list dirent :=
  [mkDirent DT_REG "run_00007.vti"; mkDirent DT_REG "run_00002.vti";
   mkDirent DT_DIR "old.vti"; mkDirent DT_REG "run_00015.vti";
   mkDirent DT_REG "new_00002.vti"; mkDirent DT_REG "notes.txt"].

(** An environment in which the directory [in] holds [listing], every
    file can be created, and an [unordered_map] iterates from the entry
    inserted last to the one inserted first. *)
Definition env : Env :=
  mkEnv
    (fun dir => if String.eqb dir "in" then inr listing
                else inl "No such file or directory")
    (fun path =>
       if String.eqb path "in/run_00007.vti" then image 1 70
       else if String.eqb path "in/run_00002.vti" then image 1 20
       else if String.eqb path "in/run_00015.vti" then image 1 150
       else if String.eqb path "in/new_00002.vti" then image 1 21
       else if String.eqb path "in/broken.vti" then image_without_v02
       else if String.eqb path "in/nocycle.vti" then image_without_cycle_index
       else image 7 1)
    (fun _ => true)
    (fun path => if String.eqb path "in/seven.parquet" then Some seven_rows
                 else None)
    (@rev _).

(** The value nearest to 8.000011 and the value nearest to 0.0000001. *)
Definition x_8_000011 : F32.float := S754_finite false 8388620 (-20).
Definition x_1e_7 : F32.float := S754_finite false 14073749 (-47).

(** The value one unit in the last place below [x_8_000011] (bit pattern
    [0x4100000b]): its product by 1000000 is 8000010.5 and rounds to
    8000011. *)
Definition x_8_0000105 : F32.float := S754_finite false 8388619 (-20).

End Examples.

(** ** Notions the further properties are phrased with *)

Module Names.

(** The character of the decimal digit [d]. *)
Definition digit (d : Z) : ascii := ascii_of_nat (Z.to_nat (48 + d)).

(** A field of decimal digits, as the names of the snapshots carry, and
    the number it reads as. *)
Definition field (ds : list Z) : string :=
  string_of_list_ascii (map digit ds).

Definition value (ds : list Z) : Z :=
  fold_left (fun acc d => 10 * acc + d) ds 0.

Definition digits (ds : list Z) : Prop :=
  Forall (fun d => 0 <= d <= 9) ds.

(** The last character of the string is a decimal digit. *)
Fixpoint ends_with_digit (s : string) : bool :=
  match s with
  | EmptyString => false
  | String c EmptyString =>
      match Cxx.digit_of c with Some _ => true | None => false end
  | String _ s' => ends_with_digit s'
  end.

End Names.

(** ** Further concrete inputs *)

Module Cases.
Import Run Sys.
Local Open Scope string_scope.

(** The environment of [Examples] with another answer of [opendir]: every
    directory holds [entries]. *)
Definition env_with (entries : list dirent) : Env :=
  mkEnv (fun _ => inr entries) (read_vti Examples.env)
    (can_create Examples.env) (read_parquet Examples.env)
    (unordered_order Examples.env).

(** The values of the point field [name] of the snapshot at [path]. *)
Definition field_of (name path : string) : list F32.float :=
  match FastDownCast_float
          (GetAbstractArray (PointData (read_vti Examples.env path)) name) with
  | Some values => values
  | None => []
  end.

(** The environment of [Examples] with another answer of the reader:
    every path holds [image]. *)
Definition env_of_image (image : vtkImageData) : Env :=
  mkEnv (opendir Examples.env) (fun _ => image)
    (can_create Examples.env) (read_parquet Examples.env)
    (unordered_order Examples.env).

(** Rows of a Parquet file of another schema after two good rows. *)
Definition mixed_rows : list (list Cell) :=
  [[I32 5; I32 0; F32 (F32.of_Z 1); F32 (F32.of_Z 2)];
   [I32 5; I32 1; F32 (F32.of_Z 3); F32 (F32.of_Z 4)];
   [I32 5; F32 (F32.of_Z 5); F32 (F32.of_Z 6)];
   [I32 5; I32 3; F32 (F32.of_Z 7); F32 (F32.of_Z 8)]].

Definition env_of_rows (rows : option (list (list Cell))) : Env :=
  mkEnv (opendir Examples.env) (read_vti Examples.env)
    (can_create Examples.env) (fun _ => rows)
    (unordered_order Examples.env).

(** A grid of two cells with the eleven cell fields. *)
Definition grid : Xrage.vtkUnstructuredGrid :=
  Xrage.mkGrid 2
    [("rho", vtkFloatArray (map F32.of_Z [1; 2]));
     ("prs", vtkFloatArray (map F32.of_Z [11; 12]));
     ("tev", vtkFloatArray (map F32.of_Z [21; 22]));
     ("xdt", vtkFloatArray (map F32.of_Z [31; 32]));
     ("ydt", vtkFloatArray (map F32.of_Z [41; 42]));
     ("zdt", vtkFloatArray (map F32.of_Z [51; 52]));
     ("snd", vtkFloatArray (map F32.of_Z [61; 62]));
     ("grd", vtkFloatArray (map F32.of_Z [71; 72]));
     ("mat", vtkFloatArray (map F32.of_Z [81; 82]));
     ("v02", vtkFloatArray [Examples.x_8_000011; Examples.x_1e_7]);
     ("v03", vtkFloatArray (map F32.of_Z [101; 102]))].

(** The values of the cell field [name] of [grid]. *)
Definition grid_column (name : string) : list F32.float :=
  match FastDownCast_float (GetAbstractArray (Xrage.CellData grid) name) with
  | Some values => values
  | None => []
  end.

(** A directory whose one snapshot has a name of nine characters: the
    five of the timestep field and the extension. *)
Definition nine_listing : list dirent := [mkDirent DT_REG "12345.vti"].

(** A directory of one good snapshot and one whose name is too short to
    hold a timestep. *)
Definition short_listing : list dirent :=
  [mkDirent DT_REG "run_00007.vti"; mkDirent DT_REG "a.vti"].

End Cases.

(** The conversions a directory gives rise to. *)
Module Plan.
Import Run Sys.
Local Open Scope string_scope.

(** What a loop of [Append] of [vti2pqtv2a.cc] streams to [path] for
    [rows] when [pending] tells whether the writer has a flush pending:
    the end of the row group before the first row, if there is a row. *)
Definition group_trace (path : string) (pending : bool)
    (rows : list (list Cell)) : Trace :=
  match rows with
  | [] => []
  | _ => ((if pending then [Write path EndRowGroup] else [])
            ++ map (fun row => Write path (Row row)) rows)%list
  end.

(** The rows of the converter with metadata for a sequence of records,
    row ids counting up from [rowid]. *)
Fixpoint rows3_from (rowid : Z) (l : list (F32.float * F32.float))
    : list (list Cell) :=
  match l with
  | [] => []
  | v :: l' =>
      [I32 rowid; F32 (F32.quantize (fst v)); F32 (F32.quantize (snd v))]
        :: rows3_from (rowid + 1) l'
  end.

(** The row of the unstructured-grid converter for the cell [i]: the
    values of the columns of the schema, as they are. *)
Definition grid_row (col : string -> list F32.float) (i : nat) : list Cell :=
  map (fun c => F32 (nth i (col (fst c)) (S754_zero false))) Xrage.GetSchema.

(** What [vti2pqtv2a.cc] does for the work items [work] whose rows are
    [rows]: per item the progress line and its group. *)
Fixpoint work_trace (path : string) (rows : Z * string -> list (list Cell))
    (pending : bool) (work : list (Z * string)) : Trace :=
  match work with
  | [] => []
  | kv :: work' =>
      (Stdout (Spec.processing (snd kv))
         :: group_trace path pending (rows kv)
         ++ work_trace path rows true work')%list
  end.

(** The entries [ProcessDir] takes for input: regular files, and symbolic
    links where [links] is set, whose name ends with [suffix]. *)
Definition selected (links : bool) (suffix : string) (e : dirent) : bool :=
  match d_type e with
  | DT_REG => Cxx.StringEndWith (d_name e) suffix
  | DT_LNK => links && Cxx.StringEndWith (d_name e) suffix
  | _ => false
  end.

(** A name without its last four characters. *)
Definition stem (f : string) : string :=
  substring 0 (String.length f - 4) f.

Definition source (indir : string) (e : dirent) : string :=
  indir ++ "/" ++ d_name e.

Definition target (outdir : string) (e : dirent) : string :=
  outdir ++ "/" ++ stem (d_name e) ++ ".parquet".

(** The entries of the metadata of the converter with metadata, for the
    extent, the origin and the spacing of a snapshot and the first value
    [c] of its attribute [cycle_index]; [metadata_keys] are their keys. *)
Definition metadata (to_string_double : spec_float -> string)
    (ext : Z * Z * Z * Z * Z * Z)
    (ori spc : spec_float * spec_float * spec_float) (c : Z)
    : list (string * string) :=
  let '(e0, e1, e2, e3, e4, e5) := ext in
  let '(o0, o1, o2) := ori in
  let '(s0, s1, s2) := spc in
  [("extent_0", Cxx.to_string e0); ("extent_1", Cxx.to_string e1);
   ("extent_2", Cxx.to_string e2); ("extent_3", Cxx.to_string e3);
   ("extent_4", Cxx.to_string e4); ("extent_5", Cxx.to_string e5);
   ("origin_0", to_string_double o0); ("origin_1", to_string_double o1);
   ("origin_2", to_string_double o2);
   ("spacing_0", to_string_double s0); ("spacing_1", to_string_double s1);
   ("spacing_2", to_string_double s2);
   ("cycle_index", Cxx.to_string c)].

Definition metadata_keys : list string :=
  ["extent_0"; "extent_1"; "extent_2"; "extent_3"; "extent_4"; "extent_5";
   "origin_0"; "origin_1"; "origin_2"; "spacing_0"; "spacing_1"; "spacing_2";
   "cycle_index"].

(** What [f.substr(0, f.size() - 4 - 5 - 1)] gives: the name without its
    last ten characters.  For a name of fewer than ten characters the
    count, of type [size_t], wraps to a number beyond every length, and
    the whole name is taken: [12345.vti] gives [12345.vti]. *)
Definition output_stem (f : string) : string :=
  if Nat.ltb (String.length f) 10 then f
  else substring 0 (String.length f - 10) f.

(** The path [ProcessDir] of [vti2pqtv2a.cc] writes to: named after the
    first snapshot enumerated, without the ten characters of its
    separator, timestep field and extension (all of the name when it has
    nine characters only); the output directory itself when the directory
    holds no snapshot. *)
Definition first_output (outdir : string) (entries : list dirent) : string :=
  match find Spec.is_vti entries with
  | Some e => outdir ++ "/" ++ output_stem (d_name e) ++ ".parquet"
  | None => outdir
  end.

(** What [Rewrite] of [vti2pqtv2b.cc] does for the snapshot [e] of a
    directory whose rows are [rows]: the progress line and the split
    files of at most [c] rows. *)
Definition split_job (indir outdir : string) (c : nat)
    (rows : dirent -> list (list Cell)) (e : dirent) : Trace :=
  Stdout ("Rewriting " ++ source indir e ++ " to parquet... " ++ nl)
    :: Spec.split_trace (target outdir e) 0 (Spec.chunks c (rows e)).

(** How [main] ends when the directory argument is missing, and when
    the directory cannot be opened. *)
Definition usage_error {A : Type} (prog synopsis : string) : M A :=
  (Stop (Exited Cxx.EXIT_FAILURE), [Stderr ("Usage: " ++ prog ++ synopsis)]).

Definition opendir_error {A : Type} (indir error : string) : M A :=
  (Stop (Exited Cxx.EXIT_FAILURE),
   [Stderr ("Fail to open dir " ++ indir ++ ": " ++ error ++ nl)]).

(** The state of the loop of [ProcessDir]: the names of the two
    directories, each followed by what the last turns appended. *)
Definition prefixed (indir outdir : string) (s : string * string) : Prop :=
  exists sfx1 sfx2, s = (indir ++ sfx1, outdir ++ sfx2).

End Plan.

(* ===================================================================== *)
(** * Part II.  Properties                                                *)
(* ===================================================================== *)

(** ** The monad *)

Section MonadLaws.
Import Run.
Context {A B C : Type}.

Lemma bind_ret_l (a : A) (k : A -> M B) : bind (ret a) k = k a.
Proof. unfold bind, ret. destruct (k a) as [o t]. reflexivity. Qed.

Lemma bind_act (x : IO) (k : unit -> M B) :
  bind (act x) k = (fst (k tt), x :: snd (k tt)).
Proof. unfold bind, act. destruct (k tt) as [o t]. reflexivity. Qed.

Lemma bind_stop (why : Abort) (k : A -> M B) : bind (stop why) k = stop why.
Proof. reflexivity. Qed.

Lemma bind_ok (m : M A) (k : A -> M B) a t o t' :
  m = (Ok a, t) -> k a = (o, t') -> bind m k = (o, t ++ t').
Proof. intros -> H. unfold bind. rewrite H. reflexivity. Qed.

Lemma bind_assoc (m : M A) (k : A -> M B) (h : B -> M C) :
  bind (bind m k) h = bind m (fun a => bind (k a) h).
Proof.
  destruct m as [[a | why |] t]; simpl; try reflexivity.
  destruct (k a) as [[b | why |] t']; simpl; try reflexivity.
  destruct (h b) as [o t'']. rewrite app_assoc. reflexivity.
Qed.

End MonadLaws.

Lemma for_each_app {A S : Type} (l1 l2 : list A) (body : A -> S -> Run.M S) s :
  Run.for_each (l1 ++ l2) body s
  = Run.bind (Run.for_each l1 body s) (Run.for_each l2 body).
Proof.
  revert s. induction l1 as [| a l1 IH]; intros s.
  - symmetry. apply bind_ret_l.
  - change (Run.bind (body a s) (Run.for_each (l1 ++ l2) body)
            = Run.bind (Run.bind (body a s) (Run.for_each l1 body))
                (Run.for_each l2 body)).
    rewrite bind_assoc.
    destruct (body a s) as [[s' | why |] t]; simpl; try reflexivity.
    now rewrite IH.
Qed.

(** ** 32-bit arithmetic *)

Lemma wrap32_small z :
  - 2 ^ 31 <= z <= Cxx.INT_MAX -> Cxx.wrap32 z = z.
Proof.
  unfold Cxx.wrap32, Cxx.INT_MAX. intros H.
  rewrite Z.mod_small; lia.
Qed.

Lemma wrap32_succ z :
  0 <= z < Cxx.INT_MAX -> Cxx.wrap32 (z + 1) = z + 1.
Proof. unfold Cxx.INT_MAX. intros H. apply wrap32_small. unfold Cxx.INT_MAX. lia. Qed.

(** ** Traces *)

Lemma items_app path t1 t2 :
  Run.items path (t1 ++ t2) = Run.items path t1 ++ Run.items path t2.
Proof.
  induction t1 as [| a t1 IH]; simpl; [reflexivity |].
  destruct a; try assumption.
  destruct (String.eqb path0 path); simpl; now rewrite IH.
Qed.

Lemma groups_from_flush_rows l : forall cur r1 r2,
  Run.groups_from cur (l ++ [Run.EndRowGroup; Run.Row r1; Run.Row r2])
  = Run.groups_from cur l ++ [[r1; r2]].
Proof.
  induction l as [| i l IH]; intros cur r1 r2; [reflexivity |].
  destruct i as [r0 |]; cbn [app Run.groups_from]; now rewrite IH.
Qed.

Lemma items_write path i t :
  Run.items path (Run.Write path i :: t) = i :: Run.items path t.
Proof. simpl. now rewrite String.eqb_refl. Qed.

Lemma iota_length start n : List.length (Spec.iota start n) = n.
Proof. unfold Spec.iota. now rewrite length_map, length_seq. Qed.

Lemma iota_S start n :
  Spec.iota start (S n) = Spec.iota start n ++ [start + Z.of_nat n].
Proof. unfold Spec.iota. now rewrite seq_S, map_app. Qed.

Lemma iota_cons start n :
  Spec.iota start (S n) = start :: Spec.iota (start + 1) n.
Proof.
  unfold Spec.iota. simpl. rewrite Z.add_0_r. f_equal.
  rewrite <- seq_shift, map_map. apply map_ext. intros k. lia.
Qed.

Lemma iota_app start n m :
  Spec.iota start (n + m)
  = Spec.iota start n ++ Spec.iota (start + Z.of_nat n) m.
Proof.
  revert start. induction n as [| n IH]; intros start.
  - simpl. now rewrite Z.add_0_r.
  - change (S n + m)%nat with (S (n + m)). rewrite !iota_cons, IH. simpl.
    do 3 f_equal. lia.
Qed.

(** ** The writer of [vti2pqtv2a.cc] *)

Section V2aWriter.
Import Run.
Variable path : string.

Let writer (r : Z) (p : bool) : V2a.ParquetWriter := V2a.mkWriter (Some path) r p.

Lemma V2a_Append_run r p timestep a b :
  V2a.Append (writer r p) timestep a b
  = (Ok (writer (Cxx.wrap32 (r + 1)) false),
     (if p then [Write path EndRowGroup] else [])
       ++ [Write path (Row [I32 timestep; I32 r; F32 (F32.quantize a);
                            F32 (F32.quantize b)])]).
Proof. destruct p; reflexivity. Qed.

Lemma V2a_step_total op r p :
  exists r' p' t, Ops.step op (writer r p) = (Ok (writer r' p'), t).
Proof.
  destruct op as [timestep a b |]; simpl.
  - rewrite V2a_Append_run. eauto.
  - now exists 0, true, [].
Qed.

Lemma V2a_run_total ops : forall r p,
  exists r' p' t, Ops.run ops (writer r p) = (Ok (writer r' p'), t).
Proof.
  induction ops as [| op ops IH]; intros r p.
  - now exists r, p, [].
  - destruct (V2a_step_total op r p) as (r1 & p1 & t1 & H1).
    destruct (IH r1 p1) as (r2 & p2 & t2 & H2).
    exists r2, p2, (t1 ++ t2). unfold Ops.run. simpl.
    now apply bind_ok with (a := writer r1 p1).
Qed.

Lemma V2a_run_cons op ops r p r1 p1 t1 :
  Ops.step op (writer r p) = (Ok (writer r1 p1), t1) ->
  snd (Ops.run (op :: ops) (writer r p))
  = t1 ++ snd (Ops.run ops (writer r1 p1)).
Proof.
  intros H. unfold Ops.run. simpl. rewrite H. simpl.
  fold (Ops.run ops (writer r1 p1)).
  now destruct (Ops.run ops (writer r1 p1)).
Qed.

Lemma V2a_run_flush_appends ops r p timestep a b timestep' a' b' :
  snd (Ops.run (ops ++ [Ops.DoFlushRowGroup; Ops.DoAppend timestep a b;
                        Ops.DoAppend timestep' a' b']) (writer r p))
  = snd (Ops.run ops (writer r p))
    ++ [Write path EndRowGroup;
        Write path (Row [I32 timestep; I32 0; F32 (F32.quantize a);
                         F32 (F32.quantize b)]);
        Write path (Row [I32 timestep'; I32 1; F32 (F32.quantize a');
                         F32 (F32.quantize b')])].
Proof.
  destruct (V2a_run_total ops r p) as (r' & p' & t & Hrun).
  unfold Ops.run in *. rewrite for_each_app, Hrun. reflexivity.
Qed.

Lemma V2a_run_no_empty_group ops : forall r p,
  Ops.opens_no_empty_group (items path (snd (Ops.run ops (writer r p)))) = true.
Proof.
  induction ops as [| op ops IH]; intros r p; [reflexivity |].
  destruct op as [timestep a b |].
  - rewrite (V2a_run_cons (Ops.DoAppend timestep a b) ops r p _ _ _
               (V2a_Append_run r p timestep a b)).
    specialize (IH (Cxx.wrap32 (r + 1)) false).
    destruct p; simpl; rewrite !String.eqb_refl; exact IH.
  - rewrite (V2a_run_cons Ops.DoFlushRowGroup ops r p 0 true [] eq_refl).
    apply IH.
Qed.

Lemma V2a_run_groups ops : forall cur r (p : bool),
  Spec.counted (rev cur) ->
  r = (if p then 0 else Z.of_nat (List.length cur)) ->
  Z.of_nat (List.length cur + List.length ops) <= Cxx.INT_MAX ->
  Forall Spec.counted
    (groups_from cur (items path (snd (Ops.run ops (writer r p))))).
Proof.
  induction ops as [| op ops IH]; intros cur r p Hcur Hr Hlen.
  - simpl. now constructor.
  - destruct op as [timestep a b |].
    + rewrite (V2a_run_cons (Ops.DoAppend timestep a b) ops r p _ _ _
                 (V2a_Append_run r p timestep a b)).
      simpl in Hlen. destruct p; subst r; simpl; rewrite !String.eqb_refl.
      * constructor; [exact Hcur |].
        apply IH; [reflexivity | reflexivity | simpl; lia].
      * apply IH; [| | simpl; lia].
        -- unfold Spec.counted in *. simpl rev. rewrite map_app, Hcur.
           rewrite length_app, !length_rev. simpl List.length.
           rewrite Nat.add_1_r, iota_S, map_app. reflexivity.
        -- rewrite wrap32_succ; [simpl List.length; lia |].
           unfold Cxx.INT_MAX in *. lia.
    + rewrite (V2a_run_cons Ops.DoFlushRowGroup ops r p 0 true [] eq_refl).
      simpl app.
      apply IH; [exact Hcur | reflexivity | simpl in Hlen; lia].
Qed.

End V2aWriter.

(** ** Lists and strings *)

Lemma skipn_nth_error {A : Type} (l : list A) i x :
  nth_error l i = Some x -> skipn i l = x :: skipn (S i) l.
Proof.
  revert l. induction i as [| i IH]; intros [| y l] H; try discriminate.
  - injection H as ->. reflexivity.
  - apply (IH l H).
Qed.

Lemma nth_error_combine {A B : Type} (l : list A) (l' : list B) i a b :
  nth_error l i = Some a -> nth_error l' i = Some b ->
  nth_error (combine l l') i = Some (a, b).
Proof.
  revert l l'. induction i as [| i IH]; intros [| x l] [| y l'] Ha Hb;
    try discriminate; simpl in *.
  - now injection Ha as ->; injection Hb as ->.
  - now apply IH.
Qed.

Lemma nth_error_in_range {A : Type} (l : list A) i :
  (i < List.length l)%nat -> exists x, nth_error l i = Some x.
Proof.
  intros H. destruct (nth_error l i) as [x |] eqn:E; [now exists x |].
  apply nth_error_None in E. lia.
Qed.

Lemma index_nth {A : Type} (l : list A) i x :
  nth_error l i = Some x -> Sys.index l (Z.of_nat i) = Run.ret x.
Proof.
  intros H. unfold Sys.index.
  destruct (Z.ltb_spec (Z.of_nat i) 0) as [Hneg |]; [lia |].
  now rewrite Nat2Z.id, H.
Qed.

Lemma append_empty_r s : (s ++ "")%string = s.
Proof. induction s as [| c s IH]; simpl; [reflexivity | now rewrite IH]. Qed.

Lemma substring_prefix s t :
  substring 0 (String.length s) (s ++ t) = s.
Proof.
  induction s as [| c s IH]; simpl.
  - now destruct t.
  - now rewrite IH.
Qed.

Lemma length_append s t :
  String.length (s ++ t) = (String.length s + String.length t)%nat.
Proof. induction s as [| c s IH]; simpl; [reflexivity | now rewrite IH]. Qed.

Lemma append_assoc s t u : ((s ++ t) ++ u)%string = (s ++ (t ++ u))%string.
Proof. induction s as [| c s IH]; simpl; [reflexivity | now rewrite IH]. Qed.

Lemma resize_prefix s t : Cxx.resize (s ++ t) (String.length s) = s.
Proof.
  unfold Cxx.resize. rewrite substring_prefix, length_append.
  replace (String.length s - (String.length s + String.length t))%nat
    with 0%nat by lia.
  apply append_empty_r.
Qed.

Lemma resize_self s : Cxx.resize s (String.length s) = s.
Proof.
  rewrite <- (append_empty_r s) at 1. apply resize_prefix.
Qed.

Lemma split_name_neq base k : Spec.split_name base k <> base.
Proof.
  unfold Spec.split_name. intros H.
  apply (f_equal String.length) in H. rewrite length_append in H.
  simpl in H. lia.
Qed.

(** ** Pieces of a list *)

Section Chunks.
Context {A : Type}.
Variable c : nat.
Hypothesis c_pos : (0 < c)%nat.

Lemma chunks_fuel_enough f1 : forall f2 (l : list A),
  (List.length l <= f1)%nat -> (List.length l <= f2)%nat ->
  Spec.chunks_fuel f1 c l = Spec.chunks_fuel f2 c l.
Proof.
  induction f1 as [| f1 IH]; intros f2 l H1 H2.
  - destruct l; [now destruct f2 | simpl in H1; lia].
  - destruct l as [| x l]; [now destruct f2 |].
    destruct f2 as [| f2]; [simpl in H2; lia |].
    cbn [Spec.chunks_fuel]. f_equal.
    apply IH; rewrite length_skipn; cbn [List.length] in *; lia.
Qed.

Lemma chunks_nil : Spec.chunks c (@nil A) = [].
Proof. reflexivity. Qed.

Lemma chunks_step (l : list A) :
  l <> [] -> Spec.chunks c l = firstn c l :: Spec.chunks c (skipn c l).
Proof.
  intros H. unfold Spec.chunks. destruct l as [| x l]; [congruence |].
  cbn [List.length Spec.chunks_fuel]. f_equal.
  apply chunks_fuel_enough; rewrite ?length_skipn; cbn [List.length]; lia.
Qed.

Lemma chunks_concat (l : list A) : List.concat (Spec.chunks c l) = l.
Proof.
  remember (List.length l) as n eqn:Hn. revert l Hn.
  induction n as [n IH] using lt_wf_ind. intros l Hn.
  destruct l as [| x l]; [reflexivity |].
  rewrite chunks_step by discriminate. cbn [List.concat].
  rewrite (IH (List.length (skipn c (x :: l)))); [apply firstn_skipn | | reflexivity].
  rewrite length_skipn. cbn [List.length] in *. lia.
Qed.

(** Every piece but the last has [c] elements; the last has between 1
    and [c]. *)
Lemma chunks_sizes (l : list A) :
  forall k piece, nth_error (Spec.chunks c l) k = Some piece ->
  (0 < List.length piece <= c)%nat
  /\ (S k < List.length (Spec.chunks c l) -> List.length piece = c)%nat.
Proof.
  remember (List.length l) as n eqn:Hn. revert l Hn.
  induction n as [n IH] using lt_wf_ind. intros l Hn k piece.
  destruct l as [| x l]; [now destruct k |].
  rewrite chunks_step by discriminate.
  destruct k as [| k]; simpl nth_error.
  - intros [= <-]. rewrite length_firstn. simpl List.length. split; [lia |].
    intros Hk.
    destruct (Nat.le_gt_cases c (S (List.length l))) as [| Hlt]; [lia |].
    rewrite skipn_all2 in Hk by (simpl; lia). simpl in Hk. lia.
  - intros Hk.
    destruct (IH (List.length (skipn c (x :: l)))
                ltac:(rewrite length_skipn; cbn [List.length] in *; lia)
                (skipn c (x :: l)) eq_refl k piece Hk) as [H1 H2].
    split; [exact H1 |]. simpl List.length. intros Hlt. apply H2. lia.
Qed.

Lemma chunks_length (l : list A) :
  Z.of_nat (List.length (Spec.chunks c l))
  = (Z.of_nat (List.length l) + Z.of_nat c - 1) / Z.of_nat c.
Proof.
  remember (List.length l) as n eqn:Hn. revert l Hn.
  induction n as [n IH] using lt_wf_ind. intros l Hn.
  destruct l as [| x l].
  - subst n. simpl. symmetry. apply Z.div_small. lia.
  - rewrite chunks_step by discriminate. simpl List.length.
    rewrite Nat2Z.inj_succ.
    rewrite (IH (List.length (skipn c (x :: l)))
               ltac:(rewrite length_skipn; cbn [List.length] in *; lia) _ eq_refl).
    rewrite length_skipn. subst n. simpl List.length.
    destruct (Nat.le_gt_cases c (S (List.length l))) as [Hle | Hlt].
    + rewrite Nat2Z.inj_sub by lia.
      replace (Z.of_nat (S (List.length l)) + Z.of_nat c - 1)
        with (Z.of_nat (S (List.length l)) - Z.of_nat c + Z.of_nat c - 1
              + 1 * Z.of_nat c) by lia.
      rewrite Z.div_add by lia. lia.
    + replace (S (List.length l) - c)%nat with 0%nat by lia.
      rewrite (Z.div_small (Z.of_nat 0 + _ - 1)) by lia.
      apply Z.div_unique with (r := Z.of_nat (S (List.length l)) - 1); lia.
Qed.

End Chunks.

(** ** Loops *)

Lemma while_false {S : Type} fuel (cond : S -> bool) body s :
  cond s = false -> Run.while fuel cond body s = Run.ret s.
Proof. intros H. destruct fuel; simpl; now rewrite H. Qed.

Lemma while_true {S : Type} fuel (cond : S -> bool) body s :
  cond s = true ->
  Run.while (Datatypes.S fuel) cond body s
  = Run.bind (body s) (Run.while fuel cond body).
Proof. intros H. simpl. now rewrite H. Qed.

Lemma rows_from_length timestep : forall l r,
  List.length (Spec.rows_from timestep r l) = List.length l.
Proof. induction l as [| v l IH]; intros r; simpl; [reflexivity | now rewrite IH]. Qed.

Lemma skipn_rows_from timestep : forall k r l,
  skipn k (Spec.rows_from timestep r l)
  = Spec.rows_from timestep (r + Z.of_nat k) (skipn k l).
Proof.
  induction k as [| k IH]; intros r l.
  - simpl. now rewrite Z.add_0_r.
  - destruct l as [| v l]; [reflexivity |]. simpl skipn. rewrite IH.
    f_equal. lia.
Qed.

Lemma rows_from_rowids timestep : forall l r,
  map Spec.rowid4 (Spec.rows_from timestep r l)
  = map Some (Spec.iota r (List.length l)).
Proof.
  induction l as [| v l IH]; intros r; [reflexivity |].
  simpl List.length. rewrite iota_cons. simpl. now rewrite IH.
Qed.

Lemma GetAbstractArray_enabled names data name :
  existsb (String.eqb name) names = true ->
  Sys.GetAbstractArray
    (filter (fun na => existsb (String.eqb (fst na)) names) data) name
  = Sys.GetAbstractArray data name.
Proof.
  intros Hin. induction data as [| [n a] data IH]; [reflexivity |].
  simpl. destruct (String.eqb_spec n name) as [-> | Hne].
  - rewrite Hin. simpl. now rewrite String.eqb_refl.
  - destruct (existsb (String.eqb n) names); simpl; [| exact IH].
    destruct (String.eqb_spec n name); [congruence | exact IH].
Qed.

(** ** The splitting converter [vti2pqtv2b.cc] *)

Section V2bRewrite.
Import Run.
Variable env : Sys.Env.
Variable ceiling : Z.
Variable timestep : Z.
Variables v02 v03 : list F32.float.
Variables from to : string.

Hypothesis ceiling_pos : 0 < ceiling <= Cxx.INT_MAX.
Hypothesis same_length : List.length v03 = List.length v02.
Hypothesis fits_int : Z.of_nat (List.length v02) <= Cxx.INT_MAX.
Hypothesis creatable : forall k, Sys.can_create env (Spec.split_name to k) = true.
Hypothesis has_v02 :
  Sys.GetAbstractArray (Sys.PointData (Sys.read_vti env from)) "v02"
  = Some (Sys.vtkFloatArray v02).
Hypothesis has_v03 :
  Sys.GetAbstractArray (Sys.PointData (Sys.read_vti env from)) "v03"
  = Some (Sys.vtkFloatArray v03).
Hypothesis points :
  Sys.NumberOfPoints (Sys.read_vti env from) = Z.of_nat (List.length v02).

Let N : Z := Z.of_nat (List.length v02).
Let all : list (list Cell) := Spec.rows_from timestep 0 (combine v02 v03).
Let it (i : nat) : Vti.Iterator := Vti.mkIterator N v02 v03 (Z.of_nat i).

Lemma V2b_all_step i :
  (i < List.length v02)%nat ->
  exists a b,
    nth_error v02 i = Some a /\ nth_error v03 i = Some b
    /\ skipn i all = Spec.row4 timestep (Z.of_nat i) (a, b) :: skipn (S i) all.
Proof.
  intros Hi.
  destruct (nth_error_in_range v02 i Hi) as [a Ha].
  destruct (nth_error_in_range v03 i ltac:(lia)) as [b Hb].
  exists a, b. repeat split; try assumption.
  unfold all. rewrite !skipn_rows_from.
  rewrite (skipn_nth_error _ _ _ (nth_error_combine _ _ _ _ _ Ha Hb)).
  simpl. do 2 f_equal. lia.
Qed.

Let cond0 (s : V2b.ParquetWriter * Z * Vti.Iterator) : bool :=
  let '(_, n, it) := s in (Vti.Valid it && (n <? ceiling))%bool.

Let body0 (s : V2b.ParquetWriter * Z * Vti.Iterator)
    : M (V2b.ParquetWriter * Z * Vti.Iterator) :=
  let '(writer, n, it) := s in
  bind (Vti.v02 it) (fun a =>
  bind (Vti.v03 it) (fun b =>
  bind (V2b.Append writer timestep a b) (fun writer =>
  ret (writer, Cxx.wrap32 (n + 1), Vti.Next it)))).

Lemma V2b_body path n i a b :
  nth_error v02 i = Some a -> nth_error v03 i = Some b ->
  Z.of_nat n < Cxx.INT_MAX ->
  body0 (V2b.mkWriter (Some path) (Z.of_nat i), Z.of_nat n, it i)
  = (Ok (V2b.mkWriter (Some path) (Z.of_nat (S i)), Z.of_nat (S n), it (S i)),
     [Write path (Row (Spec.row4 timestep (Z.of_nat i) (a, b)))]).
Proof.
  intros Ha Hb Hn.
  assert (Hi : (i < List.length v02)%nat)
    by (apply nth_error_Some; congruence).
  assert (Hw1 : Cxx.wrap32 (Z.of_nat i + 1) = Z.of_nat (S i))
    by (rewrite wrap32_succ; unfold Cxx.INT_MAX in *; lia).
  assert (Hw2 : Cxx.wrap32 (Z.of_nat n + 1) = Z.of_nat (S n))
    by (rewrite wrap32_succ; unfold Cxx.INT_MAX in *; lia).
  unfold body0, Vti.v02, Vti.v03, Vti.Next, it.
  cbn [Vti.n_ Vti.v02_ Vti.v03_ Vti.i_].
  rewrite (index_nth _ _ _ Ha), bind_ret_l.
  rewrite (index_nth _ _ _ Hb), bind_ret_l.
  unfold V2b.Append, V2b.put. cbn [V2b.writer_ V2b.rowid_ deref].
  rewrite Hw1, Hw2. reflexivity.
Qed.

Lemma V2b_inner path : forall k fuel n i,
  Z.of_nat k = Z.max 0 (Z.min (ceiling - Z.of_nat n) (N - Z.of_nat i)) ->
  (k <= fuel)%nat ->
  while fuel cond0 body0
    (V2b.mkWriter (Some path) (Z.of_nat i), Z.of_nat n, it i)
  = (Ok (V2b.mkWriter (Some path) (Z.of_nat (i + k)), Z.of_nat (n + k),
         it (i + k)),
     map (fun r => Write path (Row r)) (firstn k (skipn i all))).
Proof.
  induction k as [| k IH]; intros fuel n i Hk Hfuel.
  - rewrite while_false.
    + rewrite !Nat.add_0_r. reflexivity.
    + unfold cond0, Vti.Valid. simpl.
      destruct (Z.ltb_spec (Z.of_nat i) N), (Z.ltb_spec (Z.of_nat n) ceiling);
        rewrite ?andb_false_r; try reflexivity. lia.
  - destruct fuel as [| fuel]; [lia |].
    assert (Hi : (i < List.length v02)%nat) by (unfold N in Hk; lia).
    destruct (V2b_all_step i Hi) as (a & b & Ha & Hb & Hall).
    rewrite while_true.
    + rewrite (bind_ok _ _ _ _ _ _
                 (V2b_body path n i a b Ha Hb ltac:(lia))
                 (IH fuel (S n) (S i) ltac:(lia) ltac:(lia))).
      rewrite Hall. cbn [firstn map app].
      replace (S i + k)%nat with (i + S k)%nat by lia.
      replace (S n + k)%nat with (n + S k)%nat by lia.
      reflexivity.
    + unfold cond0, Vti.Valid, it. cbn [Vti.i_ Vti.n_].
      destruct (Z.leb_spec 0 (Z.of_nat i)); [| lia].
      destruct (Z.ltb_spec (Z.of_nat i) N); [| lia].
      destruct (Z.ltb_spec (Z.of_nat n) ceiling); [reflexivity | lia].
Qed.

Lemma V2b_Rewrite0_run i j k :
  Z.of_nat k = Z.max 0 (Z.min ceiling (N - Z.of_nat i)) ->
  V2b.Rewrite0 env ceiling timestep (Z.of_nat i) (it i) from
    (Spec.split_name to j)
  = (Ok (Z.of_nat k, it (i + k)),
     Spec.file_trace (Spec.split_name to j) (firstn k (skipn i all))).
Proof.
  intros Hk.
  pose proof (V2b_inner (Spec.split_name to j) k (Vti.remaining (it i)) 0 i
                ltac:(simpl Z.of_nat; rewrite Z.sub_0_r; exact Hk)
                ltac:(unfold Vti.remaining, it; cbn [Vti.n_ Vti.i_]; lia))
    as Hloop.
  unfold cond0, body0 in Hloop. simpl Z.of_nat in Hloop.
  unfold V2b.Rewrite0, Sys.FileOutputStream_Open, V2b.ParquetWriter_new.
  rewrite creatable.
  cbn [bind act ret app V2b.rowid].
  rewrite Hloop.
  reflexivity.
Qed.

Let cond1 (s : string * Z * Z * Vti.Iterator) : bool :=
  let '(_, _, _, it) := s in Vti.Valid it.

Let body1 (s : string * Z * Z * Vti.Iterator)
    : M (string * Z * Z * Vti.Iterator) :=
  let '(myto, i, rowid, it) := s in
  let myto := Cxx.resize myto (String.length to) in
  let myto := (myto ++ ".")%string in
  let myto := (myto ++ Cxx.to_string i)%string in
  let i := Cxx.wrap32 (i + 1) in
  bind (V2b.Rewrite0 env ceiling timestep rowid it from myto) (fun r =>
  ret (myto, i, Cxx.wrap32 (rowid + fst r), snd r)).

Lemma V2b_all_length : List.length all = List.length v02.
Proof.
  unfold all. rewrite rows_from_length, length_combine. lia.
Qed.

Lemma V2b_outer : forall fuel i j sfx,
  (List.length v02 - i <= fuel)%nat -> (i <= List.length v02)%nat ->
  (j <= i)%nat ->
  exists final,
    while fuel cond1 body1
      ((to ++ sfx)%string, Z.of_nat j, Z.of_nat i, it i)
    = (Ok final,
       Spec.split_trace to (Z.of_nat j)
         (Spec.chunks (Z.to_nat ceiling) (skipn i all))).
Proof.
  induction fuel as [| fuel IH]; intros i j sfx Hfuel Hi Hj.
  - exists ((to ++ sfx)%string, Z.of_nat j, Z.of_nat i, it i).
    rewrite while_false.
    + rewrite skipn_all2 by (rewrite V2b_all_length; lia). reflexivity.
    + unfold cond1, Vti.Valid, it. cbn [Vti.i_ Vti.n_].
      destruct (Z.ltb_spec (Z.of_nat i) N); [unfold N in *; lia |].
      apply andb_false_r.
  - destruct (Nat.eq_dec i (List.length v02)) as [-> | Hne].
    + exists ((to ++ sfx)%string, Z.of_nat j, Z.of_nat (List.length v02),
              it (List.length v02)).
      rewrite while_false.
      * rewrite skipn_all2 by (rewrite V2b_all_length; lia). reflexivity.
      * unfold cond1, Vti.Valid, it. cbn [Vti.i_ Vti.n_].
        rewrite Z.ltb_irrefl. apply andb_false_r.
    + set (k := Z.to_nat (Z.min ceiling (N - Z.of_nat i))).
      assert (Hk : Z.of_nat k = Z.max 0 (Z.min ceiling (N - Z.of_nat i)))
        by (unfold k, N in *; lia).
      assert (Hk1 : (1 <= k)%nat) by (unfold N in *; lia).
      destruct (IH (i + k)%nat (S j) ("." ++ Cxx.to_string (Z.of_nat j))%string)
        as [final Hfinal]; try (unfold N in *; lia).
      exists final.
      assert (Hbody :
        body1 ((to ++ sfx)%string, Z.of_nat j, Z.of_nat i, it i)
        = (Ok (Spec.split_name to (Z.of_nat j), Z.of_nat (S j),
               Z.of_nat (i + k), it (i + k)),
           Spec.file_trace (Spec.split_name to (Z.of_nat j))
             (firstn k (skipn i all)))).
      { unfold body1. rewrite resize_prefix, append_assoc.
        fold (Spec.split_name to (Z.of_nat j)).
        rewrite (V2b_Rewrite0_run i (Z.of_nat j) k Hk).
        cbn [bind ret fst snd].
        rewrite wrap32_succ by (unfold N, Cxx.INT_MAX in *; lia).
        rewrite wrap32_small by (unfold N, Cxx.INT_MAX in *; lia).
        rewrite app_nil_r.
        replace (Z.of_nat j + 1) with (Z.of_nat (S j)) by lia.
        replace (Z.of_nat i + Z.of_nat k) with (Z.of_nat (i + k)) by lia.
        reflexivity. }
      rewrite while_true.
      * rewrite (bind_ok _ _ _ _ _ _ Hbody Hfinal).
        rewrite (chunks_step (Z.to_nat ceiling) ltac:(lia) (skipn i all)).
        -- assert (Hfirst : firstn (Z.to_nat ceiling) (skipn i all)
                            = firstn k (skipn i all)).
           { destruct (Nat.le_gt_cases (Z.to_nat ceiling)
                         (List.length v02 - i)) as [Hle | Hgt].
             - replace k with (Z.to_nat ceiling) by (unfold k, N; lia).
               reflexivity.
             - rewrite !firstn_all2; try reflexivity;
                 rewrite length_skipn, V2b_all_length; unfold k, N; lia. }
           assert (Hskip : skipn (Z.to_nat ceiling) (skipn i all)
                           = skipn (i + k) all).
           { rewrite skipn_skipn.
             destruct (Nat.le_gt_cases (Z.to_nat ceiling)
                         (List.length v02 - i)) as [Hle | Hgt].
             - replace k with (Z.to_nat ceiling) by (unfold k, N; lia).
               f_equal. lia.
             - rewrite !skipn_all2; try reflexivity;
                 rewrite V2b_all_length; unfold k, N; lia. }
           cbn [Spec.split_trace]. rewrite Hfirst, Hskip.
           replace (Z.of_nat j + 1) with (Z.of_nat (S j)) by lia.
           reflexivity.
        -- intros Hnil. apply (f_equal (@List.length _)) in Hnil.
           rewrite length_skipn, V2b_all_length in Hnil. simpl in Hnil. lia.
      * unfold cond1, Vti.Valid, it. cbn [Vti.i_ Vti.n_].
        destruct (Z.leb_spec 0 (Z.of_nat i)); [| lia].
        destruct (Z.ltb_spec (Z.of_nat i) N); [reflexivity | unfold N in *; lia].
Qed.

Lemma V2b_Iterator_new :
  Vti.Iterator_new (Sys.enable_arrays ["v02"; "v03"]%string (Sys.read_vti env from))
  = ret (it 0).
Proof.
  unfold Vti.Iterator_new, Vti.GET_POINTER, Sys.enable_arrays.
  cbn [Sys.PointData Sys.NumberOfPoints].
  rewrite !GetAbstractArray_enabled by reflexivity.
  rewrite has_v02, has_v03, points.
  rewrite wrap32_small by (unfold Cxx.INT_MAX in *; lia).
  reflexivity.
Qed.

Lemma V2b_Rewrite_run :
  V2b.Rewrite env ceiling timestep from to
  = (Ok tt,
     Stdout ("Rewriting " ++ from ++ " to parquet... " ++ Sys.nl)
       :: Spec.split_trace to 0 (Spec.chunks (Z.to_nat ceiling) all)).
Proof.
  destruct (V2b_outer (List.length v02) 0 0 "" ltac:(lia) ltac:(lia) ltac:(lia))
    as [final Hfinal].
  rewrite append_empty_r in Hfinal.
  assert (E : V2b.Rewrite env ceiling timestep from to
              = bind (act (Stdout ("Rewriting " ++ from ++ " to parquet... "
                                   ++ Sys.nl)))
                  (fun _ =>
                   bind (Vti.Iterator_new
                           (Sys.enable_arrays ["v02"; "v03"]%string
                              (Sys.read_vti env from)))
                     (fun it0 =>
                      bind (while (Vti.remaining (Vti.SeekToFirst it0))
                              cond1 body1
                              (to, 0, 0, Vti.SeekToFirst it0))
                        (fun _ => ret tt)))) by reflexivity.
  rewrite E, V2b_Iterator_new, bind_act, bind_ret_l.
  change (Vti.SeekToFirst (it 0)) with (it 0).
  replace (Vti.remaining (it 0)) with (List.length v02)
    by (unfold Vti.remaining, it, N; cbn [Vti.n_ Vti.i_]; lia).
  cbn [Z.of_nat skipn] in Hfinal. rewrite Hfinal.
  cbn [bind ret fst snd]. now rewrite app_nil_r.
Qed.

End V2bRewrite.

(** ** The files of a trace *)

Lemma collect_rows path rows : forall acc files t,
  Run.collect (map (fun r => Run.Write path (Run.Row r)) rows ++ t)
    ((path, acc) :: files)
  = Run.collect t ((path, rev rows ++ acc) :: files).
Proof.
  induction rows as [| r rows IH]; intros acc files t; [reflexivity |].
  cbn [map app Run.collect Run.add_row]. rewrite String.eqb_refl, IH.
  cbn [rev]. now rewrite <- app_assoc.
Qed.

Lemma collect_file_trace path rows files t :
  Run.collect (Spec.file_trace path rows ++ t) files
  = Run.collect t ((path, rev rows) :: files).
Proof.
  unfold Spec.file_trace. cbn [app Run.collect].
  rewrite <- app_assoc, collect_rows. cbn [app Run.collect].
  now rewrite app_nil_r.
Qed.

Lemma collect_split_trace base : forall pieces k files,
  Run.collect (Spec.split_trace base k pieces) files
  = rev (map (fun f => (fst f, rev (snd f))) (Spec.split_files base k pieces))
      ++ files.
Proof.
  induction pieces as [| rows pieces IH]; intros k files; [reflexivity |].
  cbn [Spec.split_trace Spec.split_files map rev fst snd].
  rewrite collect_file_trace, IH, <- app_assoc. reflexivity.
Qed.

Lemma outputs_split_trace line base pieces :
  Run.outputs (Run.Stdout line :: Spec.split_trace base 0 pieces)
  = Spec.split_files base 0 pieces.
Proof.
  unfold Run.outputs. cbn [Run.collect].
  rewrite collect_split_trace, app_nil_r, map_rev, rev_involutive, map_map.
  cbn [fst snd]. rewrite <- (map_id (Spec.split_files base 0 pieces)) at 2.
  apply map_ext. intros [name rows]. cbn [fst snd].
  now rewrite rev_involutive.
Qed.

Lemma split_files_names base : forall pieces k,
  map fst (Spec.split_files base k pieces)
  = map (Spec.split_name base) (Spec.iota k (List.length pieces)).
Proof.
  induction pieces as [| rows pieces IH]; intros k; [reflexivity |].
  cbn [Spec.split_files map fst List.length]. rewrite iota_cons, IH.
  reflexivity.
Qed.

Lemma split_files_rows base : forall pieces k,
  map snd (Spec.split_files base k pieces) = pieces.
Proof.
  induction pieces as [| rows pieces IH]; intros k; [reflexivity |].
  cbn [Spec.split_files map snd]. now rewrite IH.
Qed.

Lemma split_files_length base pieces k :
  List.length (Spec.split_files base k pieces) = List.length pieces.
Proof. now rewrite <- (length_map snd), split_files_rows. Qed.

Lemma partition_of_chunks base c (all : list (list Run.Cell)) :
  (0 < c)%nat ->
  Spec.partition_of base c all (Spec.split_files base 0 (Spec.chunks c all)).
Proof.
  intros Hc. unfold Spec.partition_of.
  rewrite split_files_length, split_files_rows, split_files_names.
  split; [reflexivity |]. split; [| split; [| split]].
  - now apply chunks_concat.
  - intros k rows H. exact (chunks_sizes c Hc all k rows H).
  - now apply chunks_length.
  - rewrite <- (chunks_concat c Hc all) at 2. rewrite length_concat.
    rewrite <- (split_files_rows base (Spec.chunks c all) 0) at 2.
    now rewrite map_map.
Qed.

(** ** The repack tool *)

Lemma forallb_skipn {A : Type} (f : A -> bool) k : forall l,
  forallb f l = true -> forallb f (skipn k l) = true.
Proof.
  induction k as [| k IH]; intros [| x l] H; try assumption; try reflexivity.
  simpl in *. apply andb_prop in H. now apply IH.
Qed.

Section RepackRewrite.
Import Run.
Variable env : Sys.Env.
Variable ceiling : Z.
Variable src : string.

Hypothesis ceiling_pos : 0 < ceiling <= Cxx.INT_MAX.
Hypothesis creatable :
  forall k, Sys.can_create env (Spec.split_name src k) = true.

Let cond0 (s : Z * Repack.StreamReader) : bool :=
  let '(n, reader) := s in (negb (Repack.eof reader) && (n <? ceiling))%bool.

Let body0 (writer : Repack.ParquetWriter) (s : Z * Repack.StreamReader)
    : M (Z * Repack.StreamReader) :=
  let '(n, reader) := s in
  bind (Repack.read_row reader) (fun r =>
  let '(timestep, rowid, v02, v03, reader) := r in
  bind (Repack.Append writer timestep rowid v02 v03) (fun _ =>
  ret (Cxx.wrap32 (n + 1), reader))).

Lemma Repack_inner path : forall k fuel n rest,
  forallb Spec.typed4 rest = true ->
  Z.of_nat k
  = Z.max 0 (Z.min (ceiling - Z.of_nat n) (Z.of_nat (List.length rest))) ->
  (k <= fuel)%nat ->
  while fuel cond0 (body0 (Repack.mkWriter (Some path))) (Z.of_nat n, rest)
  = (Ok (Z.of_nat (n + k), skipn k rest),
     map (fun r => Write path (Row r)) (firstn k rest)).
Proof.
  induction k as [| k IH]; intros fuel n rest Htyped Hk Hfuel.
  - rewrite while_false.
    + now rewrite Nat.add_0_r.
    + unfold cond0. destruct rest as [| row rest]; [reflexivity |].
      simpl List.length in Hk. simpl.
      destruct (Z.ltb_spec (Z.of_nat n) ceiling); [lia | reflexivity].
  - destruct fuel as [| fuel]; [lia |].
    destruct rest as [| row rest]; [simpl in Hk; lia |].
    simpl List.length in Hk. simpl in Htyped.
    apply andb_prop in Htyped. destruct Htyped as [Hrow Htyped].
    rewrite while_true.
    + assert (Hbody :
        body0 (Repack.mkWriter (Some path)) (Z.of_nat n, row :: rest)
        = (Ok (Z.of_nat (S n), rest), [Write path (Row row)])).
      { unfold body0.
        destruct row as [| [t | ?] [| [r | ?] [| [? | a] [| [? | b] [| ? ?]]]]];
          try discriminate Hrow.
        cbn [Repack.read_row]. rewrite bind_ret_l.
        unfold Repack.Append, Repack.put. cbn [Repack.writer_ deref].
        rewrite wrap32_succ by (unfold Cxx.INT_MAX in *; lia).
        replace (Z.of_nat n + 1) with (Z.of_nat (S n)) by lia.
        reflexivity. }
      rewrite (bind_ok _ _ _ _ _ _ Hbody
                 (IH fuel (S n) rest Htyped ltac:(lia) ltac:(lia))).
      cbn [firstn skipn map app].
      replace (S n + k)%nat with (n + S k)%nat by lia. reflexivity.
    + unfold cond0. simpl.
      destruct (Z.ltb_spec (Z.of_nat n) ceiling); [reflexivity | lia].
Qed.

Lemma Repack_Rewrite0_run rest j k :
  forallb Spec.typed4 rest = true ->
  Z.of_nat k = Z.min ceiling (Z.of_nat (List.length rest)) ->
  Repack.Rewrite0 env ceiling rest (Spec.split_name src j)
  = (Ok (skipn k rest),
     Spec.file_trace (Spec.split_name src j) (firstn k rest)).
Proof.
  intros Htyped Hk.
  pose proof (Repack_inner (Spec.split_name src j) k (List.length rest) 0 rest
                Htyped ltac:(simpl Z.of_nat; lia) ltac:(lia)) as Hloop.
  assert (E : Repack.Rewrite0 env ceiling rest (Spec.split_name src j)
              = bind (Sys.FileOutputStream_Open env (Spec.split_name src j))
                  (fun file =>
                   bind (Repack.ParquetWriter_new file) (fun writer =>
                   bind (while (List.length rest) cond0 (body0 writer)
                           (0, rest))
                     (fun s =>
                      bind (Repack.Finish writer) (fun _ => ret (snd s))))))
    by reflexivity.
  rewrite E. unfold Sys.FileOutputStream_Open, Repack.ParquetWriter_new.
  rewrite creatable. cbn [bind act ret app].
  simpl Z.of_nat in Hloop. rewrite Hloop. reflexivity.
Qed.

Let cond1 (s : string * Z * Repack.StreamReader) : bool :=
  let '(_, _, reader) := s in negb (Repack.eof reader).

Let body1 (s : string * Z * Repack.StreamReader)
    : M (string * Z * Repack.StreamReader) :=
  let '(dst, i, reader) := s in
  let dst := Cxx.resize dst (String.length src) in
  let dst := (dst ++ ".")%string in
  let dst := (dst ++ Cxx.to_string i)%string in
  let i := Cxx.wrap32 (i + 1) in
  bind (Repack.Rewrite0 env ceiling reader dst) (fun reader =>
  ret (dst, i, reader)).

Lemma Repack_outer : forall fuel rest j sfx,
  (List.length rest <= fuel)%nat ->
  forallb Spec.typed4 rest = true ->
  Z.of_nat (List.length rest) + Z.of_nat j * ceiling <= ceiling * Cxx.INT_MAX ->
  exists final,
    while fuel cond1 body1 ((src ++ sfx)%string, Z.of_nat j, rest)
    = (Ok final,
       Spec.split_trace src (Z.of_nat j) (Spec.chunks (Z.to_nat ceiling) rest)).
Proof.
  induction fuel as [| fuel IH]; intros rest j sfx Hfuel Htyped Hbound.
  - destruct rest; [| simpl in Hfuel; lia].
    exists ((src ++ sfx)%string, Z.of_nat j, []). reflexivity.
  - destruct rest as [| row rest'] eqn:Erest.
    + exists ((src ++ sfx)%string, Z.of_nat j, []). reflexivity.
    + rewrite <- Erest in *.
      assert (Hlen : (1 <= List.length rest)%nat) by (subst rest; simpl; lia).
      set (k := Z.to_nat (Z.min ceiling (Z.of_nat (List.length rest)))).
      assert (Hk : Z.of_nat k = Z.min ceiling (Z.of_nat (List.length rest)))
        by (unfold k; lia).
      assert (Hj : Z.of_nat j < Cxx.INT_MAX) by nia.
      assert (Hfirst : firstn (Z.to_nat ceiling) rest = firstn k rest).
      { destruct (Z.le_gt_cases ceiling (Z.of_nat (List.length rest))).
        - replace k with (Z.to_nat ceiling) by (unfold k; lia). reflexivity.
        - rewrite !firstn_all2; try reflexivity; unfold k; lia. }
      assert (Hskip : skipn (Z.to_nat ceiling) rest = skipn k rest).
      { destruct (Z.le_gt_cases ceiling (Z.of_nat (List.length rest))).
        - replace k with (Z.to_nat ceiling) by (unfold k; lia). reflexivity.
        - rewrite !skipn_all2; try reflexivity; unfold k; lia. }
      destruct (IH (skipn k rest) (S j)
                  ("." ++ Cxx.to_string (Z.of_nat j))%string)
        as [final Hfinal].
      * rewrite length_skipn. lia.
      * now apply forallb_skipn.
      * rewrite length_skipn.
        destruct (Z.le_gt_cases ceiling (Z.of_nat (List.length rest))).
        -- replace k with (Z.to_nat ceiling) by (unfold k; lia). nia.
        -- replace (List.length rest - k)%nat with 0%nat by (unfold k; lia). nia.
      * exists final.
        assert (Hbody :
          body1 ((src ++ sfx)%string, Z.of_nat j, rest)
          = (Ok (Spec.split_name src (Z.of_nat j), Z.of_nat (S j), skipn k rest),
             Spec.file_trace (Spec.split_name src (Z.of_nat j)) (firstn k rest))).
        { unfold body1. rewrite resize_prefix, append_assoc.
          fold (Spec.split_name src (Z.of_nat j)).
          rewrite (Repack_Rewrite0_run rest (Z.of_nat j) k Htyped Hk).
          cbn [bind ret fst snd].
          rewrite wrap32_succ by (unfold Cxx.INT_MAX in *; lia).
          rewrite app_nil_r.
          replace (Z.of_nat j + 1) with (Z.of_nat (S j)) by lia.
          reflexivity. }
        rewrite while_true by (unfold cond1; subst rest; reflexivity).
        rewrite (bind_ok _ _ _ _ _ _ Hbody Hfinal).
        rewrite (chunks_step (Z.to_nat ceiling) ltac:(lia) rest)
          by (subst rest; discriminate).
        cbn [Spec.split_trace]. rewrite Hfirst, Hskip.
        replace (Z.of_nat j + 1) with (Z.of_nat (S j)) by lia.
        reflexivity.
Qed.

Lemma Repack_Rewrite_run rows :
  Sys.read_parquet env src = Some rows ->
  forallb Spec.typed4 rows = true ->
  Z.of_nat (List.length rows) <= ceiling * Cxx.INT_MAX ->
  Repack.Rewrite env ceiling src
  = (Ok tt,
     Stdout ("Rewriting " ++ src ++ " to parquet... " ++ Sys.nl)
       :: Spec.split_trace src 0 (Spec.chunks (Z.to_nat ceiling) rows)).
Proof.
  intros Hread Htyped Hbound.
  destruct (Repack_outer (List.length rows) rows 0 "" ltac:(lia) Htyped
              ltac:(simpl Z.of_nat; lia)) as [final Hfinal].
  rewrite append_empty_r in Hfinal.
  assert (E : Repack.Rewrite env ceiling src
              = bind (act (Stdout ("Rewriting " ++ src ++ " to parquet... "
                                   ++ Sys.nl)))
                  (fun _ =>
                   match Sys.read_parquet env src with
                   | None => stop (Terminated "parquet::ParquetStatusException")
                   | Some reader =>
                       bind (while (List.length reader) cond1 body1
                               (src, 0, reader))
                         (fun _ => ret tt)
                   end)) by reflexivity.
  rewrite E, bind_act, Hread. simpl Z.of_nat in Hfinal. rewrite Hfinal.
  cbn [bind ret fst snd]. now rewrite app_nil_r.
Qed.

End RepackRewrite.

Lemma chunks_nth {A : Type} (c : nat) (l : list A) :
  (0 < c)%nat ->
  forall k piece, nth_error (Spec.chunks c l) k = Some piece ->
  piece = firstn c (skipn (k * c) l).
Proof.
  intros Hc. remember (List.length l) as n eqn:Hn. revert l Hn.
  induction n as [n IH] using lt_wf_ind. intros l Hn k piece.
  destruct l as [| x l]; [now destruct k |].
  rewrite chunks_step by (assumption || discriminate).
  destruct k as [| k]; cbn [nth_error].
  - now intros [= <-].
  - intros Hk.
    rewrite (IH (List.length (skipn c (x :: l)))
               ltac:(rewrite length_skipn; cbn [List.length] in *; lia)
               (skipn c (x :: l)) eq_refl k piece Hk).
    rewrite skipn_skipn. do 2 f_equal. lia.
Qed.

Lemma firstn_rows_from timestep : forall k r l,
  firstn k (Spec.rows_from timestep r l)
  = Spec.rows_from timestep r (firstn k l).
Proof.
  induction k as [| k IH]; intros r [| v l]; try reflexivity.
  simpl. now rewrite IH.
Qed.

Lemma chunks_3_of_7 {A : Type} (l : list A) :
  List.length l = 7%nat -> map (@List.length A) (Spec.chunks 3 l) = [3; 3; 1]%nat.
Proof.
  intros H.
  do 8 (destruct l as [| ? l]; try discriminate H). reflexivity.
Qed.

Lemma split_files_counts base pieces k :
  map (fun f => (fst f, List.length (snd f))) (Spec.split_files base k pieces)
  = combine (map (Spec.split_name base) (Spec.iota k (List.length pieces)))
      (map (@List.length (list Run.Cell)) pieces).
Proof.
  revert k. induction pieces as [| rows pieces IH]; intros k; [reflexivity |].
  cbn [Spec.split_files map fst snd List.length]. rewrite iota_cons, IH.
  reflexivity.
Qed.

(* ===================================================================== *)
(** * Part III.  The statements of the specification                      *)
(* ===================================================================== *)

(** C1.  A splitting writer with row-count ceiling [c] cuts the N rows of
    a record stream, in order, into files [base.0], [base.1], ...: every
    file but the last holds exactly [c] rows, the last holds what remains,
    and the counts add up to N.  This holds of the .vti splitting
    converter, whose ceiling is 25,000,000, and of the repack tool, whose
    ceiling is 31,250,000; with [c = 3] and seven rows the files are
    [base.0], [base.1], [base.2] with 3, 3 and 1 rows. *)
Theorem C1_rows_partitioned_into_numbered_files (ceiling : Z) :
  0 < ceiling <= Cxx.INT_MAX ->
  V2b.CEILING = 25000000 /\ Repack.CEILING = 31250000
  /\ (forall env timestep from to v02 v03,
       Spec.snapshot (Sys.read_vti env from) v02 v03 ->
       (forall k, Sys.can_create env (Spec.split_name to k) = true) ->
       let run := V2b.Rewrite env ceiling timestep from to in
       let files := Run.outputs (snd run) in
       fst run = Run.Ok tt
       /\ Spec.partition_of to (Z.to_nat ceiling)
            (Spec.rows_from timestep 0 (combine v02 v03)) files
       /\ (ceiling = 3 -> List.length v02 = 7%nat ->
           map (fun f => (fst f, List.length (snd f))) files
           = [(Spec.split_name to 0, 3%nat); (Spec.split_name to 1, 3%nat);
              (Spec.split_name to 2, 1%nat)]))
  /\ (forall env src rows,
       Sys.read_parquet env src = Some rows ->
       forallb Spec.typed4 rows = true ->
       Z.of_nat (List.length rows) <= ceiling * Cxx.INT_MAX ->
       (forall k, Sys.can_create env (Spec.split_name src k) = true) ->
       let run := Repack.Rewrite env ceiling src in
       let files := Run.outputs (snd run) in
       fst run = Run.Ok tt
       /\ Spec.partition_of src (Z.to_nat ceiling) rows files
       /\ (ceiling = 3 -> List.length rows = 7%nat ->
           map (fun f => (fst f, List.length (snd f))) files
           = [(Spec.split_name src 0, 3%nat); (Spec.split_name src 1, 3%nat);
              (Spec.split_name src 2, 1%nat)])).
Proof.
  intros Hc. split; [reflexivity |]. split; [reflexivity |]. split.
  - intros env timestep from to v02 v03 (H02 & H03 & Hn & Hlen & Hfit) Hcreate.
    cbv zeta.
    rewrite (V2b_Rewrite_run env ceiling timestep v02 v03 from to
               Hc Hlen Hfit Hcreate H02 H03 Hn).
    cbn [fst snd]. rewrite outputs_split_trace.
    split; [reflexivity |]. split; [apply partition_of_chunks; lia |].
    intros -> H7. rewrite split_files_counts.
    assert (Hall : List.length (Spec.rows_from timestep 0 (combine v02 v03)) = 7%nat)
      by (rewrite rows_from_length, length_combine; lia).
    pose proof (chunks_3_of_7 _ Hall) as Hcounts.
    change (Z.to_nat 3) with 3%nat. rewrite Hcounts.
    rewrite <- (length_map (@List.length (list Run.Cell))), Hcounts.
    reflexivity.
  - intros env src rows Hread Htyped Hbound Hcreate. cbv zeta.
    rewrite (Repack_Rewrite_run env ceiling src Hc Hcreate rows
               Hread Htyped Hbound).
    cbn [fst snd]. rewrite outputs_split_trace.
    split; [reflexivity |]. split; [apply partition_of_chunks; lia |].
    intros -> H7. rewrite split_files_counts.
    pose proof (chunks_3_of_7 _ H7) as Hcounts.
    change (Z.to_nat 3) with 3%nat. rewrite Hcounts.
    rewrite <- (length_map (@List.length (list Run.Cell))), Hcounts.
    reflexivity.
Qed.

Lemma C1_rows_partitioned_witness :
  (let files :=
     Run.outputs (snd (V2b.Rewrite Examples.env 3 5 "in/seven.vti" "out/seven.parquet")) in
   map (fun f => (fst f, List.length (snd f))) files
   = [(Spec.split_name "out/seven.parquet" 0, 3%nat);
      (Spec.split_name "out/seven.parquet" 1, 3%nat);
      (Spec.split_name "out/seven.parquet" 2, 1%nat)])
  /\ (let files :=
        Run.outputs (snd (Repack.Rewrite Examples.env 3 "in/seven.parquet")) in
      Spec.partition_of "in/seven.parquet" 3 Examples.seven_rows files).
Proof.
  assert (Hc : 0 < 3 <= Cxx.INT_MAX) by (unfold Cxx.INT_MAX; lia).
  destruct (C1_rows_partitioned_into_numbered_files 3 Hc) as (_ & _ & Hvti & Hpqt).
  split.
  - refine (proj2 (proj2 (Hvti Examples.env 5 "in/seven.vti"%string
                            "out/seven.parquet"%string
                            (map F32.of_Z (Spec.iota 1 7))
                            (map F32.of_Z (Spec.iota 11 7)) _ _)) eq_refl eq_refl).
    + unfold Spec.snapshot. repeat split; vm_compute; congruence.
    + reflexivity.
  - refine (proj1 (proj2 (Hpqt Examples.env "in/seven.parquet"%string
                            Examples.seven_rows eq_refl eq_refl _ _))).
    + vm_compute. congruence.
    + reflexivity.
Defined.

(** C10.  In the splitting converters every physical output file is named
    by the base name, a dot and a zero-based sequence index, the first
    file too when the whole stream fits under the ceiling: the first
    output of a stream that is not empty is [base.0], and no output bears
    the bare base name. *)
Theorem C10_every_output_name_is_suffixed (ceiling : Z) :
  0 < ceiling <= Cxx.INT_MAX ->
  (forall env timestep from to v02 v03,
     Spec.snapshot (Sys.read_vti env from) v02 v03 ->
     (forall k, Sys.can_create env (Spec.split_name to k) = true) ->
     let names :=
       map fst (Run.outputs (snd (V2b.Rewrite env ceiling timestep from to))) in
     names = map (Spec.split_name to) (Spec.iota 0 (List.length names))
     /\ (v02 <> [] -> hd_error names = Some (to ++ ".0")%string)
     /\ ~ In to names)
  /\ (forall env src rows,
       Sys.read_parquet env src = Some rows ->
       forallb Spec.typed4 rows = true ->
       Z.of_nat (List.length rows) <= ceiling * Cxx.INT_MAX ->
       (forall k, Sys.can_create env (Spec.split_name src k) = true) ->
       let names :=
         map fst (Run.outputs (snd (Repack.Rewrite env ceiling src))) in
       names = map (Spec.split_name src) (Spec.iota 0 (List.length names))
       /\ (rows <> [] -> hd_error names = Some (src ++ ".0")%string)
       /\ ~ In src names).
Proof.
  intros Hc.
  assert (Hnames : forall base (all : list (list Run.Cell)),
    let names :=
      map fst (Spec.split_files base 0 (Spec.chunks (Z.to_nat ceiling) all)) in
    names = map (Spec.split_name base) (Spec.iota 0 (List.length names))
    /\ (all <> [] -> hd_error names = Some (base ++ ".0")%string)
    /\ ~ In base names).
  { intros base all. cbv zeta. rewrite split_files_names, length_map, iota_length.
    split; [reflexivity |]. split.
    - intros Hall. rewrite chunks_step by (lia || assumption).
      cbn [List.length]. now rewrite iota_cons.
    - intros Hin. apply in_map_iff in Hin. destruct Hin as (k & Hk & _).
      now apply split_name_neq in Hk. }
  split.
  - intros env timestep from to v02 v03 (H02 & H03 & Hn & Hlen & Hfit) Hcreate.
    cbv zeta.
    rewrite (V2b_Rewrite_run env ceiling timestep v02 v03 from to
               Hc Hlen Hfit Hcreate H02 H03 Hn).
    cbn [snd]. rewrite outputs_split_trace.
    destruct (Hnames to (Spec.rows_from timestep 0 (combine v02 v03)))
      as (H1 & H2 & H3).
    split; [exact H1 |]. split; [| exact H3].
    intros Hne. apply H2. intros Hnil.
    apply (f_equal (@List.length _)) in Hnil.
    rewrite rows_from_length, length_combine in Hnil.
    destruct v02; [congruence | cbn [List.length] in *; lia].
  - intros env src rows Hread Htyped Hbound Hcreate. cbv zeta.
    rewrite (Repack_Rewrite_run env ceiling src Hc Hcreate rows
               Hread Htyped Hbound).
    cbn [snd]. rewrite outputs_split_trace. apply Hnames.
Qed.

Lemma C10_every_output_name_witness :
  map fst (Run.outputs (snd (V2b.Rewrite Examples.env V2b.CEILING 5
                               "in/seven.vti" "out/seven.parquet")))
  = ["out/seven.parquet.0"%string]
  /\ ~ In "in/seven.parquet"%string
       (map fst (Run.outputs (snd (Repack.Rewrite Examples.env Repack.CEILING
                                     "in/seven.parquet")))).
Proof.
  split.
  - assert (Hc : 0 < V2b.CEILING <= Cxx.INT_MAX) by (vm_compute; split; congruence).
    destruct (proj1 (C10_every_output_name_is_suffixed V2b.CEILING Hc)
                Examples.env 5 "in/seven.vti"%string "out/seven.parquet"%string
                (map F32.of_Z (Spec.iota 1 7)) (map F32.of_Z (Spec.iota 11 7)))
      as (H1 & _ & _).
    + unfold Spec.snapshot. repeat split; vm_compute; congruence.
    + reflexivity.
    + rewrite H1. vm_compute. reflexivity.
  - assert (Hc : 0 < Repack.CEILING <= Cxx.INT_MAX) by (vm_compute; split; congruence).
    refine (proj2 (proj2 (proj2 (C10_every_output_name_is_suffixed Repack.CEILING Hc)
                    Examples.env "in/seven.parquet"%string Examples.seven_rows
                    eq_refl eq_refl _ _))).
    + vm_compute. congruence.
    + reflexivity.
Defined.

(** C4.  The repack bridge decodes the rows of a columnar file in file
    order and re-emits every row field for field: the values handed to the
    writer are the decoded [timestep], [rowid], [v02] and [v03] unchanged,
    and the rows of the output files, read in order, are the rows of the
    input. *)
Theorem C4_repack_preserves_rows (ceiling : Z) :
  0 < ceiling <= Cxx.INT_MAX ->
  (forall path timestep rowid v02 v03,
     Repack.Append (Repack.mkWriter (Some path)) timestep rowid v02 v03
     = (Run.Ok tt,
        [Run.Write path
           (Run.Row [Run.I32 timestep; Run.I32 rowid; Run.F32 v02; Run.F32 v03])]))
  /\ (forall env src rows,
       Sys.read_parquet env src = Some rows ->
       forallb Spec.typed4 rows = true ->
       Z.of_nat (List.length rows) <= ceiling * Cxx.INT_MAX ->
       (forall k, Sys.can_create env (Spec.split_name src k) = true) ->
       let run := Repack.Rewrite env ceiling src in
       fst run = Run.Ok tt
       /\ List.concat (map snd (Run.outputs (snd run))) = rows).
Proof.
  intros Hc. split; [reflexivity |].
  intros env src rows Hread Htyped Hbound Hcreate. cbv zeta.
  rewrite (Repack_Rewrite_run env ceiling src Hc Hcreate rows
             Hread Htyped Hbound).
  cbn [fst snd]. rewrite outputs_split_trace, split_files_rows.
  split; [reflexivity |]. apply chunks_concat. lia.
Qed.

Lemma C4_repack_preserves_rows_witness :
  List.concat (map snd (Run.outputs (snd (Repack.Rewrite Examples.env 3
                                            "in/seven.parquet"))))
  = Examples.seven_rows.
Proof.
  assert (Hc : 0 < 3 <= Cxx.INT_MAX) by (unfold Cxx.INT_MAX; lia).
  refine (proj2 (proj2 (C4_repack_preserves_rows 3 Hc) Examples.env
                   "in/seven.parquet"%string Examples.seven_rows
                   eq_refl eq_refl _ _)).
  - vm_compute. congruence.
  - reflexivity.
Defined.

(** C8.  [FlushRowGroup] only marks a pending row-group boundary and
    resets the row id to zero; it performs no action on the sink.  The
    [EndRowGroup] is streamed by the next [Append], before its row.  So a
    [FlushRowGroup] that no [Append] follows adds nothing to what was
    streamed ([Finish] after it only closes the writer), and every
    [EndRowGroup] streamed is directly followed by a row: no row group is
    opened and left empty. *)
Theorem C8_flush_is_lazy path r p ops timestep a b :
  let w := V2a.mkWriter (Some path) r p in
  V2a.FlushRowGroup w = V2a.mkWriter (Some path) 0 true
  /\ V2a.Append (V2a.FlushRowGroup w) timestep a b
     = (Run.Ok (V2a.mkWriter (Some path) 1 false),
        [Run.Write path Run.EndRowGroup;
         Run.Write path
           (Run.Row [Run.I32 timestep; Run.I32 0; Run.F32 (F32.quantize a);
                     Run.F32 (F32.quantize b)])])
  /\ snd (Ops.run (ops ++ [Ops.DoFlushRowGroup]) w) = snd (Ops.run ops w)
  /\ snd (Run.bind (Ops.run (ops ++ [Ops.DoFlushRowGroup]) w) V2a.Finish)
     = snd (Ops.run ops w) ++ [Run.Close path]
  /\ Ops.opens_no_empty_group (Run.items path (snd (Ops.run ops w))) = true.
Proof.
  cbv zeta. split; [reflexivity |]. split; [reflexivity |].
  destruct (V2a_run_total path ops r p) as (r' & p' & t & Hrun).
  assert (Hflush : Ops.run (ops ++ [Ops.DoFlushRowGroup])
                     (V2a.mkWriter (Some path) r p)
                   = (Run.Ok (V2a.mkWriter (Some path) 0 true), t)).
  { unfold Ops.run in *. rewrite for_each_app, Hrun. cbn.
    now rewrite app_nil_r. }
  split; [now rewrite Hflush, Hrun |].
  split; [rewrite Hflush, Hrun; reflexivity |].
  apply V2a_run_no_empty_group.
Qed.

(** C2.  Within one row group every appended row has the row id of the
    row before it plus 1.  Under the per-group policy ([vti2pqtv2a.cc]) a
    flush resets the counter, so the row ids of every row group count up
    from 0: whatever was appended and flushed before, [FlushRowGroup]
    leaves the counter at 0, and the two rows appended after it make up a
    new row group, the last one, with the row ids 0 and 1.  Under the
    continuous policy ([vti2pqtv2b.cc]) the counter is never reset: it is
    carried into the continuation file that is opened when the ceiling is
    reached, so the row ids of the k-th file count up from [k * ceiling]
    and those of all files together from 0. *)
Theorem C2_row_ids_count_up :
  (forall path ops,
     Z.of_nat (List.length ops) <= Cxx.INT_MAX ->
     Forall Spec.counted
       (Run.groups
          (Run.items path
             (snd (Run.bind (V2a.ParquetWriter_new path) (Ops.run ops))))))
  /\ (forall path r p ops timestep a b timestep' a' b',
       let w := V2a.mkWriter (Some path) r p in
       let row0 := [Run.I32 timestep; Run.I32 0; Run.F32 (F32.quantize a);
                    Run.F32 (F32.quantize b)] in
       let row1 := [Run.I32 timestep'; Run.I32 1; Run.F32 (F32.quantize a');
                    Run.F32 (F32.quantize b')] in
       let before := snd (Ops.run ops w) in
       let after :=
         snd (Ops.run (ops ++ [Ops.DoFlushRowGroup;
                               Ops.DoAppend timestep a b;
                               Ops.DoAppend timestep' a' b']) w) in
       V2a.rowid_ (V2a.FlushRowGroup w) = 0
       /\ after = before ++ [Run.Write path Run.EndRowGroup;
                             Run.Write path (Run.Row row0);
                             Run.Write path (Run.Row row1)]
       /\ Run.groups (Run.items path after)
          = Run.groups (Run.items path before) ++ [[row0; row1]])
  /\ (forall ceiling env timestep from to v02 v03,
       0 < ceiling <= Cxx.INT_MAX ->
       Spec.snapshot (Sys.read_vti env from) v02 v03 ->
       (forall k, Sys.can_create env (Spec.split_name to k) = true) ->
       let files :=
         map snd (Run.outputs (snd (V2b.Rewrite env ceiling timestep from to))) in
       map Spec.rowid4 (List.concat files)
       = map Some (Spec.iota 0 (List.length v02))
       /\ forall k rows, nth_error files k = Some rows ->
          map Spec.rowid4 rows
          = map Some (Spec.iota (Z.of_nat k * ceiling) (List.length rows))).
Proof.
  split; [| split].
  - intros path ops Hlen. unfold V2a.ParquetWriter_new.
    cbn [Run.bind Run.act Run.ret app].
    pose proof (V2a_run_groups path ops [] 0 false eq_refl eq_refl
                  ltac:(simpl List.length; lia)) as H.
    destruct (Ops.run ops (V2a.mkWriter (Some path) 0 false)) as [o t].
    exact H.
  - intros path r p ops timestep a b timestep' a' b'. cbv zeta.
    split; [reflexivity |].
    pose proof (V2a_run_flush_appends path ops r p timestep a b
                  timestep' a' b') as Hrun.
    split; [exact Hrun |].
    rewrite Hrun, items_app. cbn [Run.items]. rewrite String.eqb_refl.
    apply groups_from_flush_rows.
  - intros ceiling env timestep from to v02 v03 Hc
      (H02 & H03 & Hn & Hlen & Hfit) Hcreate. cbv zeta.
    rewrite (V2b_Rewrite_run env ceiling timestep v02 v03 from to
               Hc Hlen Hfit Hcreate H02 H03 Hn).
    cbn [snd]. rewrite outputs_split_trace, split_files_rows.
    split.
    + rewrite chunks_concat by lia.
      rewrite rows_from_rowids, length_combine. do 2 f_equal. lia.
    + intros k rows Hk.
      apply chunks_nth in Hk; [| lia]. subst rows.
      rewrite skipn_rows_from, firstn_rows_from, rows_from_rowids.
      rewrite rows_from_length. do 2 f_equal. lia.
Qed.

Lemma C2_row_ids_count_up_witness :
  Forall Spec.counted
    (Run.groups
       (Run.items "out/run.parquet"
          (snd (Run.bind (V2a.ParquetWriter_new "out/run.parquet")
                  (Ops.run [Ops.DoAppend 2 (F32.of_Z 1) (F32.of_Z 2);
                            Ops.DoAppend 2 (F32.of_Z 3) (F32.of_Z 4);
                            Ops.DoFlushRowGroup;
                            Ops.DoAppend 7 (F32.of_Z 5) (F32.of_Z 6)])))))
  /\ map Spec.rowid4
       (List.concat
          (map snd (Run.outputs (snd (V2b.Rewrite Examples.env 3 5
                                        "in/seven.vti" "out/seven.parquet")))))
     = map Some [0; 1; 2; 3; 4; 5; 6].
Proof.
  split.
  - apply (proj1 C2_row_ids_count_up). vm_compute. congruence.
  - refine (proj1 (proj2 (proj2 C2_row_ids_count_up) 3 Examples.env 5
                     "in/seven.vti"%string "out/seven.parquet"%string
                     (map F32.of_Z (Spec.iota 1 7))
                     (map F32.of_Z (Spec.iota 11 7)) _ _ _)).
    + unfold Cxx.INT_MAX. lia.
    + unfold Spec.snapshot. repeat split; vm_compute; congruence.
    + reflexivity.
Defined.

(** ** The ordered mapping of work items *)

Lemma map_assign_find {V : Type} k (v : V) : forall m k2,
  Cxx.map_find k2 (Cxx.map_assign k v m)
  = if k2 =? k then Some v else Cxx.map_find k2 m.
Proof.
  induction m as [| [k' v'] m IH]; intros k2; simpl; [reflexivity |].
  destruct (Z.ltb_spec k k'); simpl; [reflexivity |].
  destruct (Z.eqb_spec k k') as [-> | Hne]; simpl.
  - now destruct (k2 =? k').
  - rewrite IH. destruct (Z.eqb_spec k2 k'), (Z.eqb_spec k2 k);
      try reflexivity. congruence.
Qed.

Lemma map_assign_keys {V : Type} k (v : V) : forall m x,
  In x (map fst (Cxx.map_assign k v m)) -> x = k \/ In x (map fst m).
Proof.
  induction m as [| [k' v'] m IH]; intros x; simpl.
  - intuition.
  - destruct (Z.ltb_spec k k'); simpl; [intuition |].
    destruct (Z.eqb_spec k k'); simpl; [intuition |].
    intros [H1 | H1]; [intuition |]. apply IH in H1. intuition.
Qed.

Lemma map_assign_sorted {V : Type} k (v : V) : forall m,
  StronglySorted Z.lt (map fst m) ->
  StronglySorted Z.lt (map fst (Cxx.map_assign k v m)).
Proof.
  induction m as [| [k' v'] m IH]; intros Hs; simpl.
  - repeat constructor.
  - simpl in Hs. apply StronglySorted_inv in Hs. destruct Hs as [Hs Hall].
    destruct (Z.ltb_spec k k'); simpl.
    + constructor; [now constructor |].
      constructor; [assumption |].
      eapply Forall_impl; [| exact Hall]. simpl. intros; lia.
    + destruct (Z.eqb_spec k k') as [-> | Hne]; simpl.
      * now constructor.
      * constructor; [now apply IH |].
        apply Forall_forall. intros x Hx. apply map_assign_keys in Hx.
        destruct Hx as [-> | Hx]; [lia |].
        rewrite Forall_forall in Hall. now apply Hall.
Qed.

Lemma work_items_sorted indir entries :
  StronglySorted Z.lt (map fst (Spec.work_items indir entries)).
Proof.
  unfold Spec.work_items.
  assert (H : forall m, StronglySorted Z.lt (map fst m) ->
            StronglySorted Z.lt
              (map fst
                 (fold_left
                    (fun m e =>
                       if Spec.is_vti e
                       then Cxx.map_assign (Spec.key_of (Sys.d_name e))
                              (indir ++ "/" ++ Sys.d_name e)%string m
                       else m) entries m))).
  { induction entries as [| e entries IH]; intros m Hm; [exact Hm |].
    simpl. apply IH. destruct (Spec.is_vti e); [| exact Hm].
    now apply map_assign_sorted. }
  apply H. constructor.
Qed.

Lemma work_items_last_wins indir k entries :
  Cxx.map_find k (Spec.work_items indir entries)
  = Spec.last_with_key indir k entries.
Proof.
  unfold Spec.work_items, Spec.last_with_key.
  assert (H : forall m found, Cxx.map_find k m = found ->
            Cxx.map_find k
              (fold_left
                 (fun m e =>
                    if Spec.is_vti e
                    then Cxx.map_assign (Spec.key_of (Sys.d_name e))
                           (indir ++ "/" ++ Sys.d_name e)%string m
                    else m) entries m)
            = fold_left
                (fun found e =>
                   if (Spec.is_vti e && (Spec.key_of (Sys.d_name e) =? k))%bool
                   then Some (indir ++ "/" ++ Sys.d_name e)%string
                   else found) entries found).
  { induction entries as [| e entries IH]; intros m found Hm; [exact Hm |].
    simpl. apply IH. destruct (Spec.is_vti e); simpl; [| exact Hm].
    rewrite map_assign_find, Z.eqb_sym.
    now destruct (Spec.key_of (Sys.d_name e) =? k). }
  now apply H.
Qed.

(** ** The directory scan of [vti2pqtv2a.cc] *)

Lemma substr_in_range s pos count :
  0 <= pos <= Cxx.size s ->
  Sys.substr_or_throw s pos count
  = Run.ret (substring (Z.to_nat pos) (Z.to_nat count) s).
Proof.
  intros H. unfold Sys.substr_or_throw, Cxx.substr.
  destruct (Z.ltb_spec (Cxx.size s) pos); [lia | reflexivity].
Qed.

Lemma V2a_scan_entry indir outdir e m sfx tmp2 :
  Spec.name_ok e ->
  exists sfx' tmp2',
    V2a.scan_entry (String.length indir) (String.length outdir) e
      (m, (indir ++ sfx)%string, tmp2)
    = Run.ret
        (if Spec.is_vti e
         then Cxx.map_assign (Spec.key_of (Sys.d_name e))
                (indir ++ "/" ++ Sys.d_name e)%string m
         else m,
         (indir ++ sfx')%string, tmp2').
Proof.
  intros Hok. unfold V2a.scan_entry, Spec.name_ok, Spec.is_vti in *.
  destruct (Sys.d_type e); try (now exists sfx, tmp2).
  destruct (Cxx.StringEndWith (Sys.d_name e) ".vti"); [| now exists sfx, tmp2].
  specialize (Hok eq_refl). rewrite resize_prefix.
  assert (Hkey : Sys.substr_or_throw (Sys.d_name e)
                   (Cxx.wrap_size (Cxx.size (Sys.d_name e) - 4 - 5)) 5
                 = Run.ret (substring (String.length (Sys.d_name e) - 9) 5
                              (Sys.d_name e))).
  { unfold Cxx.wrap_size. rewrite Z.mod_small by lia.
    rewrite substr_in_range by lia. do 2 f_equal.
    unfold Cxx.size. lia. }
  rewrite Hkey.
  exists ("/" ++ Sys.d_name e)%string.
  destruct (Nat.eqb (String.length tmp2) (String.length outdir)).
  - rewrite substr_in_range by (unfold Cxx.size; lia).
    rewrite !bind_ret_l. eexists. reflexivity.
  - rewrite !bind_ret_l. eexists. reflexivity.
Qed.

Lemma V2a_scan_from indir outdir entries : forall m sfx tmp2,
  Forall Spec.name_ok entries ->
  exists tmp1' tmp2',
    Run.for_each entries
      (V2a.scan_entry (String.length indir) (String.length outdir))
      (m, (indir ++ sfx)%string, tmp2)
    = Run.ret
        (fold_left
           (fun m e =>
              if Spec.is_vti e
              then Cxx.map_assign (Spec.key_of (Sys.d_name e))
                     (indir ++ "/" ++ Sys.d_name e)%string m
              else m) entries m,
         tmp1', tmp2').
Proof.
  induction entries as [| e entries IH]; intros m sfx tmp2 Hok.
  - now exists (indir ++ sfx)%string, tmp2.
  - inversion Hok as [| ? ? He Hrest]; subst.
    destruct (V2a_scan_entry indir outdir e m sfx tmp2 He)
      as (sfx' & tmp2' & Hentry).
    cbn [Run.for_each fold_left]. rewrite Hentry, bind_ret_l.
    apply IH, Hrest.
Qed.

Lemma V2a_scan_run indir outdir entries :
  Forall Spec.name_ok entries ->
  exists tmp1 tmp2,
    V2a.scan indir outdir entries
    = Run.ret (Spec.work_items indir entries, tmp1, tmp2).
Proof.
  intros Hok.
  destruct (V2a_scan_from indir outdir entries [] "" outdir Hok)
    as (tmp1 & tmp2 & H).
  rewrite append_empty_r in H. now exists tmp1, tmp2.
Qed.

(** ** What a run prints *)

Lemma std_out_app t1 t2 :
  Run.std_out (t1 ++ t2) = Run.std_out t1 ++ Run.std_out t2.
Proof. unfold Run.std_out. now rewrite flat_map_app. Qed.

Lemma std_out_bind {A B : Type} (m : Run.M A) (k : A -> Run.M B) :
  Run.std_out (snd (Run.bind m k))
  = Run.std_out (snd m)
      ++ match fst m with
         | Run.Ok a => Run.std_out (snd (k a))
         | _ => []
         end.
Proof.
  destruct m as [[a | why |] t]; simpl; rewrite ?app_nil_r; try reflexivity.
  destruct (k a) as [o t']. simpl. apply std_out_app.
Qed.

Lemma fst_bind_ok {A B : Type} (m : Run.M A) (k : A -> Run.M B) b :
  fst (Run.bind m k) = Run.Ok b ->
  exists a, fst m = Run.Ok a /\ fst (k a) = Run.Ok b.
Proof.
  destruct m as [[a | why |] t]; simpl; try discriminate.
  destruct (k a) as [o t'] eqn:E. simpl. intros ->. exists a.
  now rewrite E.
Qed.

Lemma while_std_out {S : Type} (cond : S -> bool) (body : S -> Run.M S) :
  (forall s, Run.std_out (snd (body s)) = []) ->
  forall fuel s, Run.std_out (snd (Run.while fuel cond body s)) = [].
Proof.
  intros Hbody. induction fuel as [| fuel IH]; intros s; simpl.
  - now destruct (cond s).
  - destruct (cond s); [| reflexivity].
    rewrite std_out_bind, Hbody. destruct (fst (body s)); simpl; auto.
Qed.

Lemma for_each_std_out {A S : Type} (body : A -> S -> Run.M S)
    (line : A -> string) :
  (forall a s, Run.std_out (snd (body a s)) = [line a]) ->
  forall l s s', fst (Run.for_each l body s) = Run.Ok s' ->
  Run.std_out (snd (Run.for_each l body s)) = map line l.
Proof.
  intros Hbody. induction l as [| a l IH]; intros s s' Hok; [reflexivity |].
  cbn [Run.for_each] in *. rewrite std_out_bind, Hbody.
  apply fst_bind_ok in Hok. destruct Hok as (s1 & H1 & H2).
  rewrite H1. cbn [map app]. f_equal. now apply (IH s1 s').
Qed.

Lemma index_std_out {A : Type} (l : list A) i :
  Run.std_out (snd (Sys.index l i)) = [].
Proof.
  unfold Sys.index. destruct (i <? 0); [reflexivity |].
  now destruct (nth_error l (Z.to_nat i)).
Qed.

Lemma V2a_Append_std_out w timestep a b :
  Run.std_out (snd (V2a.Append w timestep a b)) = [].
Proof. destruct w as [[path |] r [|]]; reflexivity. Qed.

Lemma Iterator_new_std_out image :
  Run.std_out (snd (Vti.Iterator_new image)) = [].
Proof.
  unfold Vti.Iterator_new, Vti.GET_POINTER.
  destruct (Sys.FastDownCast_float _); [| reflexivity].
  destruct (Sys.FastDownCast_float _); reflexivity.
Qed.

Lemma V2a_Rewrite_std_out env from timestep writer :
  Run.std_out (snd (V2a.Rewrite env from timestep writer))
  = [Spec.processing from].
Proof.
  unfold V2a.Rewrite. rewrite std_out_bind. cbn [Run.act fst snd].
  change (Run.std_out [Run.Stdout ("Processing " ++ from ++ "... " ++ Sys.nl)])
    with [Spec.processing from].
  cbn [app]. f_equal.
  rewrite std_out_bind, Iterator_new_std_out. cbn [app].
  destruct (fst (Vti.Iterator_new _)) as [it | |]; try reflexivity.
  rewrite std_out_bind, while_std_out.
  - now destruct (fst (Run.while _ _ _ _)).
  - intros [it' w]. unfold Vti.v02, Vti.v03.
    rewrite std_out_bind, index_std_out.
    destruct (fst (Sys.index _ _)); try reflexivity.
    rewrite std_out_bind, index_std_out.
    destruct (fst (Sys.index _ _)); try reflexivity.
    rewrite std_out_bind, V2a_Append_std_out.
    now destruct (fst (V2a.Append _ _ _ _)).
Qed.

Lemma V2a_ProcessDir_std_out env indir outdir entries :
  Sys.opendir env indir = inr entries ->
  Forall Spec.name_ok entries ->
  fst (V2a.ProcessDir env indir outdir) = Run.Ok tt ->
  Run.std_out (snd (V2a.ProcessDir env indir outdir))
  = map (fun kv => Spec.processing (snd kv)) (Spec.work_items indir entries)
      ++ [("Done!" ++ Sys.nl)%string].
Proof.
  intros Hdir Hok. unfold V2a.ProcessDir. rewrite Hdir.
  destruct (V2a_scan_run indir outdir entries Hok) as (tmp1 & tmp2 & Hscan).
  rewrite Hscan, bind_ret_l. intros Hrun.
  apply fst_bind_ok in Hrun. destruct Hrun as (file & Hfile & Hrun).
  apply fst_bind_ok in Hrun. destruct Hrun as (w & Hw & Hrun).
  apply fst_bind_ok in Hrun. destruct Hrun as (w' & Hw' & Hrun).
  rewrite std_out_bind, Hfile.
  rewrite std_out_bind, Hw.
  rewrite std_out_bind, Hw'.
  rewrite (for_each_std_out _ (fun kv => Spec.processing (snd kv))
             (fun kv s => V2a_Rewrite_std_out env (snd kv) (fst kv) s)
             _ _ _ Hw').
  rewrite std_out_bind.
  assert (Hopen : Run.std_out (snd (Sys.FileOutputStream_Open env tmp2)) = [])
    by (unfold Sys.FileOutputStream_Open; now destruct (Sys.can_create env tmp2)).
  assert (Hfin : Run.std_out (snd (V2a.Finish w')) = [])
    by (destruct w' as [[path |] r p]; reflexivity).
  rewrite Hopen, Hfin. cbn [app].
  change (Run.std_out (snd (V2a.ParquetWriter_new file))) with (@nil string).
  cbn [app]. f_equal.
  destruct w' as [[path |] r p]; reflexivity.
Qed.

(** C3 (as amended).  For every input directory, [ProcessDir] of
    [vti2pqtv2a.cc] enters the key of every matching file name into an
    ordered mapping in which a file enumerated later replaces an earlier
    one of the same key, and processes the entries of the mapping in
    order: the keys of the work sequence are strictly ascending, a key
    stands for the last file enumerated with it, and the progress lines
    printed name the files in that order. *)
Theorem C3_v2a_work_is_ascending_last_wins env indir outdir entries :
  Sys.opendir env indir = inr entries ->
  Forall Spec.name_ok entries ->
  let work := Spec.work_items indir entries in
  let run := V2a.ProcessDir env indir outdir in
  (exists tmp1 tmp2, V2a.scan indir outdir entries = Run.ret (work, tmp1, tmp2))
  /\ StronglySorted Z.lt (map fst work)
  /\ (forall k, Cxx.map_find k work = Spec.last_with_key indir k entries)
  /\ (fst run = Run.Ok tt ->
      Run.std_out (snd run)
      = map (fun kv => Spec.processing (snd kv)) work
          ++ [("Done!" ++ Sys.nl)%string]).
Proof.
  intros Hdir Hok. cbv zeta.
  split; [now apply V2a_scan_run |].
  split; [apply work_items_sorted |].
  split; [intros k; apply work_items_last_wins |].
  now apply V2a_ProcessDir_std_out.
Qed.

Lemma C3_v2a_work_witness :
  Run.std_out (snd (V2a.ProcessDir Examples.env "in" "out"))
  = [Spec.processing "in/new_00002.vti"; Spec.processing "in/run_00007.vti";
     Spec.processing "in/run_00015.vti"; ("Done!" ++ Sys.nl)%string]
  /\ map fst (Spec.work_items "in" Examples.listing) = [2; 7; 15].
Proof.
  assert (Hok : Forall Spec.name_ok Examples.listing).
  { unfold Examples.listing.
    repeat (apply Forall_cons;
            [intros H; vm_compute in H;
             first [discriminate H
                   | vm_compute; split; [discriminate | reflexivity]] |]).
    apply Forall_nil. }
  destruct (C3_v2a_work_is_ascending_last_wins Examples.env "in" "out"
              Examples.listing eq_refl Hok) as (_ & _ & _ & Hout).
  split; [| reflexivity].
  rewrite Hout; [reflexivity | vm_compute; reflexivity].
Defined.

(** The claim as the specification states it, for every converter, fails
    for [vti2pqtv2b.cc]: [ProcessDir] there has no mapping and rewrites
    every matching file when [readdir] returns it, so the directory
    enumerated as 7, 2, 15, 2 is processed in this very order, both files
    of key 2 included. *)
Lemma C3_v2b_processes_in_enumeration_order :
  let run := V2b.ProcessDir Examples.env V2b.CEILING "in" "out" in
  fst run = Run.Ok tt
  /\ Spec.timesteps_written (snd run) = [Some 7; Some 2; Some 15; Some 2]
  /\ map fst (Run.outputs (snd run))
     = ["out/run_00007.parquet.0"; "out/run_00002.parquet.0";
        "out/run_00015.parquet.0"; "out/new_00002.parquet.0"]%string
  /\ ~ StronglySorted Z.lt [7; 2; 15; 2].
Proof.
  cbv zeta. repeat split; try (vm_compute; reflexivity).
  intros H. apply StronglySorted_inv in H. destruct H as [_ H].
  inversion H as [| ? ? H72 _]. lia.
Qed.

(** ** Snapshots that lack a field or the cycle index *)

Lemma Iterator_new_lacks image :
  Spec.lacks_float (Sys.PointData image) ["v02"; "v03"]%string ->
  Vti.Iterator_new image = Run.stop (Run.Undefined Run.NullDereference).
Proof.
  intros H. unfold Vti.Iterator_new, Vti.GET_POINTER.
  destruct (Sys.FastDownCast_float (Sys.GetAbstractArray _ "v02")) eqn:E2;
    [| reflexivity].
  destruct (Sys.FastDownCast_float (Sys.GetAbstractArray _ "v03")) eqn:E3;
    [| reflexivity].
  exfalso. unfold Spec.lacks_float in H.
  repeat (apply Exists_cons in H; destruct H as [H | H]; [congruence |]).
  inversion H.
Qed.

Lemma lacks_float_enabled image names :
  Spec.lacks_float (Sys.PointData image) names ->
  Forall (fun n => existsb (String.eqb n) names = true) names ->
  Spec.lacks_float (Sys.PointData (Sys.enable_arrays names image)) names.
Proof.
  unfold Spec.lacks_float, Sys.enable_arrays. cbn [Sys.PointData].
  intros H Hall. apply Exists_exists in H. destruct H as (n & Hin & Hn).
  apply Exists_exists. exists n. split; [exact Hin |].
  rewrite Forall_forall in Hall.
  now rewrite GetAbstractArray_enabled by (apply Hall, Hin).
Qed.

Lemma Meta_Iterator_new_lacks image :
  Spec.lacks_float (Sys.PointData image) ["prs"; "tev"; "v02"; "v03"]%string ->
  Meta.Iterator_new image = Run.stop (Run.Undefined Run.NullDereference).
Proof.
  intros H. unfold Meta.Iterator_new, Vti.GET_POINTER.
  destruct (Sys.FastDownCast_float (Sys.GetAbstractArray _ "prs")) eqn:E0;
    [| reflexivity].
  destruct (Sys.FastDownCast_float (Sys.GetAbstractArray _ "tev")) eqn:E1;
    [| reflexivity].
  destruct (Sys.FastDownCast_float (Sys.GetAbstractArray _ "v02")) eqn:E2;
    [| reflexivity].
  destruct (Sys.FastDownCast_float (Sys.GetAbstractArray _ "v03")) eqn:E3;
    [| reflexivity].
  exfalso. unfold Spec.lacks_float in H.
  repeat (apply Exists_cons in H; destruct H as [H | H]; [congruence |]).
  inversion H.
Qed.

(** C7 (as amended).  The programs do not test the result of a lookup:
    when a selected field is absent from the snapshot, or the attribute
    [cycle_index] is, the null pointer the lookup yields is dereferenced.
    That is undefined behaviour; the programs print no diagnostic and call
    no [exit].  It happens while the iterator, or the metadata, of the
    snapshot is built, before any row of the snapshot is streamed: up to
    then the run has printed its progress line and, in the converter with
    metadata, created the output file (and opened the writer on it when
    it is a field that is missing). *)
Theorem C7_missing_lookup_is_null_dereference :
  (forall env from timestep writer,
     Spec.lacks_float (Sys.PointData (Sys.read_vti env from))
       ["v02"; "v03"]%string ->
     V2a.Rewrite env from timestep writer
     = (Run.Stop (Run.Undefined Run.NullDereference),
        [Run.Stdout (Spec.processing from)]))
  /\ (forall env ceiling timestep from to,
       Spec.lacks_float (Sys.PointData (Sys.read_vti env from))
         ["v02"; "v03"]%string ->
       V2b.Rewrite env ceiling timestep from to
       = (Run.Stop (Run.Undefined Run.NullDereference),
          [Run.Stdout ("Rewriting " ++ from ++ " to parquet... " ++ Sys.nl)]))
  /\ (forall env to_string_double from to,
       Sys.can_create env to = true ->
       Sys.FastDownCast_int
         (Sys.GetAbstractArray (Sys.FieldData (Sys.read_vti env from))
            "cycle_index") = None ->
       Meta.Rewrite env to_string_double from to
       = (Run.Stop (Run.Undefined Run.NullDereference),
          [Run.Stdout ("Rewriting " ++ from ++ " to parquet... " ++ Sys.nl);
           Run.Create to]))
  /\ (forall env to_string_double from to kv,
       Sys.can_create env to = true ->
       Meta.ExtraMetadata to_string_double (Sys.read_vti env from)
       = Run.ret kv ->
       Spec.lacks_float (Sys.PointData (Sys.read_vti env from))
         ["prs"; "tev"; "v02"; "v03"]%string ->
       Meta.Rewrite env to_string_double from to
       = (Run.Stop (Run.Undefined Run.NullDereference),
          [Run.Stdout ("Rewriting " ++ from ++ " to parquet... " ++ Sys.nl);
           Run.Create to;
           Run.OpenWriter to Meta.GetSchema
             (Meta.properties Sys.arrow_defaults)
             (Sys.unordered_order env kv)])).
Proof.
  assert (Hall : Forall (fun n => existsb (String.eqb n) ["v02"; "v03"]%string
                                  = true) ["v02"; "v03"]%string)
    by (repeat constructor).
  split; [| split; [| split]].
  - intros env from timestep writer H.
    unfold V2a.Rewrite.
    rewrite (Iterator_new_lacks _ (lacks_float_enabled _ _ H Hall)).
    reflexivity.
  - intros env ceiling timestep from to H.
    unfold V2b.Rewrite.
    rewrite (Iterator_new_lacks _ (lacks_float_enabled _ _ H Hall)).
    reflexivity.
  - intros env tsd from to Hcreate Hcycle.
    unfold Meta.Rewrite, Sys.FileOutputStream_Open, Meta.ExtraMetadata.
    rewrite Hcreate.
    destruct (Sys.Extent _) as [[[[[e0 e1] e2] e3] e4] e5].
    destruct (Sys.Origin _) as [[o0 o1] o2].
    destruct (Sys.Spacing _) as [[s0 s1] s2].
    rewrite Hcycle. reflexivity.
  - intros env tsd from to kv Hcreate Hkv H.
    unfold Meta.Rewrite, Sys.FileOutputStream_Open.
    rewrite Hcreate, Hkv, (Meta_Iterator_new_lacks _ H).
    reflexivity.
Qed.

Lemma C7_missing_lookup_witness :
  V2a.Rewrite Examples.env "in/broken.vti" 3
    (V2a.mkWriter (Some "out/run.parquet"%string) 0 false)
  = (Run.Stop (Run.Undefined Run.NullDereference),
     [Run.Stdout (Spec.processing "in/broken.vti")])
  /\ V2b.Rewrite Examples.env V2b.CEILING 3 "in/broken.vti" "out/broken.parquet"
     = (Run.Stop (Run.Undefined Run.NullDereference),
        [Run.Stdout ("Rewriting in/broken.vti to parquet... " ++ Sys.nl)])
  /\ Meta.Rewrite Examples.env (fun _ => "0.000000"%string)
       "in/nocycle.vti" "out/nocycle.parquet"
     = (Run.Stop (Run.Undefined Run.NullDereference),
        [Run.Stdout ("Rewriting in/nocycle.vti to parquet... " ++ Sys.nl);
         Run.Create "out/nocycle.parquet"])
  /\ Run.rows_written
       (snd (Meta.Rewrite Examples.env (fun _ => "0.000000"%string)
               "in/broken.vti" "out/broken.parquet")) = [].
Proof.
  destruct C7_missing_lookup_is_null_dereference as (Ha & Hb & Hc & Hd).
  split; [| split; [| split]].
  - apply Ha. apply Exists_cons_hd. reflexivity.
  - apply (Hb Examples.env V2b.CEILING 3 "in/broken.vti"%string).
    apply Exists_cons_hd. reflexivity.
  - apply (Hc Examples.env); reflexivity.
  - erewrite (Hd Examples.env _ "in/broken.vti"%string);
      [reflexivity | reflexivity | reflexivity |].
    apply Exists_cons_hd. reflexivity.
Defined.

(** The claim as the specification states it fails: on a snapshot without
    the field [v02], and on one without [cycle_index], the run ends in a
    null pointer dereference, with nothing on the standard error stream
    and no [exit]. *)
Lemma C7_no_diagnostic_on_missing_lookup :
  let field :=
    V2a.Rewrite Examples.env "in/broken.vti" 3
      (V2a.mkWriter (Some "out/run.parquet"%string) 0 false) in
  let cycle :=
    Meta.Rewrite Examples.env (fun _ => "0.000000"%string)
      "in/nocycle.vti" "out/nocycle.parquet" in
  ~ Spec.reported_fatal_error field
  /\ fst field = Run.Stop (Run.Undefined Run.NullDereference)
  /\ Run.std_err (snd field) = []
  /\ ~ Spec.reported_fatal_error cycle
  /\ fst cycle = Run.Stop (Run.Undefined Run.NullDereference)
  /\ Run.std_err (snd cycle) = [].
Proof.
  cbv zeta. unfold Spec.reported_fatal_error.
  repeat split; try (vm_compute; reflexivity); vm_compute; intros H; exact H.
Qed.

(** ** The writer configurations *)

(** C9 (as amended).  In the writer configuration of the three image
    converters and of the repack tool, whatever the defaults of the
    builder: the integer key columns ([timestep] and [rowid]) are delta
    encoded and compressed with the byte-oriented codec, the measurement
    columns are plain encoded and uncompressed, the file-level default
    compression is disabled, and no column has a dictionary.  The
    unstructured-grid converter only sets the file-level default
    compression, to the general-purpose codec: dictionary and encoding of
    its measurement columns stay what the Parquet library has by
    default. *)
Theorem C9_writer_configurations c0 e0 d0 :
  let init := Run.mkBuilder c0 e0 d0 [] [] in
  (Forall (Spec.column_policy (Vti.properties init)) Vti.GetSchema
   /\ Run.default_compression (Vti.properties init) = Run.UNCOMPRESSED)
  /\ (Forall (Spec.column_policy (Meta.properties init)) Meta.GetSchema
      /\ Run.default_compression (Meta.properties init) = Run.UNCOMPRESSED)
  /\ (Run.default_compression (Xrage.properties init) = Run.ZSTD
      /\ Forall (fun column =>
                   snd column = Run.FLOAT
                   /\ Sys.compression (Xrage.properties init) (fst column)
                      = Run.ZSTD
                   /\ Sys.encoding (Xrage.properties init) (fst column) = e0
                   /\ Sys.dictionary_enabled (Xrage.properties init) (fst column)
                      = d0)
           Xrage.GetSchema)
  /\ (forall file,
        V2a.ParquetWriter_new file
        = (Run.Ok (V2a.mkWriter (Some file) 0 false),
           [Run.OpenWriter file Vti.GetSchema
              (Vti.properties Sys.arrow_defaults) []])
        /\ Repack.ParquetWriter_new file
           = (Run.Ok (Repack.mkWriter (Some file)),
              [Run.OpenWriter file Vti.GetSchema
                 (Vti.properties Sys.arrow_defaults) []])
        /\ Xrage.ParquetWriter_new file
           = (Run.Ok (Xrage.mkWriter (Some file)),
              [Run.OpenWriter file Xrage.GetSchema
                 (Xrage.properties Sys.arrow_defaults) []])).
Proof.
  cbv zeta. repeat split; try reflexivity;
    repeat (apply Forall_cons; [repeat split |]); apply Forall_nil.
Qed.

(** The claim as the specification states it, for every variant, fails
    for the unstructured-grid converter: with the defaults of the Parquet
    library its measurement columns have the dictionary enabled. *)
Lemma C9_xrage_keeps_the_dictionary :
  In ("v02"%string, Run.FLOAT) Xrage.GetSchema
  /\ Sys.dictionary_enabled (Xrage.properties Sys.arrow_defaults) "v02" = true
  /\ ~ Forall (Spec.column_policy (Xrage.properties Sys.arrow_defaults))
        Xrage.GetSchema.
Proof.
  split; [vm_compute; tauto |]. split; [reflexivity |].
  intros H. apply Forall_inv in H. destruct H as (_ & _ & H). discriminate H.
Qed.

(** ** Rounding in [SpecFloat] *)

Lemma pow2_double d : 0 < d -> 2 ^ d = 2 * 2 ^ (d - 1).
Proof.
  intros Hd. replace d with (Z.succ (d - 1)) at 1 by lia.
  apply Z.pow_succ_r. lia.
Qed.

Lemma digits2_pos_bounds p :
  2 ^ (Zpos (digits2_pos p) - 1) <= Zpos p < 2 ^ Zpos (digits2_pos p).
Proof.
  induction p as [p IH | p IH |]; cbn [digits2_pos].
  - rewrite Pos2Z.inj_succ.
    replace (Z.succ (Zpos (digits2_pos p)) - 1) with (Zpos (digits2_pos p)) by lia.
    rewrite Z.pow_succ_r by lia.
    pose proof (pow2_double (Zpos (digits2_pos p)) ltac:(lia)). lia.
  - rewrite Pos2Z.inj_succ.
    replace (Z.succ (Zpos (digits2_pos p)) - 1) with (Zpos (digits2_pos p)) by lia.
    rewrite Z.pow_succ_r by lia.
    pose proof (pow2_double (Zpos (digits2_pos p)) ltac:(lia)). lia.
  - simpl. lia.
Qed.

Lemma digits2_pos_unique p d :
  2 ^ (d - 1) <= Zpos p < 2 ^ d -> Zpos (digits2_pos p) = d.
Proof.
  intros [Hlo Hhi]. pose proof (digits2_pos_bounds p) as [Blo Bhi].
  assert (Hd : 0 < d).
  { destruct (Z.ltb_spec 0 d) as [| Hle]; [assumption |].
    destruct (Z.eq_dec d 0) as [-> | Hne]; [simpl in Hhi; lia |].
    rewrite Z.pow_neg_r in Hhi by lia. lia. }
  destruct (Z.lt_trichotomy (Zpos (digits2_pos p)) d) as [Hlt | [Heq | Hgt]];
    [| exact Heq |].
  - assert (2 ^ Zpos (digits2_pos p) <= 2 ^ (d - 1))
      by (apply Z.pow_le_mono_r; lia). lia.
  - assert (2 ^ d <= 2 ^ (Zpos (digits2_pos p) - 1))
      by (apply Z.pow_le_mono_r; lia). lia.
Qed.

Lemma shr_1_m rec : 0 <= shr_m rec -> shr_m (shr_1 rec) = shr_m rec / 2.
Proof.
  destruct rec as [m r s]. cbn [shr_m]. intros Hm.
  destruct m as [| [p | p |] |]; cbn [shr_1 shr_m];
    Z.to_euclidean_division_equations; lia.
Qed.

Lemma position_cases m r s w D :
  loc_of_shr_record (Build_shr_record m r s) = F32.position w D ->
  0 <= w ->
  (r = false /\ s = false /\ w = 0)
  \/ (r = false /\ s = true /\ 0 < 2 * w < D)
  \/ (r = true /\ s = false /\ 0 < w /\ 2 * w = D)
  \/ (r = true /\ s = true /\ D < 2 * w).
Proof.
  unfold F32.position. intros H Hw.
  destruct (Z.eqb_spec w 0) as [Hz | Hnz].
  - destruct r, s; try discriminate H. now left.
  - destruct (Z.compare_spec (2 * w) D) as [He | Hl | Hg];
      destruct r, s; try discriminate H.
    + right. right. left. repeat split; lia.
    + right. left. repeat split; lia.
    + right. right. right. repeat split; lia.
Qed.

Lemma position_exact m D : 
  loc_of_shr_record (Build_shr_record m false false) = F32.position 0 D.
Proof. reflexivity. Qed.

Lemma position_lt m w D : 0 < 2 * w < D ->
  loc_of_shr_record (Build_shr_record m false true) = F32.position w D.
Proof.
  intros H. unfold F32.position.
  destruct (Z.eqb_spec w 0); [lia |].
  destruct (Z.compare_spec (2 * w) D); [lia | reflexivity | lia].
Qed.

Lemma position_eq m w D : 0 < w -> 2 * w = D ->
  loc_of_shr_record (Build_shr_record m true false) = F32.position w D.
Proof.
  intros H0 H. unfold F32.position.
  destruct (Z.eqb_spec w 0); [lia |].
  destruct (Z.compare_spec (2 * w) D); [reflexivity | lia | lia].
Qed.

Lemma position_gt m w D : 0 < w -> D < 2 * w ->
  loc_of_shr_record (Build_shr_record m true true) = F32.position w D.
Proof.
  intros H0 H. unfold F32.position.
  destruct (Z.eqb_spec w 0); [lia |].
  destruct (Z.compare_spec (2 * w) D); [lia | lia | reflexivity].
Qed.

Lemma shr_1_describes rec V D :
  0 < D -> F32.describes rec V D -> F32.describes (shr_1 rec) V (2 * D).
Proof.
  intros HD (Hm & HV & Hloc). destruct rec as [m r s].
  unfold F32.describes in *. cbn [shr_m] in *.
  apply position_cases in Hloc; [| lia].
  destruct m as [| [p | p |] |]; try lia;
    cbn [shr_1 shr_m] in *;
    (split; [lia |]); (split; [lia |]);
    destruct Hloc as [(-> & -> & Hw) | [(-> & -> & Hw) | [(-> & -> & Hw)
                     | (-> & -> & Hw)]]]; cbn [orb].
  all: first [ replace (V - 0 * (2 * D)) with 0 by lia; apply position_exact
             | replace (V - Z.pos p * (2 * D)) with 0 by lia; apply position_exact
             | apply position_lt; lia
             | apply position_eq; lia
             | apply position_gt; lia ].
Qed.

Lemma round_nearest_even_error rec V S :
  0 < S -> F32.describes rec V S ->
  let m := round_nearest_even (shr_m rec) (loc_of_shr_record rec) in
  shr_m rec <= m <= shr_m rec + 1 /\ 2 * Z.abs (m * S - V) <= S.
Proof.
  intros HS (Hm & HV & Hloc). cbv zeta. destruct rec as [m r s].
  cbn [shr_m] in *.
  pose proof Hloc as Hcases. apply position_cases in Hcases; [| lia].
  destruct Hcases as [(-> & -> & Hw) | [(-> & -> & Hw) | [(-> & -> & Hw)
                     | (-> & -> & Hw)]]];
    cbn [loc_of_shr_record round_nearest_even];
    try destruct (Z.even m); lia.
Qed.

Lemma iter_pos_nat {A : Type} (f : A -> A) p : forall x,
  iter_pos f p x = Nat.iter (Pos.to_nat p) f x.
Proof.
  induction p as [p IH | p IH |]; intros x; cbn [iter_pos].
  - rewrite !IH, Pos2Nat.inj_xI.
    rewrite <- Nat.iter_succ_r, <- Nat.iter_add. f_equal. lia.
  - rewrite !IH, Pos2Nat.inj_xO, <- Nat.iter_add. f_equal. lia.
  - reflexivity.
Qed.

Lemma iter_shr_m k : forall rec,
  0 <= shr_m rec ->
  0 <= shr_m (Nat.iter k shr_1 rec)
  /\ shr_m (Nat.iter k shr_1 rec) = shr_m rec / 2 ^ Z.of_nat k.
Proof.
  induction k as [| k IH]; intros rec Hm.
  - simpl. now rewrite Z.div_1_r.
  - change (Nat.iter (S k) shr_1 rec) with (shr_1 (Nat.iter k shr_1 rec)).
    destruct (IH rec Hm) as [H0 H1].
    rewrite shr_1_m by assumption. rewrite H1.
    rewrite Nat2Z.inj_succ, Z.pow_succ_r by lia.
    rewrite Z.div_div by lia. split; [| f_equal; lia].
    apply Z.div_pos; lia.
Qed.

Lemma iter_shr_describes k : forall rec V D,
  0 < D -> F32.describes rec V D ->
  F32.describes (Nat.iter k shr_1 rec) V (2 ^ Z.of_nat k * D).
Proof.
  induction k as [| k IH]; intros rec V D HD H.
  - change (Nat.iter 0 shr_1 rec) with rec.
    change (Z.of_nat 0) with 0. now rewrite Z.pow_0_r, Z.mul_1_l.
  - change (Nat.iter (S k) shr_1 rec) with (shr_1 (Nat.iter k shr_1 rec)).
    rewrite Nat2Z.inj_succ, Z.pow_succ_r by lia.
    rewrite <- Z.mul_assoc. apply shr_1_describes; [| now apply IH].
    apply Z.mul_pos_pos; [apply Z.pow_pos_nonneg |]; lia.
Qed.

Lemma fexp_normal e : -149 <= e - 24 -> fexp 24 128 e = e - 24.
Proof. unfold fexp, emin. intros H. apply Z.max_l. lia. Qed.

Lemma shr_nat mrs e n :
  0 <= n -> shr mrs e n = (Nat.iter (Z.to_nat n) shr_1 mrs, e + n).
Proof.
  intros Hn. unfold shr. destruct n as [| p | p]; [| | lia].
  - now rewrite Z.add_0_r.
  - now rewrite iter_pos_nat.
Qed.

Lemma Zdigits2_unique m d :
  2 ^ (d - 1) <= m < 2 ^ d -> 0 < d -> Zdigits2 m = d.
Proof.
  intros H Hd.
  assert (0 < m) by (assert (0 < 2 ^ (d - 1)) by (apply Z.pow_pos_nonneg; lia); lia).
  destruct m as [| p | p]; try lia. cbn [Zdigits2].
  now apply digits2_pos_unique.
Qed.

Lemma shr_fexp_normal m e l d :
  2 ^ (d - 1) <= m < 2 ^ d -> 24 <= d -> -149 <= e + d - 24 ->
  shr_fexp 24 128 m e l
  = (Nat.iter (Z.to_nat (d - 24)) shr_1 (shr_record_of_loc m l), e + d - 24).
Proof.
  intros Hm Hd He. unfold shr_fexp.
  rewrite (Zdigits2_unique m d Hm) by lia.
  rewrite fexp_normal by lia.
  replace (d + e - 24 - e) with (d - 24) by lia.
  rewrite shr_nat by lia. f_equal. lia.
Qed.

Lemma loc_of_record_of_loc m l :
  loc_of_shr_record (shr_record_of_loc m l) = l.
Proof. now destruct l as [| []]. Qed.

Lemma shr_m_record_of_loc m l : shr_m (shr_record_of_loc m l) = m.
Proof. now destruct l as [| []]. Qed.

Lemma shr_fexp_none m e :
  2 ^ 23 <= m < 2 ^ 24 -> -149 <= e ->
  shr_fexp 24 128 m e loc_Exact = (Build_shr_record m false false, e).
Proof.
  intros Hm He. rewrite (shr_fexp_normal m e loc_Exact 24) by (simpl; lia).
  change (Z.to_nat (24 - 24)) with 0%nat. cbn [Nat.iter nat_rect shr_record_of_loc].
  f_equal. lia.
Qed.

Lemma shr_fexp_carry e :
  -149 <= e + 1 ->
  shr_fexp 24 128 (2 ^ 24) e loc_Exact
  = (Build_shr_record (2 ^ 23) false false, e + 1).
Proof.
  intros He. rewrite (shr_fexp_normal (2 ^ 24) e loc_Exact 25) by (simpl; lia).
  f_equal. lia.
Qed.

Lemma round_aux_spec s mx ex l D V dx :
  0 < D ->
  2 ^ (dx - 1) <= mx < 2 ^ dx -> 24 <= dx ->
  -149 <= ex + dx - 24 <= 103 ->
  mx * D <= V < (mx + 1) * D ->
  l = F32.position (V - mx * D) D ->
  exists m e,
    binary_round_aux 24 128 s mx ex l = S754_finite s m e
    /\ 2 ^ 23 <= Zpos m < 2 ^ 24
    /\ (e = ex + dx - 24 \/ e = ex + dx - 23)
    /\ 2 * Z.abs (Zpos m * 2 ^ (e - ex) * D - V) <= 2 ^ (dx - 24) * D.
Proof.
  intros HD Hmx Hdx Hex HV Hl.
  assert (Hpos : 0 < 2 ^ (dx - 24)) by (apply Z.pow_pos_nonneg; lia).
  assert (Hsplit : 2 ^ dx = 2 ^ 24 * 2 ^ (dx - 24))
    by (rewrite <- Z.pow_add_r by lia; f_equal; lia).
  assert (Hsplit' : 2 ^ (dx - 1) = 2 ^ 23 * 2 ^ (dx - 24))
    by (rewrite <- Z.pow_add_r by lia; f_equal; lia).
  unfold binary_round_aux.
  rewrite (shr_fexp_normal mx ex l dx Hmx Hdx) by lia.
  set (k := Z.to_nat (dx - 24)).
  set (mrs := Nat.iter k shr_1 (shr_record_of_loc mx l)).
  assert (Hdesc0 : F32.describes (shr_record_of_loc mx l) V D).
  { unfold F32.describes. rewrite shr_m_record_of_loc, loc_of_record_of_loc.
    repeat split; try lia. exact Hl. }
  assert (Hdesc : F32.describes mrs V (2 ^ (dx - 24) * D)).
  { replace (dx - 24) with (Z.of_nat k) by (unfold k; lia).
    now apply iter_shr_describes. }
  assert (Hm' : shr_m mrs = mx / 2 ^ (dx - 24)).
  { replace (dx - 24) with (Z.of_nat k) by (unfold k; lia).
    unfold mrs. rewrite <- (shr_m_record_of_loc mx l) at 2.
    apply iter_shr_m. rewrite shr_m_record_of_loc. lia. }
  assert (Hrange : 2 ^ 23 <= shr_m mrs < 2 ^ 24).
  { rewrite Hm'. split.
    - apply Z.div_le_lower_bound; lia.
    - apply Z.div_lt_upper_bound; lia. }
  assert (HS : 0 < 2 ^ (dx - 24) * D) by (apply Z.mul_pos_pos; assumption).
  pose proof (round_nearest_even_error mrs V (2 ^ (dx - 24) * D) HS Hdesc)
    as [Hround Herr].
  set (m2 := round_nearest_even (shr_m mrs) (loc_of_shr_record mrs)) in *.
  cbv beta iota.
  destruct (Z.eq_dec m2 (2 ^ 24)) as [Heq | Hne].
  - (* the mantissa was rounded up to the next power of two *)
    rewrite Heq, shr_fexp_carry by lia. cbv beta iota. cbn [shr_m].
    change (2 ^ 23) with (Zpos (2 ^ 23)) at 1. cbv beta iota.
    destruct (Z.leb_spec (ex + dx - 24 + 1) (128 - 24)) as [_ | Hbad];
      [| lia].
    exists (2 ^ 23)%positive, (ex + dx - 24 + 1).
    split; [reflexivity |]. split; [simpl; lia |]. split; [right; lia |].
    replace (ex + dx - 24 + 1 - ex) with (dx - 24 + 1) by lia.
    rewrite Z.pow_add_r by lia.
    replace (Z.pos (2 ^ 23) * (2 ^ (dx - 24) * 2 ^ 1) * D)
      with (m2 * (2 ^ (dx - 24) * D)).
    + exact Herr.
    + rewrite Heq. change (Z.pos (2 ^ 23)) with 8388608.
      change (2 ^ 24) with 16777216. change (2 ^ 1) with 2. lia.
  - assert (Hm2 : 2 ^ 23 <= m2 < 2 ^ 24) by lia.
    rewrite shr_fexp_none by lia. cbv beta iota. cbn [shr_m].
    destruct m2 as [| m | m] eqn:Em2; [simpl in Hm2; lia | | lia].
    destruct (Z.leb_spec (ex + dx - 24) (128 - 24)) as [_ | Hbad]; [| lia].
    exists m, (ex + dx - 24).
    split; [reflexivity |]. split; [exact Hm2 |]. split; [left; lia |].
    replace (ex + dx - 24 - ex) with (dx - 24) by lia.
    rewrite <- Z.mul_assoc. exact Herr.
Qed.

Lemma Pos_iter_xO m k : Zpos (Pos.iter xO m k) = Zpos m * 2 ^ Zpos k.
Proof.
  induction k as [| k IH] using Pos.peano_ind.
  - simpl. lia.
  - rewrite Pos.iter_succ, Pos2Z.inj_xO, IH, Pos2Z.inj_succ, Z.pow_succ_r by lia.
    lia.
Qed.

Lemma of_int_normal s n d :
  2 ^ (d - 1) <= n < 2 ^ d -> 1 <= d <= 24 ->
  exists m, F32.of_int s n = S754_finite s m (d - 24) /\ Zpos m = n * 2 ^ (24 - d).
Proof.
  intros Hn Hd.
  assert (Hn0 : 0 < n)
    by (assert (0 < 2 ^ (d - 1)) by (apply Z.pow_pos_nonneg; lia); lia).
  destruct n as [| p | p]; try lia.
  assert (Hof : F32.of_int s (Zpos p) = binary_round 24 128 s p 0)
    by (unfold F32.of_int; now destruct s).
  rewrite Hof. unfold binary_round.
  rewrite (digits2_pos_unique p d Hn), fexp_normal by lia.
  assert (Hshl : exists mz, shl_align p 0 (d + 0 - 24) = (mz, d - 24)
                            /\ Zpos mz = Zpos p * 2 ^ (24 - d)).
  { unfold shl_align. destruct (d + 0 - 24 - 0) as [| k | k] eqn:Ek; try lia.
    - exists p. replace (24 - d) with 0 by lia. split; [f_equal; lia | lia].
    - exists (Pos.iter xO p k). split; [f_equal; lia |].
      rewrite Pos_iter_xO. f_equal. f_equal. lia. }
  destruct Hshl as (mz & -> & Hmz).
  assert (Hrange : 2 ^ 23 <= Zpos mz < 2 ^ 24).
  { rewrite Hmz.
    replace (2 ^ 23) with (2 ^ (d - 1) * 2 ^ (24 - d))
      by (rewrite <- Z.pow_add_r by lia; f_equal; lia).
    replace (2 ^ 24) with (2 ^ d * 2 ^ (24 - d))
      by (rewrite <- Z.pow_add_r by lia; f_equal; lia).
    assert (0 < 2 ^ (24 - d)) by (apply Z.pow_pos_nonneg; lia). nia. }
  destruct (round_aux_spec s (Zpos mz) (d - 24) loc_Exact 1 (Zpos mz) 24)
    as (m & e & Hround & Hm & He & Herr); try lia.
  { replace (Z.pos mz - Z.pos mz * 1) with 0 by lia. reflexivity. }
  rewrite Hround. exists m.
  change (2 ^ (24 - 24)) with 1 in Herr.
  destruct He as [-> | ->].
  - replace (d - 24 + 24 - 24 - (d - 24)) with 0 in Herr by lia.
    change (2 ^ 0) with 1 in Herr. split; [f_equal; lia | lia].
  - exfalso.
    replace (d - 24 + 24 - 23 - (d - 24)) with 1 in Herr by lia.
    change (2 ^ 1) with 2 in Herr. change (2 ^ 24) with 16777216 in *.
    change (2 ^ 23) with 8388608 in *. lia.
Qed.

Lemma million_eq : F32.million = S754_finite false 16000000 (-4).
Proof. reflexivity. Qed.

Lemma div_million_spec s m1 e1 :
  2 ^ 23 <= Zpos m1 < 2 ^ 24 -> -129 <= e1 <= 100 ->
  exists my ey t dq,
    F32.div (S754_finite s m1 e1) F32.million = S754_finite s my ey
    /\ 2 ^ 23 <= Zpos my < 2 ^ 24
    /\ ey = e1 - 20 + t
    /\ (dq = 0 \/ dq = 1) /\ (t = dq \/ t = dq + 1)
    /\ 2 * Z.abs (Zpos my * 2 ^ t * 16000000 - Zpos m1 * 2 ^ 24)
       <= 2 ^ dq * 16000000.
Proof.
  intros Hm He.
  assert (Hcore : SFdiv_core_binary 24 128 (Zpos m1) e1 16000000 (-4)
                  = (Zpos m1 * 2 ^ 24 / 16000000, e1 - 20,
                     F32.position (Zpos m1 * 2 ^ 24 mod 16000000) 16000000)).
  { unfold SFdiv_core_binary.
    rewrite (Zdigits2_unique (Zpos m1) 24) by (simpl; lia).
    change (Zdigits2 16000000) with 24.
    rewrite fexp_normal by lia.
    replace (Z.min (24 + e1 - (24 + -4) - 24) (e1 - -4)) with (e1 - 20) by lia.
    replace (e1 - -4 - (e1 - 20)) with 24 by lia.
    rewrite Z.shiftl_mul_pow2 by lia.
    unfold Z.div, Z.modulo.
    destruct (Z.div_eucl (Z.pos m1 * 2 ^ 24) 16000000) as [q r].
    reflexivity. }
  unfold F32.div, F32.prec, F32.emax. rewrite million_eq.
  unfold SFdiv. rewrite Hcore, xorb_false_r.
  pose proof (Z.div_mod (Zpos m1 * 2 ^ 24) 16000000 ltac:(lia)) as Hdm.
  pose proof (Z.mod_pos_bound (Zpos m1 * 2 ^ 24) 16000000 ltac:(lia)) as Hr.
  set (q := Zpos m1 * 2 ^ 24 / 16000000) in *.
  set (r := Zpos m1 * 2 ^ 24 mod 16000000) in *.
  change (2 ^ 24) with 16777216 in *. change (2 ^ 23) with 8388608 in *.
  assert (Hq : 8796093 <= q < 17592187) by lia.
  destruct (Z.lt_ge_cases q 16777216) as [Hlt | Hge].
  - destruct (round_aux_spec s q (e1 - 20) (F32.position r 16000000) 16000000
                (Zpos m1 * 16777216) 24)
      as (my & ey & Hround & Hmy & Hey & Herr); try lia.
    { f_equal. lia. }
    exists my, ey, (ey - (e1 - 20)), 0.
    split; [exact Hround |]. split; [exact Hmy |]. split; [lia |].
    split; [now left |]. split; [lia |].
    change (2 ^ (24 - 24)) with 1 in Herr. change (2 ^ 0) with 1. lia.
  - destruct (round_aux_spec s q (e1 - 20) (F32.position r 16000000) 16000000
                (Zpos m1 * 16777216) 25)
      as (my & ey & Hround & Hmy & Hey & Herr); try lia.
    { f_equal. lia. }
    exists my, ey, (ey - (e1 - 20)), 1.
    split; [exact Hround |]. split; [exact Hmy |]. split; [lia |].
    split; [now right |]. split; [lia |].
    change (2 ^ (25 - 24)) with 2 in Herr. change (2 ^ 1) with 2. lia.
Qed.

Lemma mul_million_spec s my ey :
  2 ^ 23 <= Zpos my < 2 ^ 24 -> -160 <= ey <= 80 ->
  exists mp ep u dp,
    F32.mul (S754_finite s my ey) F32.million = S754_finite s mp ep
    /\ 2 ^ 23 <= Zpos mp < 2 ^ 24
    /\ ep = ey - 4 + u
    /\ (dp = 23 \/ dp = 24) /\ (u = dp \/ u = dp + 1)
    /\ 2 * Z.abs (Zpos mp * 2 ^ u - Zpos my * 16000000) <= 2 ^ dp.
Proof.
  intros Hm He.
  unfold F32.mul, F32.prec, F32.emax. rewrite million_eq.
  unfold SFmul. rewrite xorb_false_r.
  rewrite Pos2Z.inj_mul.
  change (2 ^ 24) with 16777216 in *. change (2 ^ 23) with 8388608 in *.
  destruct (Z.lt_ge_cases (Zpos my * 16000000) (2 ^ 47)) as [Hlt | Hge];
    change (2 ^ 47) with 140737488355328 in *.
  - destruct (round_aux_spec s (Zpos my * 16000000) (ey + -4) loc_Exact 1
                (Zpos my * 16000000) 47)
      as (mp & ep & Hround & Hmp & Hep & Herr); try lia.
    { replace (Z.pos my * 16000000 - Z.pos my * 16000000 * 1) with 0 by lia.
      reflexivity. }
    exists mp, ep, (ep - (ey + -4)), 23.
    split; [exact Hround |]. split; [exact Hmp |]. split; [lia |].
    split; [now left |]. split; [lia |].
    change (47 - 24) with 23 in Herr. lia.
  - destruct (round_aux_spec s (Zpos my * 16000000) (ey + -4) loc_Exact 1
                (Zpos my * 16000000) 48)
      as (mp & ep & Hround & Hmp & Hep & Herr); try lia.
    { replace (Z.pos my * 16000000 - Z.pos my * 16000000 * 1) with 0 by lia.
      reflexivity. }
    exists mp, ep, (ep - (ey + -4)), 24.
    split; [exact Hround |]. split; [exact Hmp |]. split; [lia |].
    split; [now right |]. split; [lia |].
    change (48 - 24) with 24 in Herr. lia.
Qed.

Lemma nearest_away_eq m k n :
  n * 2 ^ Zpos k <= Zpos m + 2 ^ (Zpos k - 1) < (n + 1) * 2 ^ Zpos k ->
  F32.nearest_away m (Zneg k) = n.
Proof.
  intros H. unfold F32.nearest_away.
  assert (0 < 2 ^ Zpos k) by (apply Z.pow_pos_nonneg; lia).
  symmetry.
  apply Z.div_unique with (r := Zpos m + 2 ^ (Zpos k - 1) - n * 2 ^ Zpos k); lia.
Qed.

Lemma roundf_of_int s mp ep n :
  ep < 0 -> 0 < n ->
  n * 2 ^ (- ep) <= Zpos mp + 2 ^ (- ep - 1) < (n + 1) * 2 ^ (- ep) ->
  F32.roundf (S754_finite s mp ep) = F32.of_int s n.
Proof.
  intros Hep Hn H. destruct ep as [| k | k]; try lia.
  cbn [F32.roundf]. rewrite (nearest_away_eq mp k n) by exact H.
  destruct n as [| p | p]; try lia. reflexivity.
Qed.

Lemma quantize_fixpoint s n :
  1 <= n < 2 ^ 22 ->
  F32.roundf (F32.mul (F32.div (F32.of_int s n) F32.million) F32.million)
  = F32.of_int s n.
Proof.
  intros Hn.
  pose proof (Z.log2_spec n ltac:(lia)) as Hlog.
  pose proof (Z.log2_nonneg n) as Hlog0.
  set (d := Z.succ (Z.log2 n)) in *.
  replace (Z.log2 n) with (d - 1) in Hlog by (unfold d; lia).
  assert (Hd : 1 <= d <= 22).
  { split; [unfold d; lia |].
    destruct (Z.le_gt_cases d 22) as [| Hgt]; [assumption |].
    assert (2 ^ 22 <= 2 ^ (d - 1)) by (apply Z.pow_le_mono_r; lia). lia. }
  clearbody d. clear Hlog0.
  destruct (of_int_normal s n d Hlog ltac:(lia)) as (m1 & Hof & Hm1).
  rewrite Hof at 1. clear Hof.
  assert (Hm1r : 2 ^ 23 <= Zpos m1 < 2 ^ 24).
  { rewrite Hm1.
    replace (2 ^ 23) with (2 ^ (d - 1) * 2 ^ (24 - d))
      by (rewrite <- Z.pow_add_r by lia; f_equal; lia).
    replace (2 ^ 24) with (2 ^ d * 2 ^ (24 - d))
      by (rewrite <- Z.pow_add_r by lia; f_equal; lia).
    assert (0 < 2 ^ (24 - d)) by (apply Z.pow_pos_nonneg; lia). nia. }
  destruct (div_million_spec s m1 (d - 24) Hm1r ltac:(lia))
    as (my & ey & t & dq & -> & Hmy & -> & Hdq & Ht & Hdiv).
  destruct (mul_million_spec s my (d - 24 - 20 + t) Hmy ltac:(lia))
    as (mp & ep & u & dp & -> & Hmp & -> & Hdp & Hu & Hmul).
  rewrite Hm1 in Hdiv. clear Hm1 Hm1r m1.
  change (2 ^ 22) with 4194304 in *. change (2 ^ 23) with 8388608 in *.
  change (2 ^ 24) with 16777216 in *.
  assert (Hcases : d = 1 \/ d = 2 \/ d = 3 \/ d = 4 \/ d = 5 \/ d = 6 \/ d = 7
                   \/ d = 8 \/ d = 9 \/ d = 10 \/ d = 11 \/ d = 12 \/ d = 13
                   \/ d = 14 \/ d = 15 \/ d = 16 \/ d = 17 \/ d = 18 \/ d = 19
                   \/ d = 20 \/ d = 21 \/ d = 22) by lia.
  clear Hd.
  apply roundf_of_int; [| lia |];
    repeat (destruct Hcases as [Hcases | Hcases]);
    destruct Hdq as [Hdq | Hdq]; destruct Ht as [Ht | Ht];
    destruct Hdp as [Hdp | Hdp]; destruct Hu as [Hu | Hu];
    subst d dq t dp u; lia.
Qed.

(** Between [2^22] and [8000000] the quotient lies in [[4, 8]], where
    consecutive [float]s are [2^-21] apart: the division is off by at most
    [2^-22], that is 0.2384... millionths, and the product, below [2^23],
    by at most 1/4 more. *)
Lemma quantize_fixpoint_23 s n :
  2 ^ 22 <= n < 8000000 ->
  F32.roundf (F32.mul (F32.div (F32.of_int s n) F32.million) F32.million)
  = F32.of_int s n.
Proof.
  intros Hn.
  assert (H23 : 2 ^ (23 - 1) <= n < 2 ^ 23)
    by (change (2 ^ (23 - 1)) with (2 ^ 22); change (2 ^ 23) with 8388608; lia).
  destruct (of_int_normal s n 23 H23 ltac:(lia)) as (m1 & Hof & Hm1).
  rewrite Hof at 1. clear Hof H23.
  change (2 ^ (24 - 23)) with 2 in Hm1.
  change (2 ^ 22) with 4194304 in *.
  assert (Hm1r : 2 ^ 23 <= Zpos m1 < 2 ^ 24).
  { change (2 ^ 23) with 8388608. change (2 ^ 24) with 16777216. lia. }
  destruct (div_million_spec s m1 (23 - 24) Hm1r ltac:(lia))
    as (my & ey & t & dq & -> & Hmy & -> & Hdq & Ht & Hdiv).
  destruct (mul_million_spec s my (23 - 24 - 20 + t) Hmy ltac:(lia))
    as (mp & ep & u & dp & -> & Hmp & -> & Hdp & Hu & Hmul).
  rewrite Hm1 in Hdiv. clear Hm1 Hm1r m1.
  change (2 ^ 23) with 8388608 in *.
  change (2 ^ 24) with 16777216 in *.
  apply roundf_of_int; [| lia |];
    destruct Hdq as [Hdq | Hdq]; destruct Ht as [Ht | Ht];
    destruct Hdp as [Hdp | Hdp]; destruct Hu as [Hu | Hu];
    subst dq t dp u; lia.
Qed.

(** From [8000000] on the quotient is 8 or more, where consecutive
    [float]s are [2^-20] apart, and the error bound no longer suffices:
    the eleven integers up to [8000010] still come back, [8000011] does
    not. *)
Lemma quantize_fixpoint_top s n :
  8000000 <= n < 8000011 ->
  F32.roundf (F32.mul (F32.div (F32.of_int s n) F32.million) F32.million)
  = F32.of_int s n.
Proof.
  intros Hn.
  assert (Hcases : n = 8000000 \/ n = 8000001 \/ n = 8000002 \/ n = 8000003
                   \/ n = 8000004 \/ n = 8000005 \/ n = 8000006 \/ n = 8000007
                   \/ n = 8000008 \/ n = 8000009 \/ n = 8000010) by lia.
  clear Hn.
  repeat (destruct Hcases as [Hcases | Hcases]); subst n; destruct s;
    vm_compute; reflexivity.
Qed.

Lemma quantize_fixpoint_below_8000011 s n :
  1 <= n < 8000011 ->
  F32.roundf (F32.mul (F32.div (F32.of_int s n) F32.million) F32.million)
  = F32.of_int s n.
Proof.
  intros Hn.
  destruct (Z.lt_ge_cases n (2 ^ 22)) as [Hlow | Hmid].
  - apply quantize_fixpoint. lia.
  - destruct (Z.lt_ge_cases n 8000000) as [H23 | Htop].
    + apply quantize_fixpoint_23. lia.
    + apply quantize_fixpoint_top. lia.
Qed.

Lemma nearest_away_nonneg m k : 0 <= F32.nearest_away m (Zneg k).
Proof.
  unfold F32.nearest_away.
  assert (0 < 2 ^ Zpos k) by (apply Z.pow_pos_nonneg; lia).
  assert (0 <= 2 ^ (Zpos k - 1)) by (apply Z.pow_nonneg; lia).
  apply Z.div_pos; lia.
Qed.

Lemma nearest_away_bounds m k :
  let n := F32.nearest_away m (Zneg k) in
  n * 2 ^ Zpos k <= Zpos m + 2 ^ (Zpos k - 1) < (n + 1) * 2 ^ Zpos k.
Proof.
  cbv zeta. unfold F32.nearest_away.
  assert (H : 0 < 2 ^ Zpos k) by (apply Z.pow_pos_nonneg; lia).
  pose proof (Z.div_mod (Zpos m + 2 ^ (Zpos k - 1)) (2 ^ Zpos k) ltac:(lia)).
  pose proof (Z.mod_pos_bound (Zpos m + 2 ^ (Zpos k - 1)) (2 ^ Zpos k) H).
  nia.
Qed.

Lemma quantize_of_zero s :
  F32.div (S754_zero s) F32.million = S754_zero s
  /\ F32.quantize (S754_zero s) = S754_zero s.
Proof. destruct s; split; reflexivity. Qed.

(** ** Quantization *)

(** C6 (as amended).  Quantizing a second time gives the identical value
    whenever the product [x * 1000000], as computed in [float], is zero,
    infinite or not a number, or rounds to an integer of magnitude below
    [8000011] (that is for [x] of magnitude below about 8.00001).  The
    bound cannot be raised: the product of the [float] [8388619 * 2^-20]
    rounds to [8000011], and quantizing that value a second time gives
    another value. *)
Theorem C6_quantize_idempotent_on_small_values :
  (forall x, Spec.small_scaled (F32.mul x F32.million) ->
     F32.quantize (F32.quantize x) = F32.quantize x)
  /\ (let x := Examples.x_8_0000105 in
      exists m e,
        F32.mul x F32.million = S754_finite false m e
        /\ e < 0 /\ F32.nearest_away m e = 8000011
        /\ F32.quantize (F32.quantize x) <> F32.quantize x).
Proof.
  split.
  - intros x. unfold F32.quantize at 2 3.
    destruct (F32.mul x F32.million) as [s | s | | s m e]; intros H.
    + cbn [F32.roundf]. rewrite (proj1 (quantize_of_zero s)).
      apply quantize_of_zero.
    + destruct s; reflexivity.
    + reflexivity.
    + destruct H as [He Hn]. destruct e as [| k | k]; try lia.
      pose proof (nearest_away_nonneg m k) as Hn0.
      cbn [F32.roundf].
      destruct (F32.nearest_away m (Z.neg k)) as [| n | n] eqn:En; try lia.
      * rewrite (proj1 (quantize_of_zero s)). apply quantize_of_zero.
      * unfold F32.quantize.
        now rewrite quantize_fixpoint_below_8000011 by lia.
  - cbv zeta. exists 16000021%positive, (-1).
    split; [vm_compute; reflexivity |]. split; [lia |].
    split; [vm_compute; reflexivity |].
    vm_compute. discriminate.
Qed.

Lemma C6_quantize_idempotent_witness :
  let x := F32.div (F32.of_Z 7654321) F32.million in
  F32.quantize (F32.quantize x) = F32.quantize x.
Proof.
  cbv zeta. apply (proj1 C6_quantize_idempotent_on_small_values).
  vm_compute. split; reflexivity.
Defined.

(** The claim as the specification states it, for every [float], fails:
    on the [float] nearest to 8.000011 every further quantization moves
    the value up by one unit in the last place. *)
Lemma C6_quantize_drifts_at_8_000011 :
  let x := Examples.x_8_000011 in
  F32.quantize x = S754_finite false 8388621 (-20)
  /\ F32.quantize (F32.quantize x) = S754_finite false 8388622 (-20)
  /\ F32.quantize (F32.quantize x) <> F32.quantize x.
Proof.
  cbv zeta. split; [reflexivity |]. split; [reflexivity |].
  vm_compute. discriminate.
Qed.

(** C5 (as amended).  For every measurement value [v] written by a
    quantizing variant, the value stored is [roundf(v * 1000000) / 1000000]
    computed in [float]: [v] rounded at the sixth decimal place, not to
    six significant digits.  When the product [v * 1000000], as computed in
    [float], is finite with a negative exponent (magnitude below [2^24]),
    the value stored is the [float] quotient by 1000000 of the integer [n]
    nearest to the product (halfway cases away from zero); [n] differs
    from the product by at most 1/2 and is itself a [float].  When the
    exponent is not negative the product is an integer already and is
    divided as it is.  No bound on the relative error follows: every [v]
    whose product is below 1/2 in magnitude is stored as zero. *)
Theorem C5_quantize_rounds_at_the_sixth_decimal v s m e :
  F32.mul v F32.million = S754_finite s m e ->
  (0 <= e ->
   F32.quantize v = F32.div (F32.mul v F32.million) F32.million)
  /\ (e < 0 ->
      let n := F32.nearest_away m e in
      0 <= n
      /\ 2 * Z.abs (n * 2 ^ (- e) - Zpos m) <= 2 ^ (- e)
      /\ F32.quantize v
         = F32.div (if n =? 0 then S754_zero s else F32.of_int s n)
             F32.million
      /\ (0 < n < 2 ^ 24 ->
          exists mi ei,
            F32.of_int s n = S754_finite s mi ei
            /\ ei <= 0 /\ Zpos mi = n * 2 ^ (- ei))
      /\ (2 * Zpos m < 2 ^ (- e) -> F32.quantize v = S754_zero s))
  /\ (forall path r timestep a b,
        V2b.Append (V2b.mkWriter (Some path) r) timestep a b
        = (Run.Ok (V2b.mkWriter (Some path) (Cxx.wrap32 (r + 1))),
           [Run.Write path
              (Run.Row [Run.I32 timestep; Run.I32 r;
                        Run.F32 (F32.quantize a); Run.F32 (F32.quantize b)])])).
Proof.
  intros Hp. split; [| split; [| reflexivity]].
  { intros He. unfold F32.quantize. rewrite Hp.
    now destruct e as [| k | k]; try lia. }
  intros He. destruct e as [| k | k]; try lia. cbv zeta.
  pose proof (nearest_away_nonneg m k) as Hn0.
  pose proof (nearest_away_bounds m k) as Hb. cbv zeta in Hb.
  pose proof (pow2_double (Zpos k) ltac:(lia)) as Hdouble.
  change (- Z.neg k) with (Zpos k).
  set (n := F32.nearest_away m (Z.neg k)) in *.
  assert (Hq : F32.quantize v
               = F32.div (if n =? 0 then S754_zero s else F32.of_int s n)
                   F32.million).
  { unfold F32.quantize. rewrite Hp. cbn [F32.roundf]. fold n.
    now destruct n. }
  split; [exact Hn0 |]. split; [lia |]. split; [exact Hq |]. split.
  - intros Hn.
    pose proof (Z.log2_spec n ltac:(lia)) as Hlog.
    pose proof (Z.log2_nonneg n) as Hlog0.
    assert (Hd : Z.succ (Z.log2 n) <= 24).
    { destruct (Z.le_gt_cases (Z.succ (Z.log2 n)) 24) as [| Hgt];
        [assumption |].
      assert (2 ^ 24 <= 2 ^ Z.log2 n) by (apply Z.pow_le_mono_r; lia). lia. }
    destruct (of_int_normal s n (Z.succ (Z.log2 n))) as (mi & Hmi & Hval).
    + now replace (Z.succ (Z.log2 n) - 1) with (Z.log2 n) by lia.
    + lia.
    + exists mi, (Z.succ (Z.log2 n) - 24).
      split; [exact Hmi |]. split; [lia |].
      rewrite Hval. do 2 f_equal. lia.
  - intros Hsmall. rewrite Hq.
    assert (Hzero : n = 0) by nia.
    rewrite Hzero. apply quantize_of_zero.
Qed.

Lemma C5_quantize_rounds_witness :
  F32.quantize Examples.x_1e_7 = S754_zero false.
Proof.
  refine (proj2 (proj2 (proj2 (proj2
            (proj1 (proj2
               (C5_quantize_rounds_at_the_sixth_decimal Examples.x_1e_7
                  false 13421773 (-27) eq_refl)) _)))) _).
  - lia.
  - vm_compute. reflexivity.
Defined.

(** The claim as the specification states it fails: the [float] nearest
    to 0.0000001 is stored as zero, a relative error of 1. *)
Lemma C5_relative_error_of_small_values :
  F32.quantize Examples.x_1e_7 = S754_zero false
  /\ ~ Spec.relative_error_within (5 # 10000000)
         (F32.quantize Examples.x_1e_7) Examples.x_1e_7.
Proof.
  split; [reflexivity |]. vm_compute. intros H. apply H. reflexivity.
Qed.

(* ===================================================================== *)
(** * Part IV.  Further properties of the programs                        *)
(* ===================================================================== *)

(** ** File names *)

Lemma substring_suffix p s :
  substring (String.length p) (String.length s) (p ++ s) = s.
Proof.
  induction p as [| c p IH]; simpl; [| exact IH].
  rewrite <- (append_empty_r s) at 2. apply substring_prefix.
Qed.

Lemma substring_all s : substring 0 (String.length s) s = s.
Proof. induction s as [| c s IH]; simpl; [reflexivity | now rewrite IH]. Qed.

Lemma substring_cut s : forall k,
  (k <= String.length s)%nat ->
  s = (substring 0 k s ++ substring k (String.length s - k) s)%string.
Proof.
  induction s as [| c s IH]; intros [| k] Hk; simpl in *.
  - reflexivity.
  - lia.
  - f_equal. symmetry. apply substring_all.
  - f_equal. apply IH. lia.
Qed.

(** X1.  [StringEndWith] holds exactly of the strings that end with the
    suffix. *)
Theorem X1_StringEndWith_iff_suffix str suffix :
  Cxx.StringEndWith str suffix = true
  <-> exists prefix, str = (prefix ++ suffix)%string.
Proof.
  unfold Cxx.StringEndWith. split.
  - destruct (Nat.ltb_spec (String.length str) (String.length suffix));
      [discriminate |].
    intros Heq. apply String.eqb_eq in Heq.
    set (m := String.length suffix) in *.
    exists (substring 0 (String.length str - m) str).
    rewrite <- Heq.
    pose proof (substring_cut str (String.length str - m) ltac:(lia)) as Hcut.
    replace (String.length str - (String.length str - m))%nat with m
      in Hcut by lia.
    exact Hcut.
  - intros [prefix ->]. rewrite length_append.
    destruct (Nat.ltb_spec (String.length prefix + String.length suffix)
                (String.length suffix)); [lia |].
    replace (String.length prefix + String.length suffix - String.length suffix)%nat
      with (String.length prefix) by lia.
    rewrite substring_suffix. apply String.eqb_refl.
Qed.
Lemma StringEndWith_append p s : Cxx.StringEndWith (p ++ s) s = true.
Proof.
  unfold Cxx.StringEndWith. rewrite length_append.
  destruct (Nat.ltb_spec (String.length p + String.length s) (String.length s));
    [lia |].
  replace (String.length p + String.length s - String.length s)%nat
    with (String.length p) by lia.
  rewrite substring_suffix. apply String.eqb_refl.
Qed.

Lemma substring_middle p s t :
  substring (String.length p) (String.length s) (p ++ s ++ t) = s.
Proof.
  induction p as [| c p IH]; simpl; [| exact IH]. apply substring_prefix.
Qed.

Lemma digit_of_digit d : 0 <= d <= 9 -> Cxx.digit_of (Names.digit d) = Some d.
Proof.
  intros H. unfold Cxx.digit_of, Names.digit.
  rewrite nat_ascii_embedding by lia.
  rewrite Z2Nat.id by lia.
  destruct (Z.leb_spec 48 (48 + d)); [| lia].
  destruct (Z.leb_spec (48 + d) 57); [| lia].
  cbn [andb]. f_equal. lia.
Qed.

Lemma isspace_digit d : 0 <= d <= 9 -> Cxx.isspace (Names.digit d) = false.
Proof.
  intros H. unfold Cxx.isspace, Names.digit.
  rewrite nat_ascii_embedding by lia.
  assert (Hd : d = 0 \/ d = 1 \/ d = 2 \/ d = 3 \/ d = 4 \/ d = 5 \/ d = 6
               \/ d = 7 \/ d = 8 \/ d = 9) by lia.
  repeat (destruct Hd as [-> | Hd]; [reflexivity |]). now subst d.
Qed.

Lemma digit_not_sign d :
  0 <= d <= 9 -> Names.digit d <> "-"%char /\ Names.digit d <> "+"%char.
Proof.
  intros H.
  assert (Hd : d = 0 \/ d = 1 \/ d = 2 \/ d = 3 \/ d = 4 \/ d = 5 \/ d = 6
               \/ d = 7 \/ d = 8 \/ d = 9) by lia.
  repeat (destruct Hd as [-> | Hd]; [split; discriminate |]).
  subst d. split; discriminate.
Qed.

Lemma atoi_digits_field ds : forall acc,
  Names.digits ds ->
  Cxx.atoi_digits (Names.field ds) acc
  = fold_left (fun acc d => 10 * acc + d) ds acc.
Proof.
  induction ds as [| d ds IH]; intros acc Hds; [reflexivity |].
  inversion Hds as [| ? ? Hd Hrest]; subst.
  unfold Names.field. cbn [map string_of_list_ascii Cxx.atoi_digits fold_left].
  rewrite (digit_of_digit d Hd). apply IH, Hrest.
Qed.

Lemma value_bound ds :
  Names.digits ds -> 0 <= Names.value ds < 10 ^ Z.of_nat (List.length ds).
Proof.
  unfold Names.value. intros Hds.
  assert (H : forall acc k, 0 <= acc < 10 ^ Z.of_nat k ->
            0 <= fold_left (fun acc d => 10 * acc + d) ds acc
              < 10 ^ Z.of_nat (k + List.length ds)).
  { induction Hds as [| d ds Hd Hrest IH]; intros acc k Hacc.
    - now rewrite Nat.add_0_r.
    - cbn [fold_left List.length].
      replace (k + S (List.length ds))%nat with (S k + List.length ds)%nat by lia.
      apply IH. rewrite Nat2Z.inj_succ, Z.pow_succ_r by lia. lia. }
  apply (H 0 0%nat). simpl. lia.
Qed.

(** [atoi] of a field of at most nine digits is the number the digits
    read as, leading zeros dropped. *)
Lemma atoi_field ds :
  Names.digits ds -> (List.length ds <= 9)%nat ->
  Cxx.atoi (Names.field ds) = Names.value ds.
Proof.
  intros Hds Hlen. pose proof (value_bound ds Hds) as Hv.
  assert (Hpow : 10 ^ Z.of_nat (List.length ds) <= 10 ^ 9)
    by (apply Z.pow_le_mono_r; lia).
  assert (Hwrap : Cxx.wrap32 (Cxx.atoi_digits (Names.field ds) 0) = Names.value ds).
  { rewrite atoi_digits_field by assumption. fold (Names.value ds).
    apply wrap32_small. unfold Cxx.INT_MAX. lia. }
  unfold Cxx.atoi. destruct ds as [| d ds]; [exact Hwrap |].
  inversion Hds as [| ? ? Hd Hrest]; subst.
  unfold Names.field in *. cbn [map string_of_list_ascii Cxx.skip_spaces] in *.
  rewrite (isspace_digit d Hd).
  destruct (digit_not_sign d Hd) as [Hm Hp].
  destruct (Names.digit d) as [[] [] [] [] [] [] [] []]; try exact Hwrap;
    congruence.
Qed.
Lemma length_field ds : String.length (Names.field ds) = List.length ds.
Proof.
  unfold Names.field. induction ds as [| d ds IH]; simpl;
    [reflexivity | now rewrite IH].
Qed.

Section NamedSnapshot.
Variables (stem : string) (sep : ascii) (fld : string).
Hypothesis five : String.length fld = 5%nat.
Hypothesis short : Cxx.size stem + 10 < 2 ^ 64.

Let f : string := (stem ++ String sep (fld ++ ".vti"))%string.

Lemma named_length : String.length f = (String.length stem + 10)%nat.
Proof.
  unfold f. rewrite length_append. cbn [String.length].
  rewrite length_append, five. simpl. lia.
Qed.

Lemma named_is_vti : Cxx.StringEndWith f ".vti" = true.
Proof.
  unfold f.
  change (String sep (fld ++ ".vti"))%string
    with ((String sep "") ++ (fld ++ ".vti"))%string.
  rewrite <- !append_assoc. apply StringEndWith_append.
Qed.

Lemma named_key :
  Sys.substr_or_throw f (Cxx.wrap_size (Cxx.size f - 4 - 5)) 5 = Run.ret fld.
Proof.
  unfold Cxx.wrap_size, Cxx.size in *. rewrite named_length.
  rewrite Z.mod_small by lia.
  rewrite substr_in_range by (unfold Cxx.size; rewrite named_length; lia).
  f_equal.
  replace (Z.to_nat (Z.of_nat (String.length stem + 10) - 4 - 5))
    with (String.length (stem ++ String sep "")) by (rewrite length_append; simpl; lia).
  replace (Z.to_nat 5) with (String.length fld) by (rewrite five; reflexivity).
  unfold f.
  change (String sep (fld ++ ".vti"))%string
    with ((String sep "") ++ (fld ++ ".vti"))%string.
  rewrite <- append_assoc. apply substring_middle.
Qed.

Lemma named_stem10 :
  Sys.substr_or_throw f 0 (Cxx.wrap_size (Cxx.size f - 4 - 5 - 1))
  = Run.ret stem.
Proof.
  unfold Cxx.wrap_size, Cxx.size in *. rewrite named_length.
  rewrite Z.mod_small by lia.
  rewrite substr_in_range by (unfold Cxx.size; lia).
  f_equal.
  replace (Z.to_nat (Z.of_nat (String.length stem + 10) - 4 - 5 - 1))
    with (String.length stem) by lia.
  apply substring_prefix.
Qed.

Lemma named_stem4 :
  Sys.substr_or_throw f 0 (Cxx.wrap_size (Cxx.size f - 4))
  = Run.ret (stem ++ String sep fld)%string.
Proof.
  unfold Cxx.wrap_size, Cxx.size in *. rewrite named_length.
  rewrite Z.mod_small by lia.
  rewrite substr_in_range by (unfold Cxx.size; lia).
  f_equal.
  replace (Z.to_nat (Z.of_nat (String.length stem + 10) - 4))
    with (String.length (stem ++ String sep fld))
    by (rewrite length_append; cbn [String.length]; rewrite five; lia).
  unfold f.
  change (String sep (fld ++ ".vti"))%string
    with ((String sep "") ++ (fld ++ ".vti"))%string.
  change (String sep fld)%string with ((String sep "") ++ fld)%string.
  rewrite <- !append_assoc. apply substring_prefix.
Qed.

Lemma V2a_scan_entry_named indir outdir m sfx tmp2 :
  V2a.scan_entry (String.length indir) (String.length outdir)
    (Sys.mkDirent Sys.DT_REG f) (m, (indir ++ sfx)%string, tmp2)
  = Run.ret (Cxx.map_assign (Cxx.atoi fld) (indir ++ "/" ++ f)%string m,
             (indir ++ "/" ++ f)%string,
             if Nat.eqb (String.length tmp2) (String.length outdir)
             then (tmp2 ++ "/" ++ stem ++ ".parquet")%string else tmp2).
Proof.
  unfold V2a.scan_entry. cbn [Sys.d_type Sys.d_name].
  rewrite named_is_vti, resize_prefix, named_key.
  destruct (Nat.eqb (String.length tmp2) (String.length outdir)).
  - rewrite named_stem10. now rewrite !bind_ret_l.
  - now rewrite !bind_ret_l.
Qed.

Lemma V2b_process_entry_named env ceiling indir outdir sfx1 sfx2 :
  V2b.process_entry env ceiling (String.length indir) (String.length outdir)
    (Sys.mkDirent Sys.DT_REG f)
    ((indir ++ sfx1)%string, (outdir ++ sfx2)%string)
  = Run.bind
      (V2b.Rewrite env ceiling (Cxx.atoi fld) (indir ++ "/" ++ f)%string
         (outdir ++ "/" ++ (stem ++ String sep fld) ++ ".parquet")%string)
      (fun _ =>
         Run.ret ((indir ++ "/" ++ f)%string,
                  (outdir ++ "/" ++ (stem ++ String sep fld)
                     ++ ".parquet")%string)).
Proof.
  unfold V2b.process_entry. cbn [Sys.d_type Sys.d_name].
  rewrite named_is_vti, !resize_prefix, named_stem4, bind_ret_l.
  now rewrite named_key, bind_ret_l.
Qed.

End NamedSnapshot.

(** X2.  A regular file named by a stem, one separating character, five
    decimal digits and [.vti] is taken as the snapshot of the timestep the
    digits read as, leading zeros dropped.  [vti2pqtv2a.cc] enters it into
    the work items under that key and, when the output name is not chosen
    yet, names the output by the stem; [vti2pqtv2b.cc] converts it at
    once, to an output named by the stem and the digits. *)
Theorem X2_snapshot_name_gives_timestep indir outdir stem sep ds :
  List.length ds = 5%nat -> Names.digits ds -> Cxx.size stem + 10 < 2 ^ 64 ->
  let f := (stem ++ String sep (Names.field ds ++ ".vti"))%string in
  let from := (indir ++ "/" ++ f)%string in
  (forall m sfx tmp2,
     V2a.scan_entry (String.length indir) (String.length outdir)
       (Sys.mkDirent Sys.DT_REG f) (m, (indir ++ sfx)%string, tmp2)
     = Run.ret (Cxx.map_assign (Names.value ds) from m, from,
                if Nat.eqb (String.length tmp2) (String.length outdir)
                then (tmp2 ++ "/" ++ stem ++ ".parquet")%string else tmp2))
  /\ (forall env ceiling sfx1 sfx2,
        let to := (outdir ++ "/" ++ (stem ++ String sep (Names.field ds))
                     ++ ".parquet")%string in
        V2b.process_entry env ceiling (String.length indir) (String.length outdir)
          (Sys.mkDirent Sys.DT_REG f)
          ((indir ++ sfx1)%string, (outdir ++ sfx2)%string)
        = Run.bind (V2b.Rewrite env ceiling (Names.value ds) from to)
            (fun _ => Run.ret (from, to))).
Proof.
  intros Hfive Hds Hshort. cbv zeta.
  assert (Hlen : String.length (Names.field ds) = 5%nat)
    by now rewrite length_field.
  rewrite <- (atoi_field ds Hds) by lia. split.
  - intros m sfx tmp2. now apply V2a_scan_entry_named.
  - intros env ceiling sfx1 sfx2. now apply V2b_process_entry_named.
Qed.

Lemma X2_snapshot_name_gives_timestep_witness :
  V2a.scan_entry 2 3 (Sys.mkDirent Sys.DT_REG "run_00007.vti")
    ([], "in"%string, "out"%string)
  = Run.ret ([(7, "in/run_00007.vti"%string)], "in/run_00007.vti"%string,
             "out/run.parquet"%string).
Proof.
  refine (proj1 (X2_snapshot_name_gives_timestep "in" "out" "run" "_"%char
                   [0; 0; 0; 0; 7] eq_refl _ _) [] ""%string "out"%string).
  - repeat constructor; lia.
  - vm_compute. reflexivity.
Defined.

Lemma atoi_no_number c s :
  Cxx.isspace c = false -> Cxx.digit_of c = None ->
  c <> "-"%char -> c <> "+"%char ->
  Cxx.atoi (String c s) = 0.
Proof.
  intros Hspace Hdigit Hminus Hplus. unfold Cxx.atoi.
  cbn [Cxx.skip_spaces]. rewrite Hspace.
  assert (H0 : Cxx.wrap32 (Cxx.atoi_digits (String c s) 0) = 0)
    by (cbn [Cxx.atoi_digits]; now rewrite Hdigit).
  destruct c as [[] [] [] [] [] [] [] []]; try exact H0; congruence.
Qed.

(** X3.  A snapshot whose name has no number where the timestep is expected
    (the first of the five characters is not a digit, a sign or white
    space) is given the timestep 0: in [vti2pqtv2a.cc] all such snapshots
    share the key 0 of the work items, so that the one enumerated last
    replaces the others. *)
Theorem X3_snapshot_name_without_number_gives_timestep_0
    indir outdir stem sep c rest :
  String.length rest = 4%nat -> Cxx.size stem + 10 < 2 ^ 64 ->
  Cxx.isspace c = false -> Cxx.digit_of c = None ->
  c <> "-"%char -> c <> "+"%char ->
  let f := (stem ++ String sep (String c rest ++ ".vti"))%string in
  let from := (indir ++ "/" ++ f)%string in
  (forall m sfx tmp2,
     exists tmp2',
       V2a.scan_entry (String.length indir) (String.length outdir)
         (Sys.mkDirent Sys.DT_REG f) (m, (indir ++ sfx)%string, tmp2)
       = Run.ret (Cxx.map_assign 0 from m, from, tmp2')
       /\ Cxx.map_find 0 (Cxx.map_assign 0 from m) = Some from)
  /\ (forall env ceiling sfx1 sfx2,
        exists to,
          V2b.process_entry env ceiling (String.length indir)
            (String.length outdir) (Sys.mkDirent Sys.DT_REG f)
            ((indir ++ sfx1)%string, (outdir ++ sfx2)%string)
          = Run.bind (V2b.Rewrite env ceiling 0 from to)
              (fun _ => Run.ret (from, to))).
Proof.
  intros Hfour Hshort Hspace Hdigit Hminus Hplus. cbv zeta.
  assert (Hlen : String.length (String c rest) = 5%nat)
    by (cbn [String.length]; now rewrite Hfour).
  rewrite <- (atoi_no_number c rest Hspace Hdigit Hminus Hplus). split.
  - intros m sfx tmp2. eexists. split.
    + now apply V2a_scan_entry_named.
    + rewrite map_assign_find. now rewrite Z.eqb_refl.
  - intros env ceiling sfx1 sfx2. eexists.
    now apply V2b_process_entry_named.
Qed.

Lemma X3_snapshot_name_without_number_witness :
  exists tmp2',
    V2a.scan_entry 2 3 (Sys.mkDirent Sys.DT_REG "run_final.vti")
      ([(0, "in/run_first.vti"%string)], "in"%string, "out"%string)
    = Run.ret ([(0, "in/run_final.vti"%string)], "in/run_final.vti"%string,
               tmp2')
    /\ Cxx.map_find 0 [(0, "in/run_final.vti"%string)]
       = Some "in/run_final.vti"%string.
Proof.
  refine (proj1 (X3_snapshot_name_without_number_gives_timestep_0 "in" "out"
                   "run" "_"%char "f"%char "inal" eq_refl _ eq_refl eq_refl _ _)
            [(0, "in/run_first.vti"%string)] ""%string "out"%string).
  - vm_compute. reflexivity.
  - discriminate.
  - discriminate.
Defined.

(** ** The range of the timesteps *)

Lemma digit_of_range c d : Cxx.digit_of c = Some d -> 0 <= d <= 9.
Proof.
  unfold Cxx.digit_of.
  destruct (Z.leb_spec 48 (Z.of_nat (nat_of_ascii c)));
    destruct (Z.leb_spec (Z.of_nat (nat_of_ascii c)) 57);
    cbn [andb]; intros [= <-]; lia.
Qed.

Lemma atoi_digits_bound s : forall acc,
  0 <= acc ->
  0 <= Cxx.atoi_digits s acc
    <= acc * 10 ^ Z.of_nat (String.length s) + 10 ^ Z.of_nat (String.length s) - 1.
Proof.
  induction s as [| c s IH]; intros acc Hacc.
  - simpl. lia.
  - cbn [Cxx.atoi_digits String.length].
    rewrite Nat2Z.inj_succ, Z.pow_succ_r by lia.
    assert (Hpow : 0 < 10 ^ Z.of_nat (String.length s))
      by (apply Z.pow_pos_nonneg; lia).
    destruct (Cxx.digit_of c) as [d |] eqn:Ed.
    + apply digit_of_range in Ed.
      specialize (IH (10 * acc + d) ltac:(lia)). nia.
    + nia.
Qed.

Lemma skip_spaces_length s :
  (String.length (Cxx.skip_spaces s) <= String.length s)%nat.
Proof.
  induction s as [| c s IH]; [reflexivity |].
  cbn [Cxx.skip_spaces]. destruct (Cxx.isspace c); cbn [String.length]; lia.
Qed.

Lemma length_substring s : forall n m,
  (String.length (substring n m s) <= m)%nat.
Proof.
  induction s as [| c s IH]; intros [| n] [| m]; cbn [substring String.length];
    try lia.
  - specialize (IH 0%nat m). lia.
  - apply IH.
  - apply IH.
Qed.

Lemma atoi_range s :
  (String.length s <= 5)%nat -> -9999 <= Cxx.atoi s <= 99999.
Proof.
  intros Hlen. pose proof (skip_spaces_length s) as Hskip.
  assert (Hbound : forall t k, (String.length t <= k)%nat -> (k <= 5)%nat ->
            0 <= Cxx.atoi_digits t 0 <= 10 ^ Z.of_nat k - 1).
  { intros t k Ht Hk. pose proof (atoi_digits_bound t 0 ltac:(lia)) as H.
    assert (10 ^ Z.of_nat (String.length t) <= 10 ^ Z.of_nat k)
      by (apply Z.pow_le_mono_r; lia).
    lia. }
  assert (Hwrap : forall z, -99999 <= z <= 99999 -> Cxx.wrap32 z = z)
    by (intros z Hz; apply wrap32_small; unfold Cxx.INT_MAX; lia).
  unfold Cxx.atoi. destruct (Cxx.skip_spaces s) as [| c t] eqn:E.
  - rewrite Hwrap; simpl; lia.
  - cbn [String.length] in Hskip.
    pose proof (Hbound t 4%nat ltac:(lia) ltac:(lia)) as H4.
    pose proof (Hbound (String c t) 5%nat ltac:(cbn [String.length]; lia)
                  ltac:(lia)) as H5.
    change (10 ^ Z.of_nat 4 - 1) with 9999 in H4.
    change (10 ^ Z.of_nat 5 - 1) with 99999 in H5.
    destruct c as [[] [] [] [] [] [] [] []];
      rewrite Hwrap; lia.
Qed.

(** X4.  The timestep read from a file name lies between -9999 and 99999,
    whatever the name: at most five characters are read, a sign
    included.  Both bounds are reached. *)
Theorem X4_timestep_of_a_name_is_in_range :
  (forall f, -9999 <= Spec.key_of f <= 99999)
  /\ Spec.key_of "-9999.vti" = -9999
  /\ Spec.key_of "99999.vti" = 99999.
Proof.
  split; [| split; reflexivity].
  intros f. apply atoi_range, length_substring.
Qed.
(** ** Names too short for a timestep *)

Lemma is_vti_size e : Spec.is_vti e = true -> 4 <= Cxx.size (Sys.d_name e).
Proof.
  unfold Spec.is_vti, Cxx.StringEndWith, Cxx.size.
  destruct (Sys.d_type e); try discriminate.
  destruct (Nat.ltb_spec (String.length (Sys.d_name e)) (String.length ".vti"));
    [discriminate |].
  simpl in *. lia.
Qed.

Lemma short_key f :
  4 <= Cxx.size f < 9 ->
  Sys.substr_or_throw f (Cxx.wrap_size (Cxx.size f - 4 - 5)) 5
  = Run.stop (Run.Terminated "std::out_of_range").
Proof.
  intros H. unfold Sys.substr_or_throw, Cxx.substr, Cxx.wrap_size.
  replace ((Cxx.size f - 4 - 5) mod 2 ^ 64) with (Cxx.size f - 9 + 2 ^ 64).
  - destruct (Z.ltb_spec (Cxx.size f) (Cxx.size f - 9 + 2 ^ 64));
      [reflexivity | lia].
  - apply Z.mod_unique with (q := -1); lia.
Qed.

Lemma substr_from_0 f count :
  0 <= count ->
  exists stem, Sys.substr_or_throw f 0 count = Run.ret stem.
Proof.
  intros _. unfold Sys.substr_or_throw, Cxx.substr, Cxx.size.
  destruct (Z.ltb_spec (Z.of_nat (String.length f)) 0); [lia |].
  eexists. reflexivity.
Qed.

Lemma V2a_scan_entry_cases b1 b2 e s :
  (exists s', V2a.scan_entry b1 b2 e s = Run.ret s')
  \/ V2a.scan_entry b1 b2 e s = Run.stop (Run.Terminated "std::out_of_range").
Proof.
  destruct s as [[m tmp1] tmp2]. unfold V2a.scan_entry.
  destruct (Sys.d_type e); try (left; eexists; reflexivity).
  destruct (Cxx.StringEndWith (Sys.d_name e) ".vti");
    [| left; eexists; reflexivity].
  assert (Htmp2 : exists tmp2',
    (if Nat.eqb (String.length tmp2) b2
     then Run.bind (Sys.substr_or_throw (Sys.d_name e) 0
                      (Cxx.wrap_size (Cxx.size (Sys.d_name e) - 4 - 5 - 1)))
            (fun stem => Run.ret (tmp2 ++ "/" ++ stem ++ ".parquet")%string)
     else Run.ret tmp2) = Run.ret tmp2').
  { destruct (Nat.eqb (String.length tmp2) b2); [| eexists; reflexivity].
    destruct (substr_from_0 (Sys.d_name e)
                (Cxx.wrap_size (Cxx.size (Sys.d_name e) - 4 - 5 - 1)))
      as [stem ->].
    - unfold Cxx.wrap_size. apply Z.mod_pos_bound. lia.
    - rewrite bind_ret_l. eexists. reflexivity. }
  destruct Htmp2 as [tmp2' ->]. rewrite bind_ret_l.
  unfold Sys.substr_or_throw.
  destruct (Cxx.substr _ _ _); [left; eexists; reflexivity | right; reflexivity].
Qed.

Lemma V2a_scan_entry_short b1 b2 e s :
  Spec.is_vti e = true -> Cxx.size (Sys.d_name e) < 9 ->
  V2a.scan_entry b1 b2 e s = Run.stop (Run.Terminated "std::out_of_range").
Proof.
  intros Hvti Hshort. pose proof (is_vti_size e Hvti) as H4.
  destruct (V2a_scan_entry_cases b1 b2 e s) as [[s' Hs'] | H]; [| exact H].
  exfalso. revert Hs'. destruct s as [[m tmp1] tmp2].
  unfold V2a.scan_entry, Spec.is_vti in *.
  destruct (Sys.d_type e); try discriminate Hvti. rewrite Hvti.
  rewrite short_key by lia.
  destruct (Nat.eqb (String.length tmp2) b2).
  - destruct (substr_from_0 (Sys.d_name e)
                (Cxx.wrap_size (Cxx.size (Sys.d_name e) - 4 - 5 - 1)))
      as [stem ->]; [unfold Cxx.wrap_size; apply Z.mod_pos_bound; lia |].
    rewrite !bind_ret_l. discriminate.
  - rewrite !bind_ret_l. discriminate.
Qed.

Lemma V2a_scan_short b1 b2 e : forall entries s,
  In e entries ->
  Spec.is_vti e = true -> Cxx.size (Sys.d_name e) < 9 ->
  Run.for_each entries (V2a.scan_entry b1 b2) s
  = Run.stop (Run.Terminated "std::out_of_range").
Proof.
  induction entries as [| e0 entries IH]; intros s Hin Hvti Hshort;
    [contradiction |].
  cbn [Run.for_each].
  destruct (V2a_scan_entry_cases b1 b2 e0 s) as [[s' Hs'] | H].
  - rewrite Hs', bind_ret_l. destruct Hin as [-> | Hin].
    + rewrite V2a_scan_entry_short in Hs' by assumption. discriminate.
    + now apply IH.
  - now rewrite H.
Qed.

(** X5.  A regular file whose name ends with [.vti] and has fewer than nine
    characters stops [vti2pqtv2a.cc] and [vti2pqtv2b.cc] with the
    exception [std::out_of_range] of [substr]: the first while the
    directory is enumerated, before anything is printed or created, the
    second when the file is reached, before it is converted. *)
Theorem X5_short_snapshot_name_is_fatal env indir outdir entries e :
  Sys.opendir env indir = inr entries ->
  In e entries -> Spec.is_vti e = true -> Cxx.size (Sys.d_name e) < 9 ->
  V2a.ProcessDir env indir outdir
  = (Run.Stop (Run.Terminated "std::out_of_range"), [])
  /\ (forall ceiling b1 b2 s,
        V2b.process_entry env ceiling b1 b2 e s
        = (Run.Stop (Run.Terminated "std::out_of_range"), [])).
Proof.
  intros Hdir Hin Hvti Hshort. split.
  - unfold V2a.ProcessDir, V2a.scan. rewrite Hdir.
    now rewrite (V2a_scan_short _ _ e entries _ Hin Hvti Hshort).
  - intros ceiling b1 b2 [tmp1 tmp2]. pose proof (is_vti_size e Hvti) as H4.
    unfold V2b.process_entry, Spec.is_vti in *.
    destruct (Sys.d_type e); try discriminate Hvti. rewrite Hvti.
    destruct (substr_from_0 (Sys.d_name e)
                (Cxx.wrap_size (Cxx.size (Sys.d_name e) - 4)))
      as [stem ->]; [unfold Cxx.wrap_size; apply Z.mod_pos_bound; lia |].
    rewrite bind_ret_l, short_key by lia. reflexivity.
Qed.

Lemma X5_short_snapshot_name_witness :
  V2a.ProcessDir (Cases.env_with Cases.short_listing) "in" "out"
  = (Run.Stop (Run.Terminated "std::out_of_range"), []).
Proof.
  refine (proj1 (X5_short_snapshot_name_is_fatal
                   (Cases.env_with Cases.short_listing) "in" "out"
                   Cases.short_listing (Sys.mkDirent Sys.DT_REG "a.vti")
                   eq_refl _ eq_refl _)).
  - right. left. reflexivity.
  - vm_compute. reflexivity.
Defined.

(** ** The output of [vti2pqtv2a.cc] *)

Lemma substring_beyond s : forall n,
  (String.length s <= n)%nat -> substring 0 n s = s.
Proof.
  induction s as [| c s IH]; intros [| n] H; cbn [String.length] in H;
    cbn [substring]; try reflexivity; try lia.
  f_equal. apply IH. lia.
Qed.

Lemma V2a_output_stem f :
  Cxx.size f < 2 ^ 64 ->
  Sys.substr_or_throw f 0 (Cxx.wrap_size (Cxx.size f - 4 - 5 - 1))
  = Run.ret (Plan.output_stem f).
Proof.
  intros Hsize. rewrite substr_in_range by (unfold Cxx.size; lia).
  change (Z.to_nat 0) with 0%nat. f_equal.
  unfold Plan.output_stem, Cxx.wrap_size, Cxx.size in *.
  change (2 ^ 64) with 18446744073709551616 in *.
  destruct (Nat.ltb_spec (String.length f) 10) as [Hshort | Hlong].
  - apply substring_beyond.
    rewrite <- (Z.mod_unique (Z.of_nat (String.length f) - 4 - 5 - 1)
                  18446744073709551616 (-1)
                  (Z.of_nat (String.length f) - 10 + 18446744073709551616))
      by lia.
    lia.
  - rewrite Z.mod_small by lia. f_equal. lia.
Qed.

Lemma V2a_scan_entry_exact indir outdir e m sfx tmp2 :
  Spec.name_ok e -> Spec.is_vti e = true ->
  V2a.scan_entry (String.length indir) (String.length outdir) e
    (m, (indir ++ sfx)%string, tmp2)
  = Run.ret
      (Cxx.map_assign (Spec.key_of (Sys.d_name e))
         (indir ++ "/" ++ Sys.d_name e)%string m,
       (indir ++ "/" ++ Sys.d_name e)%string,
       if Nat.eqb (String.length tmp2) (String.length outdir)
       then (tmp2 ++ "/" ++ Plan.output_stem (Sys.d_name e) ++ ".parquet")%string
       else tmp2).
Proof.
  intros Hok Hvti. specialize (Hok Hvti).
  unfold V2a.scan_entry, Spec.is_vti in *.
  destruct (Sys.d_type e); try discriminate Hvti. rewrite Hvti, resize_prefix.
  assert (Hkey : Sys.substr_or_throw (Sys.d_name e)
                   (Cxx.wrap_size (Cxx.size (Sys.d_name e) - 4 - 5)) 5
                 = Run.ret (substring (String.length (Sys.d_name e) - 9) 5
                              (Sys.d_name e))).
  { unfold Cxx.wrap_size. rewrite Z.mod_small by lia.
    rewrite substr_in_range by lia. do 2 f_equal.
    unfold Cxx.size. lia. }
  rewrite Hkey, V2a_output_stem by lia.
  destruct (Nat.eqb_spec (String.length tmp2) (String.length outdir)) as [E |];
    now rewrite !bind_ret_l.
Qed.

Lemma V2a_scan_exact indir outdir : forall entries m sfx tmp2,
  Forall Spec.name_ok entries ->
  exists tmp1,
    Run.for_each entries
      (V2a.scan_entry (String.length indir) (String.length outdir))
      (m, (indir ++ sfx)%string, tmp2)
    = Run.ret
        (fold_left
           (fun m e =>
              if Spec.is_vti e
              then Cxx.map_assign (Spec.key_of (Sys.d_name e))
                     (indir ++ "/" ++ Sys.d_name e)%string m
              else m) entries m,
         tmp1,
         if Nat.eqb (String.length tmp2) (String.length outdir)
         then match find Spec.is_vti entries with
              | Some e =>
                  (tmp2 ++ "/" ++ Plan.output_stem (Sys.d_name e)
                     ++ ".parquet")%string
              | None => tmp2
              end
         else tmp2).
Proof.
  induction entries as [| e entries IH]; intros m sfx tmp2 Hok.
  - exists (indir ++ sfx)%string. cbn [Run.for_each fold_left find].
    now destruct (Nat.eqb _ _).
  - inversion Hok as [| ? ? He Hrest]; subst.
    cbn [Run.for_each fold_left find].
    destruct (Spec.is_vti e) eqn:Evti.
    + rewrite (V2a_scan_entry_exact indir outdir e m sfx tmp2 He Evti).
      rewrite bind_ret_l.
      destruct (Nat.eqb_spec (String.length tmp2) (String.length outdir))
        as [E | E].
      * destruct (IH (Cxx.map_assign (Spec.key_of (Sys.d_name e))
                        (indir ++ "/" ++ Sys.d_name e)%string m)
                    ("/" ++ Sys.d_name e)%string
                    (tmp2 ++ "/" ++ Plan.output_stem (Sys.d_name e)
                       ++ ".parquet")%string Hrest) as [tmp1 H].
        exists tmp1. rewrite H.
        destruct (Nat.eqb_spec
                    (String.length
                       (tmp2 ++ "/" ++ Plan.output_stem (Sys.d_name e)
                          ++ ".parquet"))
                    (String.length outdir)) as [E' |]; [| reflexivity].
        rewrite length_append in E'. simpl in E'. lia.
      * destruct (IH (Cxx.map_assign (Spec.key_of (Sys.d_name e))
                        (indir ++ "/" ++ Sys.d_name e)%string m)
                    ("/" ++ Sys.d_name e)%string tmp2 Hrest) as [tmp1 H].
        exists tmp1. rewrite H.
        destruct (Nat.eqb_spec (String.length tmp2) (String.length outdir));
          [congruence | reflexivity].
    + assert (Hskip : V2a.scan_entry (String.length indir) (String.length outdir)
                        e (m, (indir ++ sfx)%string, tmp2)
                      = Run.ret (m, (indir ++ sfx)%string, tmp2)).
      { unfold V2a.scan_entry, Spec.is_vti in *.
        destruct (Sys.d_type e); try reflexivity. now rewrite Evti. }
      rewrite Hskip, bind_ret_l. apply IH; assumption.
Qed.

(** X6.  [ProcessDir] of [vti2pqtv2a.cc] writes one file.  It is named after
    the first snapshot the directory enumerates, whatever its timestep:
    the name without its last ten characters, or the whole name when it
    has nine characters only, with [.parquet] added; it is the path of the
    output directory itself when the directory holds no snapshot.  The
    file is created after the directory is enumerated and before any
    snapshot is read: then the snapshots are rewritten in the order of
    their timesteps into the one writer, the writer is finished and
    [Done!] is printed. *)
Theorem X6_V2a_ProcessDir_writes_one_file env indir outdir entries :
  Sys.opendir env indir = inr entries ->
  Forall Spec.name_ok entries ->
  let out := Plan.first_output outdir entries in
  V2a.ProcessDir env indir outdir
  = Run.bind (Sys.FileOutputStream_Open env out) (fun file =>
    Run.bind (V2a.ParquetWriter_new file) (fun writer =>
    Run.bind (Run.for_each (Spec.work_items indir entries)
                (fun kv writer => V2a.Rewrite env (snd kv) (fst kv) writer)
                writer) (fun writer =>
    Run.bind (V2a.Finish writer) (fun _ =>
    Run.act (Run.Stdout ("Done!" ++ Sys.nl))))))
  /\ (Sys.can_create env out = false ->
      V2a.ProcessDir env indir outdir
      = (Run.Stop (Run.Terminated "parquet::ParquetStatusException"), []))
  /\ (filter Spec.is_vti entries = [] -> Sys.can_create env outdir = true ->
      V2a.ProcessDir env indir outdir
      = (Run.Ok tt,
         [Run.Create outdir;
          Run.OpenWriter outdir Vti.GetSchema
            (Vti.properties Sys.arrow_defaults) [];
          Run.Close outdir; Run.Stdout ("Done!" ++ Sys.nl)])).
Proof.
  intros Hdir Hok. cbv zeta.
  destruct (V2a_scan_exact indir outdir entries [] "" outdir Hok)
    as [tmp1 Hscan].
  rewrite Nat.eqb_refl, append_empty_r in Hscan.
  assert (Hscan' : V2a.scan indir outdir entries
                   = Run.ret (Spec.work_items indir entries, tmp1,
                              Plan.first_output outdir entries))
    by exact Hscan.
  assert (E : V2a.ProcessDir env indir outdir
              = Run.bind (Sys.FileOutputStream_Open env
                            (Plan.first_output outdir entries)) (fun file =>
                Run.bind (V2a.ParquetWriter_new file) (fun writer =>
                Run.bind (Run.for_each (Spec.work_items indir entries)
                            (fun kv writer =>
                               V2a.Rewrite env (snd kv) (fst kv) writer)
                            writer) (fun writer =>
                Run.bind (V2a.Finish writer) (fun _ =>
                Run.act (Run.Stdout ("Done!" ++ Sys.nl))))))).
  { unfold V2a.ProcessDir. rewrite Hdir, Hscan', bind_ret_l.
    reflexivity. }
  split; [exact E |]. split.
  - intros Hno. rewrite E. unfold Sys.FileOutputStream_Open. now rewrite Hno.
  - intros Hnone Hcreate. rewrite E.
    assert (Hfind : find Spec.is_vti entries = None).
    { clear -Hnone. induction entries as [| e l IH]; [reflexivity |].
      simpl in *. destruct (Spec.is_vti e); [discriminate | auto]. }
    assert (Hwork : forall m,
              fold_left
                (fun m e =>
                   if Spec.is_vti e
                   then Cxx.map_assign (Spec.key_of (Sys.d_name e))
                          (indir ++ "/" ++ Sys.d_name e)%string m
                   else m) entries m = m).
    { clear -Hnone. induction entries as [| e l IH]; intros m0; [reflexivity |].
      simpl in *. destruct (Spec.is_vti e); [discriminate | auto]. }
    unfold Plan.first_output, Spec.work_items. rewrite Hfind, Hwork.
    unfold Sys.FileOutputStream_Open. rewrite Hcreate. reflexivity.
Qed.

Lemma X6_V2a_ProcessDir_writes_one_file_witness :
  V2a.ProcessDir Examples.env "in" "out"
  = Run.bind (Sys.FileOutputStream_Open Examples.env "out/run.parquet")
      (fun file =>
       Run.bind (V2a.ParquetWriter_new file) (fun writer =>
       Run.bind (Run.for_each
                   [(2, "in/new_00002.vti"%string);
                    (7, "in/run_00007.vti"%string);
                    (15, "in/run_00015.vti"%string)]
                   (fun kv writer =>
                      V2a.Rewrite Examples.env (snd kv) (fst kv) writer)
                   writer) (fun writer =>
       Run.bind (V2a.Finish writer) (fun _ =>
       Run.act (Run.Stdout ("Done!" ++ Sys.nl))))))
  /\ V2a.ProcessDir (Cases.env_with Cases.nine_listing) "in" "out"
     = Run.bind (Sys.FileOutputStream_Open (Cases.env_with Cases.nine_listing)
                   "out/12345.vti.parquet")
         (fun file =>
          Run.bind (V2a.ParquetWriter_new file) (fun writer =>
          Run.bind (Run.for_each
                      [(12345, "in/12345.vti"%string)]
                      (fun kv writer =>
                         V2a.Rewrite (Cases.env_with Cases.nine_listing)
                           (snd kv) (fst kv) writer)
                      writer) (fun writer =>
          Run.bind (V2a.Finish writer) (fun _ =>
          Run.act (Run.Stdout ("Done!" ++ Sys.nl)))))).
Proof.
  split.
  - refine (proj1 (X6_V2a_ProcessDir_writes_one_file Examples.env "in" "out"
                     Examples.listing eq_refl _)).
    unfold Examples.listing.
    repeat (apply Forall_cons;
            [intros H; vm_compute in H;
             first [discriminate H
                   | vm_compute; split; [discriminate | reflexivity]] |]).
    apply Forall_nil.
  - refine (proj1 (X6_V2a_ProcessDir_writes_one_file
                     (Cases.env_with Cases.nine_listing) "in" "out"
                     Cases.nine_listing eq_refl _)).
    apply Forall_cons; [| apply Forall_nil].
    intros _. vm_compute. split; [discriminate | reflexivity].
Defined.

(** ** [Rewrite] of [vti2pqtv2a.cc] *)

Section V2aRewrite.
Import Run.
Variable env : Sys.Env.
Variable timestep : Z.
Variables v02 v03 : list F32.float.
Variables from path : string.

Hypothesis same_length : List.length v03 = List.length v02.
Hypothesis fits_int : Z.of_nat (List.length v02) <= Cxx.INT_MAX.
Hypothesis has_v02 :
  Sys.GetAbstractArray (Sys.PointData (Sys.read_vti env from)) "v02"
  = Some (Sys.vtkFloatArray v02).
Hypothesis has_v03 :
  Sys.GetAbstractArray (Sys.PointData (Sys.read_vti env from)) "v03"
  = Some (Sys.vtkFloatArray v03).
Hypothesis points :
  Sys.NumberOfPoints (Sys.read_vti env from) = Z.of_nat (List.length v02).

Let N : Z := Z.of_nat (List.length v02).
Let it (i : nat) : Vti.Iterator := Vti.mkIterator N v02 v03 (Z.of_nat i).
Let writer (r : Z) (p : bool) : V2a.ParquetWriter :=
  V2a.mkWriter (Some path) r p.

Let cond (s : Vti.Iterator * V2a.ParquetWriter) : bool := Vti.Valid (fst s).

Let body (s : Vti.Iterator * V2a.ParquetWriter)
    : M (Vti.Iterator * V2a.ParquetWriter) :=
  let '(it, writer) := s in
  bind (Vti.v02 it) (fun a =>
  bind (Vti.v03 it) (fun b =>
  bind (V2a.Append writer timestep a b) (fun writer =>
  ret (Vti.Next it, writer)))).

Lemma V2a_body i r p a b :
  nth_error v02 i = Some a -> nth_error v03 i = Some b ->
  0 <= r < Cxx.INT_MAX ->
  body (it i, writer r p)
  = (Ok (it (S i), writer (r + 1) false),
     (if p then [Write path EndRowGroup] else [])
       ++ [Write path (Row (Spec.row4 timestep r (a, b)))]).
Proof.
  intros Ha Hb Hr.
  assert (Hi : (i < List.length v02)%nat)
    by (apply nth_error_Some; congruence).
  assert (Hw : Cxx.wrap32 (Z.of_nat i + 1) = Z.of_nat (S i))
    by (rewrite wrap32_succ; unfold Cxx.INT_MAX in *; lia).
  unfold body, Vti.v02, Vti.v03, Vti.Next, it.
  cbn [Vti.n_ Vti.v02_ Vti.v03_ Vti.i_].
  rewrite (index_nth _ _ _ Ha), bind_ret_l.
  rewrite (index_nth _ _ _ Hb), bind_ret_l.
  unfold writer. rewrite V2a_Append_run, Hw, wrap32_succ by assumption.
  cbn [bind ret]. now rewrite app_nil_r.
Qed.

Lemma V2a_loop : forall k fuel i r p,
  (i + k = List.length v02)%nat -> (k <= fuel)%nat ->
  0 <= r -> r + Z.of_nat k <= Cxx.INT_MAX ->
  while fuel cond body (it i, writer r p)
  = (Ok (it (i + k), writer (r + Z.of_nat k) (p && Nat.eqb k 0)),
     Plan.group_trace path p (Spec.rows_from timestep r (skipn i (combine v02 v03)))).
Proof.
  induction k as [| k IH]; intros fuel i r p Hi Hfuel Hr Hmax.
  - rewrite while_false.
    + rewrite Nat.add_0_r, Z.add_0_r, andb_true_r.
      rewrite skipn_all2 by (rewrite length_combine; lia). reflexivity.
    + unfold cond, Vti.Valid, it. cbn [fst Vti.i_ Vti.n_].
      destruct (Z.ltb_spec (Z.of_nat i) N); [unfold N in *; lia |].
      apply andb_false_r.
  - destruct fuel as [| fuel]; [lia |].
    destruct (nth_error_in_range v02 i ltac:(lia)) as [a Ha].
    destruct (nth_error_in_range v03 i ltac:(lia)) as [b Hb].
    rewrite while_true.
    + rewrite (bind_ok _ _ _ _ _ _
                 (V2a_body i r p a b Ha Hb ltac:(lia))
                 (IH fuel (S i) (r + 1) false ltac:(lia) ltac:(lia)
                    ltac:(lia) ltac:(lia))).
      rewrite (skipn_nth_error _ _ _ (nth_error_combine _ _ _ _ _ Ha Hb)).
      cbn [Spec.rows_from Plan.group_trace andb Nat.eqb].
      rewrite andb_false_r.
      replace (S i + k)%nat with (i + S k)%nat by lia.
      replace (r + 1 + Z.of_nat k) with (r + Z.of_nat (S k)) by lia.
      f_equal. rewrite <- app_assoc. f_equal.
      destruct (Spec.rows_from timestep (r + 1) (skipn (S i) (combine v02 v03)));
        reflexivity.
    + unfold cond, Vti.Valid, it. cbn [fst Vti.i_ Vti.n_].
      destruct (Z.leb_spec 0 (Z.of_nat i)); [| lia].
      destruct (Z.ltb_spec (Z.of_nat i) N); [reflexivity | unfold N in *; lia].
Qed.

Lemma V2a_Iterator_new :
  Vti.Iterator_new (Sys.enable_arrays ["v02"; "v03"]%string (Sys.read_vti env from))
  = ret (it 0).
Proof.
  unfold Vti.Iterator_new, Vti.GET_POINTER, Sys.enable_arrays.
  cbn [Sys.PointData Sys.NumberOfPoints].
  rewrite !GetAbstractArray_enabled by reflexivity.
  rewrite has_v02, has_v03, points.
  rewrite wrap32_small by (unfold Cxx.INT_MAX in *; lia).
  reflexivity.
Qed.

Lemma V2a_Rewrite_run r p :
  0 <= r -> r + Z.of_nat (List.length v02) <= Cxx.INT_MAX ->
  V2a.Rewrite env from timestep (writer r p)
  = (Ok (writer 0 true),
     Stdout (Spec.processing from)
       :: Plan.group_trace path p (Spec.rows_from timestep r (combine v02 v03))).
Proof.
  intros Hr Hmax.
  pose proof (V2a_loop (List.length v02) (List.length v02) 0 r p
                ltac:(lia) ltac:(lia) Hr Hmax) as Hloop.
  assert (E : V2a.Rewrite env from timestep (writer r p)
              = bind (act (Stdout ("Processing " ++ from ++ "... " ++ Sys.nl)))
                  (fun _ =>
                   bind (Vti.Iterator_new
                           (Sys.enable_arrays ["v02"; "v03"]%string
                              (Sys.read_vti env from)))
                     (fun it0 =>
                      bind (while (Vti.remaining (Vti.SeekToFirst it0))
                              cond body (Vti.SeekToFirst it0, writer r p))
                        (fun s => ret (V2a.FlushRowGroup (snd s))))))
    by reflexivity.
  rewrite E.
  rewrite V2a_Iterator_new, bind_act, bind_ret_l.
  change (Vti.SeekToFirst (it 0)) with (it 0).
  replace (Vti.remaining (it 0)) with (List.length v02)
    by (unfold Vti.remaining, it, N; cbn [Vti.n_ Vti.i_]; lia).
  cbn [skipn] in Hloop. rewrite Hloop.
  cbn [bind ret fst snd]. now rewrite app_nil_r.
Qed.

End V2aRewrite.

(** X7.  [Rewrite] of [vti2pqtv2a.cc] on a snapshot that has the fields
    [v02] and [v03]: it prints the progress line, streams one row per
    point, in the order of the points, with the timestep given and row
    ids counting up from the writer's, the end of the row group before
    the first row when a flush is pending, and leaves the writer with
    row id 0 and a flush pending. *)
Theorem X7_V2a_Rewrite_streams_a_row_group env from timestep path r p v02 v03 :
  Spec.snapshot (Sys.read_vti env from) v02 v03 ->
  0 <= r -> r + Z.of_nat (List.length v02) <= Cxx.INT_MAX ->
  V2a.Rewrite env from timestep (V2a.mkWriter (Some path) r p)
  = (Run.Ok (V2a.mkWriter (Some path) 0 true),
     Run.Stdout (Spec.processing from)
       :: Plan.group_trace path p
            (Spec.rows_from timestep r (combine v02 v03))).
Proof.
  intros (H02 & H03 & Hn & Hlen & Hfit) Hr Hmax.
  now apply V2a_Rewrite_run.
Qed.

Lemma X7_V2a_Rewrite_streams_witness :
  V2a.Rewrite Examples.env "in/seven.vti" 5
    (V2a.mkWriter (Some "out/run.parquet"%string) 0 true)
  = (Run.Ok (V2a.mkWriter (Some "out/run.parquet"%string) 0 true),
     Run.Stdout (Spec.processing "in/seven.vti")
       :: Plan.group_trace "out/run.parquet" true
            (Spec.rows_from 5 0
               (combine (map F32.of_Z (Spec.iota 1 7))
                  (map F32.of_Z (Spec.iota 11 7))))).
Proof.
  apply X7_V2a_Rewrite_streams_a_row_group.
  - unfold Spec.snapshot. repeat split; vm_compute; congruence.
  - lia.
  - vm_compute. congruence.
Defined.

(** ** A whole run of [vti2pqtv2a.cc] *)

Section V2aRun.
Import Run.
Variable env : Sys.Env.
Variable out : string.
Variables v02 v03 : string -> list F32.float.

Let rows (kv : Z * string) : list (list Cell) :=
  Spec.rows_from (fst kv) 0 (combine (v02 (snd kv)) (v03 (snd kv))).

Lemma V2a_rewrite_all : forall work p,
  (forall kv, In kv work ->
     Spec.snapshot (Sys.read_vti env (snd kv)) (v02 (snd kv)) (v03 (snd kv))) ->
  for_each work (fun kv writer => V2a.Rewrite env (snd kv) (fst kv) writer)
    (V2a.mkWriter (Some out) 0 p)
  = (Ok (V2a.mkWriter (Some out) 0 (match work with [] => p | _ => true end)),
     Plan.work_trace out rows p work).
Proof.
  induction work as [| kv work IH]; intros p Hall; [reflexivity |].
  cbn [for_each Plan.work_trace].
  destruct (Hall kv (or_introl eq_refl)) as (H02 & H03 & Hn & Hlen & Hfit).
  rewrite (bind_ok _ _ _ _ _ _
             (V2a_Rewrite_run env (fst kv) _ _ (snd kv) out Hlen Hfit H02 H03
                Hn 0 p ltac:(lia) ltac:(lia))
             (IH true (fun kv' H => Hall kv' (or_intror H)))).
  f_equal.
  - now destruct work.
Qed.

Lemma collect_group_trace p l : forall acc files t,
  collect (Plan.group_trace out p l ++ t) ((out, acc) :: files)
  = collect t ((out, rev l ++ acc) :: files).
Proof.
  intros acc files t. unfold Plan.group_trace.
  destruct l as [| row l]; [reflexivity |].
  rewrite <- app_assoc. destruct p; cbn [app collect];
    apply (collect_rows out (row :: l)).
Qed.

Lemma collect_work_trace : forall work p acc files t,
  collect (Plan.work_trace out rows p work ++ t) ((out, acc) :: files)
  = collect t ((out, rev (List.concat (map rows work)) ++ acc) :: files).
Proof.
  induction work as [| kv work IH]; intros p acc files t; [reflexivity |].
  cbn [Plan.work_trace app collect map List.concat].
  rewrite <- app_assoc, collect_group_trace, IH.
  now rewrite rev_app_distr, <- app_assoc.
Qed.

Lemma groups_from_rows l : forall cur rest,
  groups_from cur (map Row l ++ rest) = groups_from (rev l ++ cur) rest.
Proof.
  induction l as [| row l IH]; intros cur rest; [reflexivity |].
  cbn [map app groups_from rev]. rewrite IH. now rewrite <- app_assoc.
Qed.

Lemma items_rows l :
  items out (map (fun row => Write out (Row row)) l) = map Row l.
Proof.
  induction l as [| row l IH]; [reflexivity |].
  cbn [map]. now rewrite items_write, IH.
Qed.

Lemma groups_work_trace : forall work cur,
  Forall (fun kv => rows kv <> []) work ->
  groups_from cur (items out (Plan.work_trace out rows true work))
  = rev cur :: map rows work.
Proof.
  induction work as [| kv work IH]; intros cur Hne; [reflexivity |].
  inversion Hne as [| ? ? Hkv Hrest]; subst.
  cbn [Plan.work_trace items map]. rewrite items_app.
  unfold Plan.group_trace. destruct (rows kv) as [| row l] eqn:E;
    [congruence |].
  rewrite items_app, items_write, items_rows.
  cbn [items app groups_from]. f_equal.
  rewrite (groups_from_rows (row :: l)), app_nil_r, (IH _ Hrest).
  now rewrite rev_involutive.
Qed.

End V2aRun.

(** X8.  A run of [vti2pqtv2a.cc] on a directory whose snapshots have the
    fields [v02] and [v03]: it succeeds and writes one file, which holds,
    for the timesteps in ascending order, the rows of the snapshot of the
    timestep in the order of its points, with row ids counting up from 0
    for every timestep; when no snapshot is empty the row groups of the
    file are the timesteps. *)
Theorem X8_V2a_ProcessDir_one_row_group_per_timestep
    env indir outdir entries (v02 v03 : string -> list F32.float) :
  Sys.opendir env indir = inr entries ->
  Forall Spec.name_ok entries ->
  (forall kv, In kv (Spec.work_items indir entries) ->
     Spec.snapshot (Sys.read_vti env (snd kv)) (v02 (snd kv)) (v03 (snd kv))) ->
  Sys.can_create env (Plan.first_output outdir entries) = true ->
  let out := Plan.first_output outdir entries in
  let work := Spec.work_items indir entries in
  let rows kv :=
    Spec.rows_from (fst kv) 0 (combine (v02 (snd kv)) (v03 (snd kv))) in
  let run := V2a.ProcessDir env indir outdir in
  run = (Run.Ok tt,
         Run.Create out
           :: Run.OpenWriter out Vti.GetSchema
                (Vti.properties Sys.arrow_defaults) []
           :: Plan.work_trace out rows false work
           ++ [Run.Close out; Run.Stdout ("Done!" ++ Sys.nl)])
  /\ Run.outputs (snd run) = [(out, List.concat (map rows work))]
  /\ (Forall (fun kv => v02 (snd kv) <> []) work -> work <> [] ->
      Run.groups (Run.items out (snd run)) = map rows work).
Proof.
  intros Hdir Hok Hall Hcreate. cbv zeta.
  set (out := Plan.first_output outdir entries) in *.
  set (work := Spec.work_items indir entries) in *.
  set (rows := fun kv : Z * string =>
         Spec.rows_from (fst kv) 0 (combine (v02 (snd kv)) (v03 (snd kv)))).
  assert (Hrun : V2a.ProcessDir env indir outdir
                 = (Run.Ok tt,
                    Run.Create out
                      :: Run.OpenWriter out Vti.GetSchema
                           (Vti.properties Sys.arrow_defaults) []
                      :: Plan.work_trace out rows false work
                      ++ [Run.Close out; Run.Stdout ("Done!" ++ Sys.nl)])).
  { destruct (V2a_scan_exact indir outdir entries [] "" outdir Hok)
      as [tmp1 Hscan].
    rewrite Nat.eqb_refl, append_empty_r in Hscan.
    assert (Hscan' : V2a.scan indir outdir entries
                     = Run.ret (work, tmp1, out)) by exact Hscan.
    unfold V2a.ProcessDir. rewrite Hdir, Hscan', bind_ret_l.
    unfold Sys.FileOutputStream_Open. rewrite Hcreate.
    unfold V2a.ParquetWriter_new.
    cbn [Run.bind Run.act Run.ret app].
    rewrite (V2a_rewrite_all env out v02 v03 work false Hall).
    fold rows. destruct work; reflexivity. }
  rewrite Hrun. cbn [snd]. split; [reflexivity |]. split.
  - unfold Run.outputs. cbn [Run.collect].
    rewrite (collect_work_trace out v02 v03 work false [] []).
    fold rows. cbn [Run.collect map rev fst snd app].
    now rewrite app_nil_r, rev_involutive.
  - intros Hne Hwork. unfold Run.groups.
    cbn [Run.items]. rewrite items_app.
    assert (Hlast : Run.items out [Run.Close out; Run.Stdout ("Done!" ++ Sys.nl)]
                    = []) by reflexivity.
    rewrite Hlast, app_nil_r.
    destruct work as [| kv work']; [congruence |].
    inversion Hne as [| ? ? Hkv Hrest]; subst.
    cbn [Plan.work_trace Run.items map]. rewrite items_app.
    assert (Hrows : forall kv, v02 (snd kv) <> [] ->
              Spec.snapshot (Sys.read_vti env (snd kv)) (v02 (snd kv))
                (v03 (snd kv)) -> rows kv <> []).
    { intros kv0 H0 (_ & _ & _ & Hlen & _) Hnil.
      apply (f_equal (@List.length _)) in Hnil. unfold rows in Hnil.
      rewrite rows_from_length, length_combine in Hnil.
      destruct (v02 (snd kv0)); [congruence | cbn [List.length] in *; lia]. }
    pose proof (Hrows kv Hkv (Hall kv (or_introl eq_refl))) as Hkv'.
    unfold Plan.group_trace. destruct (rows kv) as [| row l] eqn:E;
      [congruence |].
    cbn [app]. rewrite (items_rows out (row :: l)).
    rewrite (groups_from_rows (row :: l)), app_nil_r.
    rewrite (groups_work_trace out v02 v03 work').
    + fold rows. now rewrite rev_involutive.
    + apply Forall_forall. intros kv0 Hin. apply Hrows.
      * rewrite Forall_forall in Hrest. now apply Hrest.
      * apply Hall. now right.
Qed.

Lemma X8_V2a_ProcessDir_one_row_group_witness :
  Run.groups
    (Run.items "out/run.parquet" (snd (V2a.ProcessDir Examples.env "in" "out")))
  = [[Spec.row4 2 0 (F32.of_Z 21, F32.of_Z 31)];
     [Spec.row4 7 0 (F32.of_Z 70, F32.of_Z 80)];
     [Spec.row4 15 0 (F32.of_Z 150, F32.of_Z 160)]].
Proof.
  destruct (X8_V2a_ProcessDir_one_row_group_per_timestep Examples.env "in" "out"
              Examples.listing (Cases.field_of "v02") (Cases.field_of "v03")
              eq_refl) as (_ & _ & Hgroups).
  - unfold Examples.listing.
    repeat (apply Forall_cons;
            [intros H; vm_compute in H;
             first [discriminate H
                   | vm_compute; split; [discriminate | reflexivity]] |]).
    apply Forall_nil.
  - intros kv H. vm_compute in H.
    destruct H as [<- | [<- | [<- | []]]];
      unfold Spec.snapshot; repeat split; vm_compute; congruence.
  - reflexivity.
  - etransitivity; [apply Hgroups | reflexivity].
    + repeat constructor; discriminate.
    + discriminate.
Defined.
(** ** What [ProcessDir] does with a directory *)

Lemma bind_ext {A B : Type} (m : Run.M A) (k1 k2 : A -> Run.M B) :
  (forall a, k1 a = k2 a) -> Run.bind m k1 = Run.bind m k2.
Proof.
  intros H. destruct m as [[a | why |] t]; simpl; try reflexivity.
  now rewrite H.
Qed.

(** A loop over the entries whose turns do nothing on the entries not
    selected, and run a job on the selected ones, is the sequence of the
    jobs of the selected entries. *)
Lemma for_each_selected {A S B : Type} (sel : A -> bool) (P : A -> Prop)
    (inv : S -> Prop) (body : A -> S -> Run.M S) (job : A -> Run.M unit)
    (k : Run.M B) :
  (forall a s, inv s -> sel a = false -> body a s = Run.ret s) ->
  (forall a s, inv s -> P a -> sel a = true ->
     exists s', inv s' /\ body a s = Run.bind (job a) (fun _ => Run.ret s')) ->
  forall l s, Forall P l -> inv s ->
  Run.bind (Run.for_each l body s) (fun _ => k)
  = Run.bind (Run.for_each (filter sel l) (fun a _ => job a) tt) (fun _ => k).
Proof.
  intros Hskip Hsel. induction l as [| a l IH]; intros s HP Hinv.
  - cbn [Run.for_each filter]. now rewrite !bind_ret_l.
  - inversion HP as [| ? ? Ha Hl]; subst.
    cbn [Run.for_each filter]. destruct (sel a) eqn:Ea.
    + destruct (Hsel a s Hinv Ha Ea) as (s' & Hinv' & ->).
      cbn [Run.for_each]. rewrite !bind_assoc. apply bind_ext. intros [].
      rewrite bind_ret_l. now apply IH.
    + rewrite (Hskip a s Hinv Ea), bind_ret_l. now apply IH.
Qed.

Lemma selected_size links suffix e :
  Plan.selected links suffix e = true ->
  Z.of_nat (String.length suffix) <= Cxx.size (Sys.d_name e).
Proof.
  unfold Plan.selected, Cxx.StringEndWith, Cxx.size.
  destruct (Sys.d_type e); try discriminate;
    [| destruct links; try discriminate; cbn [andb]];
    destruct (Nat.ltb_spec (String.length (Sys.d_name e)) (String.length suffix));
    try discriminate; lia.
Qed.

Lemma stem_of_name f :
  4 <= Cxx.size f < 2 ^ 64 ->
  Sys.substr_or_throw f 0 (Cxx.wrap_size (Cxx.size f - 4))
  = Run.ret (Plan.stem f).
Proof.
  intros H. unfold Cxx.wrap_size. rewrite Z.mod_small by lia.
  rewrite substr_in_range by lia. unfold Plan.stem, Cxx.size.
  do 2 f_equal. lia.
Qed.

Lemma is_vti_selected e : Spec.is_vti e = Plan.selected false ".vti" e.
Proof. unfold Spec.is_vti, Plan.selected. now destruct (Sys.d_type e). Qed.

Lemma prefixed_start indir outdir : Plan.prefixed indir outdir (indir, outdir).
Proof. exists ""%string, ""%string. now rewrite !append_empty_r. Qed.

Lemma prefixed_next indir outdir e :
  Plan.prefixed indir outdir (Plan.source indir e, Plan.target outdir e).
Proof. now eexists _, _. Qed.

Section SelectedEntries.
Variables (env : Sys.Env) (indir outdir : string).

Lemma Meta_process_entry_selected tsd e s :
  Plan.prefixed indir outdir s ->
  Cxx.size (Sys.d_name e) < 2 ^ 64 ->
  Plan.selected true ".vti" e = true ->
  exists s', Plan.prefixed indir outdir s'
    /\ Meta.process_entry env tsd (String.length indir) (String.length outdir) e s
       = Run.bind (Meta.Rewrite env tsd (Plan.source indir e) (Plan.target outdir e))
           (fun _ => Run.ret s').
Proof.
  intros (sfx1 & sfx2 & ->) Hsize Hsel.
  pose proof (selected_size _ _ _ Hsel) as H4. simpl in H4.
  exists (Plan.source indir e, Plan.target outdir e).
  split; [apply prefixed_next |].
  unfold Meta.process_entry, Plan.selected in *.
  assert (Hend : Cxx.StringEndWith (Sys.d_name e) ".vti" = true)
    by (destruct (Sys.d_type e); try discriminate; assumption).
  rewrite Hend, !resize_prefix, stem_of_name, bind_ret_l by lia.
  destruct (Sys.d_type e); try discriminate; reflexivity.
Qed.

Lemma Meta_process_entry_skipped tsd e s :
  Plan.selected true ".vti" e = false ->
  Meta.process_entry env tsd (String.length indir) (String.length outdir) e s
  = Run.ret s.
Proof.
  destruct s as [tmp1 tmp2]. unfold Meta.process_entry, Plan.selected.
  destruct (Sys.d_type e); cbn [andb]; try reflexivity; now intros ->.
Qed.

Lemma Xrage_process_entry_selected read_vtu e s :
  Plan.prefixed indir outdir s ->
  Cxx.size (Sys.d_name e) < 2 ^ 64 ->
  Plan.selected true ".vtu" e = true ->
  exists s', Plan.prefixed indir outdir s'
    /\ Xrage.process_entry env read_vtu (String.length indir)
         (String.length outdir) e s
       = Run.bind (Xrage.Rewrite env read_vtu (Plan.source indir e)
                     (Plan.target outdir e))
           (fun _ => Run.ret s').
Proof.
  intros (sfx1 & sfx2 & ->) Hsize Hsel.
  pose proof (selected_size _ _ _ Hsel) as H4. simpl in H4.
  exists (Plan.source indir e, Plan.target outdir e).
  split; [apply prefixed_next |].
  unfold Xrage.process_entry, Plan.selected in *.
  assert (Hend : Cxx.StringEndWith (Sys.d_name e) ".vtu" = true)
    by (destruct (Sys.d_type e); try discriminate; assumption).
  rewrite Hend, !resize_prefix, stem_of_name, bind_ret_l by lia.
  destruct (Sys.d_type e); try discriminate; reflexivity.
Qed.

Lemma Xrage_process_entry_skipped read_vtu e s :
  Plan.selected true ".vtu" e = false ->
  Xrage.process_entry env read_vtu (String.length indir)
    (String.length outdir) e s
  = Run.ret s.
Proof.
  destruct s as [tmp1 tmp2]. unfold Xrage.process_entry, Plan.selected.
  destruct (Sys.d_type e); cbn [andb]; try reflexivity; now intros ->.
Qed.

Lemma V2b_process_entry_selected ceiling e s :
  Plan.prefixed indir outdir s ->
  Spec.name_ok e ->
  Spec.is_vti e = true ->
  exists s', Plan.prefixed indir outdir s'
    /\ V2b.process_entry env ceiling (String.length indir)
         (String.length outdir) e s
       = Run.bind (V2b.Rewrite env ceiling (Spec.key_of (Sys.d_name e))
                     (Plan.source indir e) (Plan.target outdir e))
           (fun _ => Run.ret s').
Proof.
  intros (sfx1 & sfx2 & ->) Hok Hsel. specialize (Hok Hsel).
  exists (Plan.source indir e, Plan.target outdir e).
  split; [apply prefixed_next |].
  unfold V2b.process_entry, Spec.is_vti in *.
  destruct (Sys.d_type e); try discriminate. rewrite Hsel.
  rewrite !resize_prefix, stem_of_name, bind_ret_l by lia.
  assert (Hkey : Sys.substr_or_throw (Sys.d_name e)
                   (Cxx.wrap_size (Cxx.size (Sys.d_name e) - 4 - 5)) 5
                 = Run.ret (substring (String.length (Sys.d_name e) - 9) 5
                              (Sys.d_name e))).
  { unfold Cxx.wrap_size. rewrite Z.mod_small by lia.
    rewrite substr_in_range by lia. do 2 f_equal.
    unfold Cxx.size. lia. }
  rewrite Hkey, bind_ret_l. reflexivity.
Qed.

Lemma V2b_process_entry_skipped ceiling e s :
  Spec.is_vti e = false ->
  V2b.process_entry env ceiling (String.length indir)
    (String.length outdir) e s
  = Run.ret s.
Proof.
  destruct s as [tmp1 tmp2]. unfold V2b.process_entry, Spec.is_vti.
  destruct (Sys.d_type e); try reflexivity; now intros ->.
Qed.

End SelectedEntries.

(** X12.  [ProcessDir] of the converter with metadata and of the
    unstructured-grid converter converts the regular files and symbolic
    links of the input directory whose names end with [.vti] (with [.vtu])
    in the order the directory enumerates them, every file [NAME.vti] of
    [indir] to [outdir/NAME.parquet] whatever was converted before it, and
    prints [Done!] when all are converted; the first conversion that
    stops ends the run. *)
Theorem X12_ProcessDir_converts_each_selected env indir outdir entries :
  Sys.opendir env indir = inr entries ->
  Forall (fun e => Cxx.size (Sys.d_name e) < 2 ^ 64) entries ->
  (forall to_string_double,
     Meta.ProcessDir env to_string_double indir outdir
     = Run.bind
         (Run.for_each (filter (Plan.selected true ".vti") entries)
            (fun e _ =>
               Meta.Rewrite env to_string_double (Plan.source indir e)
                 (Plan.target outdir e)) tt)
         (fun _ => Run.act (Run.Stdout ("Done!" ++ Sys.nl))))
  /\ (forall read_vtu,
        Xrage.ProcessDir env read_vtu indir outdir
        = Run.bind
            (Run.for_each (filter (Plan.selected true ".vtu") entries)
               (fun e _ =>
                  Xrage.Rewrite env read_vtu (Plan.source indir e)
                    (Plan.target outdir e)) tt)
            (fun _ => Run.act (Run.Stdout ("Done!" ++ Sys.nl)))).
Proof.
  intros Hdir Hsize. split.
  - intros tsd. unfold Meta.ProcessDir. rewrite Hdir.
    apply (for_each_selected (Plan.selected true ".vti")
             (fun e => Cxx.size (Sys.d_name e) < 2 ^ 64)
             (Plan.prefixed indir outdir)).
    + intros e s _. apply Meta_process_entry_skipped.
    + intros e s. apply Meta_process_entry_selected.
    + exact Hsize.
    + apply prefixed_start.
  - intros read_vtu. unfold Xrage.ProcessDir. rewrite Hdir.
    apply (for_each_selected (Plan.selected true ".vtu")
             (fun e => Cxx.size (Sys.d_name e) < 2 ^ 64)
             (Plan.prefixed indir outdir)).
    + intros e s _. apply Xrage_process_entry_skipped.
    + intros e s. apply Xrage_process_entry_selected.
    + exact Hsize.
    + apply prefixed_start.
Qed.

Lemma X12_ProcessDir_converts_each_selected_witness :
  Meta.ProcessDir Examples.env (fun _ => "0.000000"%string) "in" "out"
  = Run.bind
      (Run.for_each
         [Sys.mkDirent Sys.DT_REG "run_00007.vti";
          Sys.mkDirent Sys.DT_REG "run_00002.vti";
          Sys.mkDirent Sys.DT_REG "run_00015.vti";
          Sys.mkDirent Sys.DT_REG "new_00002.vti"]
         (fun e _ =>
            Meta.Rewrite Examples.env (fun _ => "0.000000"%string)
              (Plan.source "in" e) (Plan.target "out" e)) tt)
      (fun _ => Run.act (Run.Stdout ("Done!" ++ Sys.nl))).
Proof.
  refine (proj1 (X12_ProcessDir_converts_each_selected Examples.env "in" "out"
                   Examples.listing eq_refl _) (fun _ => "0.000000"%string)).
  repeat constructor.
Defined.

(** X9.  [ProcessDir] of [vti2pqtv2b.cc] converts the regular files of the
    input directory whose names end with [.vti] in the order the
    directory enumerates them: every file [NAME.vti], with the timestep
    its name carries, to the split files of [outdir/NAME.parquet]. *)
Theorem X9_V2b_ProcessDir_converts_each_selected env ceiling indir outdir entries :
  Sys.opendir env indir = inr entries ->
  Forall Spec.name_ok entries ->
  V2b.ProcessDir env ceiling indir outdir
  = Run.bind
      (Run.for_each (filter Spec.is_vti entries)
         (fun e _ =>
            V2b.Rewrite env ceiling (Spec.key_of (Sys.d_name e))
              (Plan.source indir e) (Plan.target outdir e)) tt)
      (fun _ => Run.act (Run.Stdout ("Done!" ++ Sys.nl))).
Proof.
  intros Hdir Hok. unfold V2b.ProcessDir. rewrite Hdir.
  apply (for_each_selected Spec.is_vti Spec.name_ok
           (Plan.prefixed indir outdir)).
  - intros e s _. apply V2b_process_entry_skipped.
  - intros e s. apply V2b_process_entry_selected.
  - exact Hok.
  - apply prefixed_start.
Qed.

Lemma X9_V2b_ProcessDir_converts_witness :
  V2b.ProcessDir Examples.env V2b.CEILING "in" "out"
  = Run.bind
      (Run.for_each
         [Sys.mkDirent Sys.DT_REG "run_00007.vti";
          Sys.mkDirent Sys.DT_REG "run_00002.vti";
          Sys.mkDirent Sys.DT_REG "run_00015.vti";
          Sys.mkDirent Sys.DT_REG "new_00002.vti"]
         (fun e _ =>
            V2b.Rewrite Examples.env V2b.CEILING (Spec.key_of (Sys.d_name e))
              (Plan.source "in" e) (Plan.target "out" e)) tt)
      (fun _ => Run.act (Run.Stdout ("Done!" ++ Sys.nl))).
Proof.
  refine (X9_V2b_ProcessDir_converts_each_selected Examples.env V2b.CEILING
            "in" "out" Examples.listing eq_refl _).
  unfold Examples.listing.
  repeat (apply Forall_cons;
          [intros H; vm_compute in H;
           first [discriminate H
                 | vm_compute; split; [discriminate | reflexivity]] |]).
  apply Forall_nil.
Defined.

(** X16.  [ProcessDir] of the repack tool repacks the regular files of the
    directory whose names end with [.parquet], in the order the directory
    enumerates them. *)
Theorem X16_Repack_ProcessDir_repacks_each_selected env ceiling indir entries :
  Sys.opendir env indir = inr entries ->
  Repack.ProcessDir env ceiling indir
  = Run.bind
      (Run.for_each (filter (Plan.selected false ".parquet") entries)
         (fun e _ => Repack.Rewrite env ceiling (Plan.source indir e)) tt)
      (fun _ => Run.act (Run.Stdout ("Done!" ++ Sys.nl))).
Proof.
  intros Hdir. unfold Repack.ProcessDir. rewrite Hdir.
  apply (for_each_selected (Plan.selected false ".parquet") (fun _ => True)
           (fun tmp => exists sfx, tmp = (indir ++ sfx)%string)).
  - intros e tmp _. unfold Repack.process_entry, Plan.selected.
    destruct (Sys.d_type e); try reflexivity; now intros ->.
  - intros e tmp [sfx ->] _ Hsel. exists (Plan.source indir e).
    split; [now eexists |].
    unfold Repack.process_entry, Plan.selected in *.
    destruct (Sys.d_type e); try discriminate.
    now rewrite Hsel, resize_prefix.
  - clear. induction entries; constructor; auto.
  - exists ""%string. now rewrite append_empty_r.
Qed.

Lemma X16_Repack_ProcessDir_repacks_witness :
  Repack.ProcessDir
    (Cases.env_with [Sys.mkDirent Sys.DT_REG "seven.parquet";
                     Sys.mkDirent Sys.DT_REG "seven.parquet.0"])
    3 "in"
  = Run.bind
      (Run.bind
         (Repack.Rewrite
            (Cases.env_with [Sys.mkDirent Sys.DT_REG "seven.parquet";
                             Sys.mkDirent Sys.DT_REG "seven.parquet.0"])
            3 "in/seven.parquet")
         (fun _ => Run.ret tt))
      (fun _ => Run.act (Run.Stdout ("Done!" ++ Sys.nl))).
Proof.
  exact (X16_Repack_ProcessDir_repacks_each_selected
           (Cases.env_with [Sys.mkDirent Sys.DT_REG "seven.parquet";
                            Sys.mkDirent Sys.DT_REG "seven.parquet.0"])
           3 "in" _ eq_refl).
Defined.

(** ** Split files are not inputs *)

Lemma ends_with_digit_app p s :
  s <> ""%string ->
  Names.ends_with_digit (p ++ s) = Names.ends_with_digit s.
Proof.
  intros Hs. induction p as [| c p IH]; [reflexivity |].
  cbn [append]. destruct (p ++ s)%string eqn:E.
  - destruct p, s; try discriminate E. congruence.
  - exact IH.
Qed.

Lemma ends_with_digit_uint d :
  d <> Decimal.Nil ->
  Names.ends_with_digit (NilEmpty.string_of_uint d) = true.
Proof.
  induction d as [| d IH | d IH | d IH | d IH | d IH | d IH | d IH | d IH
                  | d IH | d IH]; intros Hd; try congruence;
    (destruct d; [reflexivity | apply IH; discriminate ..]).
Qed.

Lemma ends_with_digit_to_string k :
  Names.ends_with_digit (Cxx.to_string k) = true.
Proof.
  unfold Cxx.to_string, NilZero.string_of_int.
  assert (H : forall d, Names.ends_with_digit (NilZero.string_of_uint d) = true).
  { intros d. unfold NilZero.string_of_uint.
    destruct d; try reflexivity; apply ends_with_digit_uint; discriminate. }
  destruct (Z.to_int k) as [d | d]; [apply H |].
  change (String "-" (NilZero.string_of_uint d))
    with ("-" ++ NilZero.string_of_uint d)%string.
  rewrite ends_with_digit_app; [apply H |].
  intros E. specialize (H d). rewrite E in H. discriminate.
Qed.

Lemma ends_with_digit_not_suffix s suffix :
  Names.ends_with_digit s = true ->
  suffix <> ""%string -> Names.ends_with_digit suffix = false ->
  Cxx.StringEndWith s suffix = false.
Proof.
  intros Hs Hne Hsuffix.
  destruct (Cxx.StringEndWith s suffix) eqn:E; [| reflexivity].
  unfold Cxx.StringEndWith in E.
  destruct (Nat.ltb_spec (String.length s) (String.length suffix));
    [discriminate |].
  apply String.eqb_eq in E.
  set (m := String.length suffix) in *.
  pose proof (substring_cut s (String.length s - m) ltac:(lia)) as Hcut.
  replace (String.length s - (String.length s - m))%nat with m in Hcut by lia.
  rewrite E in Hcut. rewrite Hcut, ends_with_digit_app in Hs by assumption.
  congruence.
Qed.

(** X17.  The name of a split file ends with a digit, so that neither the
    repack tool nor a converter takes a split file for an input: the
    repack tool passes over its own outputs and over the outputs of
    [vti2pqtv2b.cc]. *)
Theorem X17_split_files_are_not_inputs f k ty :
  let e := Sys.mkDirent ty (Spec.split_name f k) in
  (forall env ceiling base tmp,
     Repack.process_entry env ceiling base e tmp = Run.ret tmp)
  /\ (forall env ceiling b1 b2 s,
        V2b.process_entry env ceiling b1 b2 e s = Run.ret s)
  /\ Plan.selected true ".vti" e = false
  /\ Plan.selected true ".vtu" e = false.
Proof.
  cbv zeta.
  assert (Hdigit : Names.ends_with_digit (Spec.split_name f k) = true).
  { unfold Spec.split_name.
    rewrite ends_with_digit_app.
    - rewrite ends_with_digit_app; [apply ends_with_digit_to_string |].
      intros E. pose proof (ends_with_digit_to_string k) as H.
      rewrite E in H. discriminate.
    - intros E. destruct (Cxx.to_string k); discriminate. }
  assert (Hno : forall suffix, suffix <> ""%string ->
            Names.ends_with_digit suffix = false ->
            Cxx.StringEndWith (Spec.split_name f k) suffix = false)
    by (intros; now apply ends_with_digit_not_suffix).
  split; [| split; [| split]].
  - intros env ceiling base tmp. unfold Repack.process_entry.
    cbn [Sys.d_type Sys.d_name].
    rewrite (Hno ".parquet"%string) by (discriminate || reflexivity).
    now destruct ty.
  - intros env ceiling b1 b2 [tmp1 tmp2]. unfold V2b.process_entry.
    cbn [Sys.d_type Sys.d_name].
    rewrite (Hno ".vti"%string) by (discriminate || reflexivity).
    now destruct ty.
  - unfold Plan.selected. cbn [Sys.d_type Sys.d_name].
    rewrite (Hno ".vti"%string) by (discriminate || reflexivity).
    now destruct ty.
  - unfold Plan.selected. cbn [Sys.d_type Sys.d_name].
    rewrite (Hno ".vtu"%string) by (discriminate || reflexivity).
    now destruct ty.
Qed.

(** ** A whole run of [vti2pqtv2b.cc] *)

Lemma collect_app t1 : forall t2 files,
  Run.collect (t1 ++ t2) files = Run.collect t2 (Run.collect t1 files).
Proof.
  induction t1 as [| a t1 IH]; intros t2 files; [reflexivity |].
  cbn [app Run.collect]. destruct a as [? | ? | ? | ? ? ? ? | ? [] | ?];
    apply IH.
Qed.

Section V2bRun.
Import Run.
Variable env : Sys.Env.
Variable ceiling : Z.
Variables indir outdir : string.
Variables v02 v03 : string -> list F32.float.

Hypothesis ceiling_pos : 0 < ceiling <= Cxx.INT_MAX.
Hypothesis creatable : forall path, Sys.can_create env path = true.

Let rows (e : Sys.dirent) : list (list Cell) :=
  Spec.rows_from (Spec.key_of (Sys.d_name e)) 0
    (combine (v02 (Plan.source indir e)) (v03 (Plan.source indir e))).

Let files (e : Sys.dirent) : list (string * list (list Cell)) :=
  Spec.split_files (Plan.target outdir e) 0
    (Spec.chunks (Z.to_nat ceiling) (rows e)).

Lemma V2b_jobs_run : forall jobs,
  (forall e, In e jobs ->
     Spec.snapshot (Sys.read_vti env (Plan.source indir e))
       (v02 (Plan.source indir e)) (v03 (Plan.source indir e))) ->
  for_each jobs
    (fun e (_ : unit) =>
       V2b.Rewrite env ceiling (Spec.key_of (Sys.d_name e))
         (Plan.source indir e) (Plan.target outdir e)) tt
  = (Ok tt,
     List.concat
       (map (Plan.split_job indir outdir (Z.to_nat ceiling) rows) jobs)).
Proof.
  induction jobs as [| e jobs IH]; intros Hall; [reflexivity |].
  cbn [for_each map List.concat].
  destruct (Hall e (or_introl eq_refl)) as (H02 & H03 & Hn & Hlen & Hfit).
  rewrite (bind_ok _ _ _ _ _ _
             (V2b_Rewrite_run env ceiling (Spec.key_of (Sys.d_name e)) _ _
                (Plan.source indir e) (Plan.target outdir e)
                ceiling_pos Hlen Hfit (fun k => creatable _) H02 H03 Hn)
             (IH (fun e' H => Hall e' (or_intror H)))).
  reflexivity.
Qed.

Lemma collect_jobs : forall jobs acc,
  collect
    (List.concat (map (Plan.split_job indir outdir (Z.to_nat ceiling) rows) jobs))
    acc
  = rev (map (fun f => (fst f, rev (snd f))) (List.concat (map files jobs)))
      ++ acc.
Proof.
  induction jobs as [| e jobs IH]; intros acc; [reflexivity |].
  cbn [map List.concat]. unfold Plan.split_job at 1.
  cbn [app collect]. rewrite collect_app, collect_split_trace, IH.
  fold (files e). now rewrite map_app, rev_app_distr, <- app_assoc.
Qed.

End V2bRun.

(** X10.  A run of [vti2pqtv2b.cc] on a directory whose snapshots have the
    fields [v02] and [v03]: it succeeds, and its output files are, for
    the snapshots in the order the directory enumerates them, the split
    files [outdir/NAME.parquet.0], [outdir/NAME.parquet.1], ... of the
    snapshot [NAME.vti], which hold its rows in the order of its points,
    with the timestep of its name and row ids counting up from 0 through
    its split files. *)
Theorem X10_V2b_ProcessDir_splits_every_snapshot
    env ceiling indir outdir entries (v02 v03 : string -> list F32.float) :
  0 < ceiling <= Cxx.INT_MAX ->
  Sys.opendir env indir = inr entries ->
  Forall Spec.name_ok entries ->
  (forall e, In e entries -> Spec.is_vti e = true ->
     Spec.snapshot (Sys.read_vti env (Plan.source indir e))
       (v02 (Plan.source indir e)) (v03 (Plan.source indir e))) ->
  (forall path, Sys.can_create env path = true) ->
  let rows e :=
    Spec.rows_from (Spec.key_of (Sys.d_name e)) 0
      (combine (v02 (Plan.source indir e)) (v03 (Plan.source indir e))) in
  let run := V2b.ProcessDir env ceiling indir outdir in
  fst run = Run.Ok tt
  /\ Run.outputs (snd run)
     = List.concat
         (map (fun e =>
                 Spec.split_files (Plan.target outdir e) 0
                   (Spec.chunks (Z.to_nat ceiling) (rows e)))
            (filter Spec.is_vti entries)).
Proof.
  intros Hc Hdir Hok Hall Hcreate. cbv zeta.
  assert (E : V2b.ProcessDir env ceiling indir outdir
              = Run.bind
                  (Run.for_each (filter Spec.is_vti entries)
                     (fun e _ =>
                        V2b.Rewrite env ceiling (Spec.key_of (Sys.d_name e))
                          (Plan.source indir e) (Plan.target outdir e)) tt)
                  (fun _ => Run.act (Run.Stdout ("Done!" ++ Sys.nl)))).
  { unfold V2b.ProcessDir. rewrite Hdir.
    apply (for_each_selected Spec.is_vti Spec.name_ok
             (Plan.prefixed indir outdir)).
    - intros e s _. apply V2b_process_entry_skipped.
    - intros e s. apply V2b_process_entry_selected.
    - exact Hok.
    - apply prefixed_start. }
  rewrite E, (V2b_jobs_run env ceiling indir outdir v02 v03 Hc Hcreate).
  - cbn [Run.bind Run.act fst snd]. split; [reflexivity |].
    unfold Run.outputs.
    rewrite collect_app, (collect_jobs ceiling indir outdir v02 v03).
    cbn [Run.collect]. rewrite app_nil_r, map_rev, rev_involutive, map_map.
    cbn [fst snd]. rewrite <- (map_id (List.concat _)) at 2.
    apply map_ext. intros [name l]. cbn [fst snd]. now rewrite rev_involutive.
  - intros e He. apply filter_In in He. destruct He as [Hin Hvti].
    now apply Hall.
Qed.

Lemma X10_V2b_ProcessDir_splits_witness :
  map fst (Run.outputs (snd (V2b.ProcessDir Examples.env 3 "in" "out")))
  = ["out/run_00007.parquet.0"; "out/run_00002.parquet.0";
     "out/run_00015.parquet.0"; "out/new_00002.parquet.0"]%string.
Proof.
  destruct (X10_V2b_ProcessDir_splits_every_snapshot Examples.env 3 "in" "out"
              Examples.listing (Cases.field_of "v02") (Cases.field_of "v03"))
    as [_ Hout].
  - unfold Cxx.INT_MAX. lia.
  - reflexivity.
  - unfold Examples.listing.
    repeat (apply Forall_cons;
            [intros H; vm_compute in H;
             first [discriminate H
                   | vm_compute; split; [discriminate | reflexivity]] |]).
    apply Forall_nil.
  - intros e Hin Hvti. cbn in Hin.
    repeat (destruct Hin as [<- | Hin];
            [first [discriminate Hvti
                   | unfold Spec.snapshot; repeat split; vm_compute; congruence]
            |]).
    destruct Hin.
  - reflexivity.
  - rewrite Hout. reflexivity.
Defined.

(** ** Snapshots without points *)

(** X11.  A snapshot that has the two fields and whose number of points, as an
    [int], is not positive (no point at all, or a number of points that
    wraps around) gives no row: [vti2pqtv2b.cc] creates no file for it,
    [vti2pqtv2a.cc] only marks the flush, and both go on. *)
Theorem X11_no_points_no_rows env timestep from v02 v03 :
  Sys.GetAbstractArray (Sys.PointData (Sys.read_vti env from)) "v02"
  = Some (Sys.vtkFloatArray v02) ->
  Sys.GetAbstractArray (Sys.PointData (Sys.read_vti env from)) "v03"
  = Some (Sys.vtkFloatArray v03) ->
  Cxx.wrap32 (Sys.NumberOfPoints (Sys.read_vti env from)) <= 0 ->
  (forall ceiling to,
     V2b.Rewrite env ceiling timestep from to
     = (Run.Ok tt,
        [Run.Stdout ("Rewriting " ++ from ++ " to parquet... " ++ Sys.nl)]))
  /\ (forall writer,
        V2a.Rewrite env from timestep writer
        = (Run.Ok (V2a.FlushRowGroup writer),
           [Run.Stdout (Spec.processing from)])).
Proof.
  intros H02 H03 Hn.
  assert (Hit : Vti.Iterator_new
                  (Sys.enable_arrays ["v02"; "v03"]%string (Sys.read_vti env from))
                = Run.ret (Vti.mkIterator
                             (Cxx.wrap32 (Sys.NumberOfPoints (Sys.read_vti env from)))
                             v02 v03 0)).
  { unfold Vti.Iterator_new, Vti.GET_POINTER, Sys.enable_arrays.
    cbn [Sys.PointData Sys.NumberOfPoints].
    rewrite !GetAbstractArray_enabled by reflexivity.
    now rewrite H02, H03. }
  assert (Hvalid : Vti.Valid
                     (Vti.mkIterator
                        (Cxx.wrap32 (Sys.NumberOfPoints (Sys.read_vti env from)))
                        v02 v03 0) = false).
  { unfold Vti.Valid. cbn [Vti.i_ Vti.n_].
    destruct (Z.ltb_spec 0 (Cxx.wrap32 (Sys.NumberOfPoints (Sys.read_vti env from))));
      [lia | reflexivity]. }
  split.
  - intros ceiling to. unfold V2b.Rewrite. rewrite Hit.
    rewrite bind_act, bind_ret_l. unfold Vti.SeekToFirst. cbn [Vti.n_ Vti.v02_ Vti.v03_].
    rewrite while_false by exact Hvalid. reflexivity.
  - intros writer. unfold V2a.Rewrite. rewrite Hit.
    rewrite bind_act, bind_ret_l. unfold Vti.SeekToFirst. cbn [Vti.n_ Vti.v02_ Vti.v03_].
    rewrite while_false by exact Hvalid. reflexivity.
Qed.

Lemma X11_no_points_no_rows_witness :
  V2b.Rewrite (Cases.env_of_image (Examples.image 0 0)) V2b.CEILING 3
    "in/empty.vti" "out/empty.parquet"
  = (Run.Ok tt,
     [Run.Stdout ("Rewriting in/empty.vti to parquet... " ++ Sys.nl)]).
Proof.
  refine (proj1 (X11_no_points_no_rows (Cases.env_of_image (Examples.image 0 0)) 3
                   "in/empty.vti" [] [] eq_refl eq_refl _)
            V2b.CEILING "out/empty.parquet"%string).
  vm_compute. discriminate.
Defined.

(** ** Inputs the repack tool cannot read *)

Section RepackBadInput.
Import Run.
Variable env : Sys.Env.
Variable ceiling : Z.
Variable src : string.
Variables (good : list (list Cell)) (bad : list Cell) (rest : list (list Cell)).

Hypothesis creatable : Sys.can_create env (Spec.split_name src 0) = true.
Hypothesis good_typed : forallb Spec.typed4 good = true.
Hypothesis bad_typed : Spec.typed4 bad = false.
Hypothesis below_ceiling : Z.of_nat (List.length good) < ceiling.
Hypothesis ceiling_int : ceiling <= Cxx.INT_MAX.

Let cond0 (s : Z * Repack.StreamReader) : bool :=
  let '(n, reader) := s in (negb (Repack.eof reader) && (n <? ceiling))%bool.

Let body0 (writer : Repack.ParquetWriter) (s : Z * Repack.StreamReader)
    : M (Z * Repack.StreamReader) :=
  let '(n, reader) := s in
  bind (Repack.read_row reader) (fun r =>
  let '(timestep, rowid, v02, v03, reader) := r in
  bind (Repack.Append writer timestep rowid v02 v03) (fun _ =>
  ret (Cxx.wrap32 (n + 1), reader))).

Lemma Repack_read_bad :
  Repack.read_row (bad :: rest) = stop (Terminated "parquet::ParquetException").
Proof.
  destruct bad as [| [t | ?] [| [r | ?] [| [? | a] [| [? | b] [| ? ?]]]]];
    try reflexivity; discriminate bad_typed.
Qed.

Lemma Repack_inner_bad path : forall l fuel n,
  forallb Spec.typed4 l = true ->
  Z.of_nat n + Z.of_nat (List.length l) < ceiling ->
  (List.length l < fuel)%nat ->
  while fuel cond0 (body0 (Repack.mkWriter (Some path)))
    (Z.of_nat n, l ++ bad :: rest)
  = (Stop (Terminated "parquet::ParquetException"),
     map (fun r => Write path (Row r)) l).
Proof.
  induction l as [| row l IH]; intros fuel n Htyped Hn Hfuel.
  - destruct fuel as [| fuel]; [simpl in Hfuel; lia |].
    cbn [app]. rewrite while_true.
    + unfold body0. now rewrite Repack_read_bad.
    + unfold cond0. cbn [Repack.eof negb andb].
      destruct (Z.ltb_spec (Z.of_nat n) ceiling); [reflexivity |].
      simpl in Hn. lia.
  - destruct fuel as [| fuel]; [simpl in Hfuel; lia |].
    cbn [List.length] in *. cbn [forallb] in Htyped.
    apply andb_prop in Htyped. destruct Htyped as [Hrow Htyped].
    cbn [app]. rewrite while_true.
    + assert (Hbody :
        body0 (Repack.mkWriter (Some path)) (Z.of_nat n, row :: l ++ bad :: rest)
        = (Ok (Z.of_nat (S n), l ++ bad :: rest), [Write path (Row row)])).
      { unfold body0.
        destruct row as [| [t | ?] [| [r | ?] [| [? | a] [| [? | b] [| ? ?]]]]];
          try discriminate Hrow.
        cbn [Repack.read_row]. rewrite bind_ret_l.
        unfold Repack.Append, Repack.put. cbn [Repack.writer_ deref].
        rewrite wrap32_succ by (unfold Cxx.INT_MAX in *; lia).
        replace (Z.of_nat n + 1) with (Z.of_nat (S n)) by lia.
        reflexivity. }
      rewrite Hbody. unfold bind at 1.
      rewrite (IH fuel (S n) Htyped ltac:(lia) ltac:(lia)). reflexivity.
    + unfold cond0. cbn [Repack.eof negb andb].
      destruct (Z.ltb_spec (Z.of_nat n) ceiling); [reflexivity | lia].
Qed.

Lemma Repack_Rewrite_bad :
  Sys.read_parquet env src = Some (good ++ bad :: rest) ->
  Repack.Rewrite env ceiling src
  = (Stop (Terminated "parquet::ParquetException"),
     Stdout ("Rewriting " ++ src ++ " to parquet... " ++ Sys.nl)
       :: Create (Spec.split_name src 0)
       :: OpenWriter (Spec.split_name src 0) Vti.GetSchema
            (Vti.properties Sys.arrow_defaults) []
       :: map (fun r => Write (Spec.split_name src 0) (Row r)) good).
Proof.
  intros Hread.
  pose proof (Repack_inner_bad (Spec.split_name src 0) good
                (List.length (good ++ bad :: rest)) 0 good_typed
                ltac:(simpl Z.of_nat; lia)
                ltac:(rewrite length_app; simpl; lia)) as Hloop.
  assert (E0 : Repack.Rewrite0 env ceiling (good ++ bad :: rest)
                 (Spec.split_name src 0)
               = (Stop (Terminated "parquet::ParquetException"),
                  Create (Spec.split_name src 0)
                    :: OpenWriter (Spec.split_name src 0) Vti.GetSchema
                         (Vti.properties Sys.arrow_defaults) []
                    :: map (fun r => Write (Spec.split_name src 0) (Row r)) good)).
  { assert (E : Repack.Rewrite0 env ceiling (good ++ bad :: rest)
                  (Spec.split_name src 0)
                = bind (Sys.FileOutputStream_Open env (Spec.split_name src 0))
                    (fun file =>
                     bind (Repack.ParquetWriter_new file) (fun writer =>
                     bind (while (List.length (good ++ bad :: rest)) cond0
                             (body0 writer) (0, good ++ bad :: rest))
                       (fun s =>
                        bind (Repack.Finish writer) (fun _ => ret (snd s))))))
      by reflexivity.
    rewrite E. unfold Sys.FileOutputStream_Open, Repack.ParquetWriter_new.
    rewrite creatable. cbn [bind act ret app].
    simpl Z.of_nat in Hloop. rewrite Hloop. reflexivity. }
  unfold Repack.Rewrite. rewrite Hread, bind_act.
  destruct (List.length (good ++ bad :: rest)) as [| fuel] eqn:Elen;
    [rewrite length_app in Elen; simpl in Elen; lia |].
  rewrite while_true by (now destruct good).
  rewrite resize_self. unfold Spec.split_name in E0.
  rewrite append_assoc, E0. reflexivity.
Qed.

End RepackBadInput.

(** X18.  The repack tool on inputs it cannot repack.  A file that cannot be
    opened stops it with an exception after the progress line.  A file
    without rows gives no output file.  A row that is not of the schema
    [timestep, rowid, v02, v03] stops it with an exception of the reader:
    the rows before it have been streamed to the split file at hand, which
    is left without having been closed. *)
Theorem X18_Repack_Rewrite_on_bad_input env ceiling src :
  let line :=
    Run.Stdout ("Rewriting " ++ src ++ " to parquet... " ++ Sys.nl) in
  (Sys.read_parquet env src = None ->
   Repack.Rewrite env ceiling src
   = (Run.Stop (Run.Terminated "parquet::ParquetStatusException"), [line]))
  /\ (Sys.read_parquet env src = Some [] ->
      Repack.Rewrite env ceiling src = (Run.Ok tt, [line]))
  /\ (forall good bad rest,
        Sys.read_parquet env src = Some (good ++ bad :: rest) ->
        forallb Spec.typed4 good = true -> Spec.typed4 bad = false ->
        Z.of_nat (List.length good) < ceiling <= Cxx.INT_MAX ->
        Sys.can_create env (Spec.split_name src 0) = true ->
        let run := Repack.Rewrite env ceiling src in
        run
        = (Run.Stop (Run.Terminated "parquet::ParquetException"),
           line
             :: Run.Create (Spec.split_name src 0)
             :: Run.OpenWriter (Spec.split_name src 0) Vti.GetSchema
                  (Vti.properties Sys.arrow_defaults) []
             :: map (fun r => Run.Write (Spec.split_name src 0) (Run.Row r))
                  good)
        /\ ~ In (Run.Close (Spec.split_name src 0)) (snd run)).
Proof.
  cbv zeta. split; [| split].
  - intros Hread. unfold Repack.Rewrite. now rewrite Hread.
  - intros Hread. unfold Repack.Rewrite. now rewrite Hread.
  - intros good bad rest Hread Hgood Hbad [Hlt Hmax] Hcreate.
    rewrite (Repack_Rewrite_bad env ceiling src good bad rest Hcreate Hgood
               Hbad Hlt Hmax Hread).
    split; [reflexivity |]. cbn [snd In].
    intros [H | [H | [H | H]]]; try discriminate H.
    apply in_map_iff in H. destruct H as (r & H & _). discriminate H.
Qed.

Lemma X18_Repack_Rewrite_on_bad_input_witness :
  Repack.Rewrite (Cases.env_of_rows (Some Cases.mixed_rows)) 3 "in/mixed.parquet"
  = (Run.Stop (Run.Terminated "parquet::ParquetException"),
     Run.Stdout ("Rewriting in/mixed.parquet to parquet... " ++ Sys.nl)
       :: Run.Create "in/mixed.parquet.0"
       :: Run.OpenWriter "in/mixed.parquet.0" Vti.GetSchema
            (Vti.properties Sys.arrow_defaults) []
       :: map (fun r => Run.Write "in/mixed.parquet.0" (Run.Row r))
            (firstn 2 Cases.mixed_rows)).
Proof.
  refine (proj1 (proj2 (proj2 (X18_Repack_Rewrite_on_bad_input
                                 (Cases.env_of_rows (Some Cases.mixed_rows)) 3
                                 "in/mixed.parquet"))
                   (firstn 2 Cases.mixed_rows) _ _ eq_refl eq_refl eq_refl _
                   eq_refl)).
  vm_compute. split; [reflexivity | discriminate].
Defined.

(** ** [Rewrite] of the converter with metadata *)

Section MetaRewrite.
Import Run.
Variable env : Sys.Env.
Variable to_string_double : spec_float -> string.
Variables prs tev v02 v03 : list F32.float.
Variables (c : Z) (cs : list Z).
Variables from to : string.

Hypothesis same_length : List.length v03 = List.length v02.
Hypothesis fits_int : Z.of_nat (List.length v02) <= Cxx.INT_MAX.
Hypothesis has_prs :
  Sys.GetAbstractArray (Sys.PointData (Sys.read_vti env from)) "prs"
  = Some (Sys.vtkFloatArray prs).
Hypothesis has_tev :
  Sys.GetAbstractArray (Sys.PointData (Sys.read_vti env from)) "tev"
  = Some (Sys.vtkFloatArray tev).
Hypothesis has_v02 :
  Sys.GetAbstractArray (Sys.PointData (Sys.read_vti env from)) "v02"
  = Some (Sys.vtkFloatArray v02).
Hypothesis has_v03 :
  Sys.GetAbstractArray (Sys.PointData (Sys.read_vti env from)) "v03"
  = Some (Sys.vtkFloatArray v03).
Hypothesis points :
  Sys.NumberOfPoints (Sys.read_vti env from) = Z.of_nat (List.length v02).
Hypothesis has_cycle_index :
  Sys.GetAbstractArray (Sys.FieldData (Sys.read_vti env from)) "cycle_index"
  = Some (Sys.vtkIntArray (c :: cs)).
Hypothesis creatable : Sys.can_create env to = true.

Let N : Z := Z.of_nat (List.length v02).
Let it (i : nat) : Meta.Iterator :=
  Meta.mkIterator N prs tev v02 v03 (Z.of_nat i).
Let writer (r : Z) : Meta.ParquetWriter := Meta.mkWriter (Some to) r.

Let cond (s : Meta.Iterator * Meta.ParquetWriter) : bool := Meta.Valid (fst s).

Let body (s : Meta.Iterator * Meta.ParquetWriter)
    : M (Meta.Iterator * Meta.ParquetWriter) :=
  let '(it, writer) := s in
  bind (Meta.Append writer it) (fun writer =>
  ret (Meta.Next it, writer)).

Lemma Meta_body i a b :
  nth_error v02 i = Some a -> nth_error v03 i = Some b ->
  body (it i, writer (Z.of_nat i))
  = (Ok (it (S i), writer (Z.of_nat (S i))),
     [Write to (Row [I32 (Z.of_nat i); F32 (F32.quantize a);
                     F32 (F32.quantize b)])]).
Proof.
  intros Ha Hb.
  assert (Hi : (i < List.length v02)%nat)
    by (apply nth_error_Some; congruence).
  assert (Hw : Cxx.wrap32 (Z.of_nat i + 1) = Z.of_nat (S i))
    by (rewrite wrap32_succ; unfold Cxx.INT_MAX in *; lia).
  unfold body, Meta.Append, Meta.v02, Meta.v03, Meta.Next, it, writer.
  cbn [Meta.n_ Meta.prs_ Meta.tev_ Meta.v02_ Meta.v03_ Meta.i_
       Meta.writer_ Meta.rowid_].
  rewrite (index_nth _ _ _ Ha), bind_ret_l.
  rewrite (index_nth _ _ _ Hb), bind_ret_l.
  rewrite Hw. reflexivity.
Qed.

Lemma Meta_loop : forall k fuel i,
  (i + k = List.length v02)%nat -> (k <= fuel)%nat ->
  while fuel cond body (it i, writer (Z.of_nat i))
  = (Ok (it (i + k), writer (Z.of_nat (i + k))),
     map (fun row => Write to (Row row))
       (Plan.rows3_from (Z.of_nat i) (skipn i (combine v02 v03)))).
Proof.
  induction k as [| k IH]; intros fuel i Hi Hfuel.
  - rewrite while_false.
    + rewrite Nat.add_0_r.
      rewrite skipn_all2 by (rewrite length_combine; lia). reflexivity.
    + unfold cond, Meta.Valid, it. cbn [fst Meta.i_ Meta.n_].
      destruct (Z.ltb_spec (Z.of_nat i) N); [unfold N in *; lia |].
      apply andb_false_r.
  - destruct fuel as [| fuel]; [lia |].
    destruct (nth_error_in_range v02 i ltac:(lia)) as [a Ha].
    destruct (nth_error_in_range v03 i ltac:(lia)) as [b Hb].
    rewrite while_true.
    + rewrite (bind_ok _ _ _ _ _ _ (Meta_body i a b Ha Hb)
                 (IH fuel (S i) ltac:(lia) ltac:(lia))).
      rewrite (skipn_nth_error _ _ _ (nth_error_combine _ _ _ _ _ Ha Hb)).
      cbn [Plan.rows3_from map app fst snd].
      replace (S i + k)%nat with (i + S k)%nat by lia.
      replace (Z.of_nat i + 1) with (Z.of_nat (S i)) by lia.
      reflexivity.
    + unfold cond, Meta.Valid, it. cbn [fst Meta.i_ Meta.n_].
      destruct (Z.leb_spec 0 (Z.of_nat i)); [| lia].
      destruct (Z.ltb_spec (Z.of_nat i) N); [reflexivity | unfold N in *; lia].
Qed.

Lemma Meta_ExtraMetadata_run e0 e1 e2 e3 e4 e5 o0 o1 o2 s0 s1 s2 :
  Sys.Extent (Sys.read_vti env from) = (e0, e1, e2, e3, e4, e5) ->
  Sys.Origin (Sys.read_vti env from) = (o0, o1, o2) ->
  Sys.Spacing (Sys.read_vti env from) = (s0, s1, s2) ->
  Meta.ExtraMetadata to_string_double (Sys.read_vti env from)
  = ret (Plan.metadata to_string_double (e0, e1, e2, e3, e4, e5) (o0, o1, o2)
           (s0, s1, s2) c).
Proof.
  intros HE HO HS. unfold Meta.ExtraMetadata.
  rewrite HE, HO, HS, has_cycle_index. reflexivity.
Qed.

Lemma Meta_Rewrite_run kv :
  Meta.ExtraMetadata to_string_double (Sys.read_vti env from) = ret kv ->
  Meta.Rewrite env to_string_double from to
  = (Ok tt,
     Stdout ("Rewriting " ++ from ++ " to parquet... " ++ Sys.nl)
       :: Create to
       :: OpenWriter to Meta.GetSchema (Meta.properties Sys.arrow_defaults)
            (Sys.unordered_order env kv)
       :: map (fun row => Write to (Row row))
            (Plan.rows3_from 0 (combine v02 v03))
       ++ [Close to]).
Proof.
  intros Hkv.
  pose proof (Meta_loop (List.length v02) (List.length v02) 0
                ltac:(lia) ltac:(lia)) as Hloop.
  assert (E : Meta.Rewrite env to_string_double from to
              = bind (act (Stdout ("Rewriting " ++ from ++ " to parquet... "
                                   ++ Sys.nl)))
                  (fun _ =>
                   bind (Sys.FileOutputStream_Open env to) (fun file =>
                   bind (Meta.ExtraMetadata to_string_double
                           (Sys.read_vti env from)) (fun kv =>
                   bind (Meta.ParquetWriter_new file
                           (Sys.unordered_order env kv)) (fun writer =>
                   bind (Meta.Iterator_new (Sys.read_vti env from)) (fun it0 =>
                   bind (while (Meta.remaining (Meta.SeekToFirst it0))
                           cond body (Meta.SeekToFirst it0, writer))
                     (fun s =>
                      bind (Meta.Finish (snd s)) (fun _ => ret tt))))))))
    by reflexivity.
  rewrite E. unfold Sys.FileOutputStream_Open. rewrite creatable, Hkv.
  assert (Hit : Meta.Iterator_new (Sys.read_vti env from) = ret (it 0)).
  { unfold Meta.Iterator_new, Vti.GET_POINTER.
    rewrite has_prs, has_tev, has_v02, has_v03, points.
    rewrite wrap32_small by (unfold Cxx.INT_MAX in *; lia). reflexivity. }
  rewrite Hit. unfold Meta.ParquetWriter_new.
  cbn [bind act ret app].
  change (Meta.SeekToFirst (it 0)) with (it 0).
  replace (Meta.remaining (it 0)) with (List.length v02)
    by (unfold Meta.remaining, it, N; cbn [Meta.n_ Meta.i_]; lia).
  cbn [skipn Z.of_nat] in Hloop. fold (writer 0). rewrite Hloop.
  cbn [bind ret act fst snd Meta.Finish Meta.writer_ writer app].
  reflexivity.
Qed.

End MetaRewrite.

Lemma assoc_of_In {V : Type} k (v : V) : forall l,
  NoDup (map fst l) -> In (k, v) l -> Sys.assoc k l = Some v.
Proof.
  induction l as [| [k' v'] l IH]; intros Hnd Hin; [contradiction |].
  cbn [map fst] in Hnd. inversion Hnd as [| ? ? Hnotin Hrest]; subst.
  cbn [Sys.assoc]. destruct Hin as [Heq | Hin].
  - injection Heq as -> ->. now rewrite String.eqb_refl.
  - destruct (String.eqb_spec k' k) as [-> | _]; [| now apply IH].
    exfalso. apply Hnotin. apply (in_map fst) in Hin. exact Hin.
Qed.

Lemma metadata_keys to_string_double ext ori spc c :
  map fst (Plan.metadata to_string_double ext ori spc c) = Plan.metadata_keys.
Proof.
  destruct ext as [[[[[e0 e1] e2] e3] e4] e5], ori as [[o0 o1] o2],
    spc as [[s0 s1] s2].
  reflexivity.
Qed.

Lemma metadata_keys_NoDup : NoDup Plan.metadata_keys.
Proof.
  unfold Plan.metadata_keys.
  repeat (constructor;
          [cbn [In]; intros H;
           repeat (destruct H as [H | H]; [discriminate H |]); exact H |]).
  constructor.
Qed.

(** X13.  [Rewrite] of the converter with metadata, on a snapshot that has the
    four point fields and the attribute [cycle_index]: it creates the
    output, opens the writer with the metadata, streams one row per point
    with row ids counting up from 0 and the quantized values of [v02] and
    [v03], and closes the writer.  The metadata are the thirteen entries
    of the map of [ExtraMetadata] (the six extents, the three origins and
    the three spacings of the snapshot, and the first value of
    [cycle_index]), in the order in which the library iterates the map,
    whatever that is: no order of the keys is fixed by the program, the
    keys are distinct, and a lookup of [cycle_index] gives its value.  The
    fields [prs] and [tev] must be there although no column holds them. *)
Theorem X13_Meta_Rewrite_writes_rows_and_metadata
    env to_string_double from to prs tev v02 v03 c cs :
  (forall m, Permutation (Sys.unordered_order env m) m) ->
  Spec.snapshot (Sys.read_vti env from) v02 v03 ->
  Sys.GetAbstractArray (Sys.PointData (Sys.read_vti env from)) "prs"
  = Some (Sys.vtkFloatArray prs) ->
  Sys.GetAbstractArray (Sys.PointData (Sys.read_vti env from)) "tev"
  = Some (Sys.vtkFloatArray tev) ->
  Sys.GetAbstractArray (Sys.FieldData (Sys.read_vti env from)) "cycle_index"
  = Some (Sys.vtkIntArray (c :: cs)) ->
  Sys.can_create env to = true ->
  let image := Sys.read_vti env from in
  exists kv,
    Meta.Rewrite env to_string_double from to
    = (Run.Ok tt,
       Run.Stdout ("Rewriting " ++ from ++ " to parquet... " ++ Sys.nl)
         :: Run.Create to
         :: Run.OpenWriter to Meta.GetSchema
              (Meta.properties Sys.arrow_defaults) kv
         :: map (fun row => Run.Write to (Run.Row row))
              (Plan.rows3_from 0 (combine v02 v03))
         ++ [Run.Close to])
    /\ Permutation kv
         (Plan.metadata to_string_double (Sys.Extent image) (Sys.Origin image)
            (Sys.Spacing image) c)
    /\ Permutation (map fst kv)
         ["extent_0"; "extent_1"; "extent_2"; "extent_3"; "extent_4";
          "extent_5"; "origin_0"; "origin_1"; "origin_2"; "spacing_0";
          "spacing_1"; "spacing_2"; "cycle_index"]%string
    /\ NoDup (map fst kv)
    /\ Sys.assoc "cycle_index" kv = Some (Cxx.to_string c).
Proof.
  intros Horder (H02 & H03 & Hn & Hlen & Hfit) Hprs Htev Hcycle Hcreate.
  cbv zeta.
  destruct (Sys.Extent (Sys.read_vti env from))
    as [[[[[e0 e1] e2] e3] e4] e5] eqn:HE.
  destruct (Sys.Origin (Sys.read_vti env from)) as [[o0 o1] o2] eqn:HO.
  destruct (Sys.Spacing (Sys.read_vti env from)) as [[s0 s1] s2] eqn:HS.
  pose proof (Meta_ExtraMetadata_run env to_string_double c cs from Hcycle
                e0 e1 e2 e3 e4 e5 o0 o1 o2 s0 s1 s2 HE HO HS) as Hkv.
  set (entries := Plan.metadata to_string_double (e0, e1, e2, e3, e4, e5)
                    (o0, o1, o2) (s0, s1, s2) c) in *.
  assert (Hkeys : Permutation (map fst (Sys.unordered_order env entries))
                    Plan.metadata_keys).
  { rewrite <- (metadata_keys to_string_double (e0, e1, e2, e3, e4, e5)
                  (o0, o1, o2) (s0, s1, s2) c).
    apply Permutation_map, Horder. }
  assert (Hnodup : NoDup (map fst (Sys.unordered_order env entries))).
  { apply (Permutation_NoDup (Permutation_sym Hkeys)), metadata_keys_NoDup. }
  exists (Sys.unordered_order env entries).
  split; [| split; [apply Horder | split; [exact Hkeys | split;
                                           [exact Hnodup |]]]].
  - now apply (Meta_Rewrite_run env to_string_double prs tev v02 v03 from to).
  - apply assoc_of_In; [exact Hnodup |].
    apply (Permutation_in _ (Permutation_sym (Horder entries))).
    unfold entries, Plan.metadata. cbn [In]. intuition.
Qed.

Lemma X13_Meta_Rewrite_writes_witness :
  exists kv,
    Meta.Rewrite Examples.env (fun _ => "0.000000"%string)
      "in/seven.vti" "out/seven.parquet"
    = (Run.Ok tt,
       Run.Stdout ("Rewriting in/seven.vti to parquet... " ++ Sys.nl)
         :: Run.Create "out/seven.parquet"
         :: Run.OpenWriter "out/seven.parquet" Meta.GetSchema
              (Meta.properties Sys.arrow_defaults) kv
         :: map (fun row => Run.Write "out/seven.parquet" (Run.Row row))
              (Plan.rows3_from 0
                 (combine (map F32.of_Z (Spec.iota 1 7))
                    (map F32.of_Z (Spec.iota 11 7))))
         ++ [Run.Close "out/seven.parquet"])
    /\ Sys.assoc "cycle_index" kv = Some "42"%string.
Proof.
  destruct (X13_Meta_Rewrite_writes_rows_and_metadata Examples.env
              (fun _ => "0.000000"%string) "in/seven.vti" "out/seven.parquet"
              (map F32.of_Z (Spec.iota 21 7)) (map F32.of_Z (Spec.iota 31 7))
              (map F32.of_Z (Spec.iota 1 7)) (map F32.of_Z (Spec.iota 11 7))
              42 [])
    as (kv & Hrun & _ & _ & _ & Hci);
    try reflexivity.
  - intros m. symmetry. apply Permutation_rev.
  - unfold Spec.snapshot. repeat split; vm_compute; congruence.
  - exists kv. split; [exact Hrun | exact Hci].
Defined.

(** ** [Rewrite] of the unstructured-grid converter *)

Section XrageRewrite.
Import Run.
Variable env : Sys.Env.
Variable read_vtu : string -> Xrage.vtkUnstructuredGrid.
Variable col : string -> list F32.float.
Variable n : nat.
Variables from to : string.

Hypothesis columns :
  forall name, In name (map fst Xrage.GetSchema) ->
  Sys.GetAbstractArray (Xrage.CellData (read_vtu from)) name
  = Some (Sys.vtkFloatArray (col name))
  /\ List.length (col name) = n.
Hypothesis fits_int : Z.of_nat n <= Cxx.INT_MAX.
Hypothesis cells : Xrage.NumberOfCells (read_vtu from) = Z.of_nat n.
Hypothesis creatable : Sys.can_create env to = true.

Let it (i : nat) : Xrage.Iterator :=
  Xrage.mkIterator (Z.of_nat n) (col "rho") (col "prs") (col "tev")
    (col "xdt") (col "ydt") (col "zdt") (col "snd") (col "grd") (col "mat")
    (col "v02") (col "v03") (Z.of_nat i).

Let writer : Xrage.ParquetWriter := Xrage.mkWriter (Some to).

Let body (it : Xrage.Iterator) : M Xrage.Iterator :=
  bind (Xrage.Append writer it) (fun _ => ret (Xrage.Next it)).

Lemma Xrage_index name i :
  In name (map fst Xrage.GetSchema) -> (i < n)%nat ->
  Sys.index (col name) (Z.of_nat i)
  = ret (nth i (col name) (S754_zero false)).
Proof.
  intros Hname Hi. apply index_nth, nth_error_nth'.
  now rewrite (proj2 (columns name Hname)).
Qed.

Lemma Xrage_body i :
  (i < n)%nat ->
  body (it i) = (Ok (it (S i)), [Write to (Row (Plan.grid_row col i))]).
Proof.
  intros Hi.
  assert (Hw : Cxx.wrap32 (Z.of_nat i + 1) = Z.of_nat (S i))
    by (rewrite wrap32_succ; unfold Cxx.INT_MAX in *; lia).
  unfold body, Xrage.Append, Xrage.Next, Xrage.seek, it.
  unfold Xrage.rho, Xrage.prs, Xrage.tev, Xrage.xdt, Xrage.ydt, Xrage.zdt,
    Xrage.snd, Xrage.grd, Xrage.mat, Xrage.v02, Xrage.v03.
  cbn [Xrage.n_ Xrage.rho_ Xrage.prs_ Xrage.tev_ Xrage.xdt_ Xrage.ydt_
       Xrage.zdt_ Xrage.snd_ Xrage.grd_ Xrage.mat_ Xrage.v02_ Xrage.v03_
       Xrage.i_].
  rewrite !Xrage_index by (assumption || (cbn; tauto)).
  rewrite !bind_ret_l, Hw. reflexivity.
Qed.

Lemma Xrage_loop : forall k fuel i,
  (i + k = n)%nat -> (k <= fuel)%nat ->
  while fuel Xrage.Valid body (it i)
  = (Ok (it (i + k)),
     map (fun row => Write to (Row row)) (map (Plan.grid_row col) (seq i k))).
Proof.
  induction k as [| k IH]; intros fuel i Hi Hfuel.
  - rewrite while_false.
    + now rewrite Nat.add_0_r.
    + unfold Xrage.Valid, it. cbn [Xrage.i_ Xrage.n_].
      destruct (Z.ltb_spec (Z.of_nat i) (Z.of_nat n)); [lia |].
      apply andb_false_r.
  - destruct fuel as [| fuel]; [lia |].
    rewrite while_true.
    + rewrite (bind_ok _ _ _ _ _ _ (Xrage_body i ltac:(lia))
                 (IH fuel (S i) ltac:(lia) ltac:(lia))).
      cbn [seq map app].
      replace (S i + k)%nat with (i + S k)%nat by lia. reflexivity.
    + unfold Xrage.Valid, it. cbn [Xrage.i_ Xrage.n_].
      destruct (Z.leb_spec 0 (Z.of_nat i)); [| lia].
      destruct (Z.ltb_spec (Z.of_nat i) (Z.of_nat n)); [reflexivity | lia].
Qed.

Lemma Xrage_Rewrite_run :
  Xrage.Rewrite env read_vtu from to
  = (Ok tt,
     Stdout ("Rewriting " ++ from ++ " to parquet... " ++ Sys.nl)
       :: Create to
       :: OpenWriter to Xrage.GetSchema (Xrage.properties Sys.arrow_defaults) []
       :: map (fun row => Write to (Row row))
            (map (Plan.grid_row col) (seq 0 n))
       ++ [Close to]).
Proof.
  pose proof (Xrage_loop n n 0 ltac:(lia) ltac:(lia)) as Hloop.
  assert (E : Xrage.Rewrite env read_vtu from to
              = bind (act (Stdout ("Rewriting " ++ from ++ " to parquet... "
                                   ++ Sys.nl)))
                  (fun _ =>
                   bind (Sys.FileOutputStream_Open env to) (fun file =>
                   bind (Xrage.ParquetWriter_new file) (fun writer =>
                   bind (Xrage.Iterator_new (read_vtu from)) (fun it0 =>
                   bind (while (Xrage.remaining (Xrage.SeekToFirst it0))
                           Xrage.Valid
                           (fun it =>
                              bind (Xrage.Append writer it) (fun _ =>
                              ret (Xrage.Next it)))
                           (Xrage.SeekToFirst it0))
                     (fun _ =>
                      bind (Xrage.Finish writer) (fun _ => ret tt)))))))
    by reflexivity.
  rewrite E. unfold Sys.FileOutputStream_Open. rewrite creatable.
  assert (Hit : Xrage.Iterator_new (read_vtu from) = ret (it 0)).
  { unfold Xrage.Iterator_new, Vti.GET_POINTER.
    rewrite !(fun name H => proj1 (columns name H)) by (cbn; tauto).
    rewrite cells, wrap32_small by (unfold Cxx.INT_MAX in *; lia).
    reflexivity. }
  rewrite Hit. unfold Xrage.ParquetWriter_new.
  cbn [bind act ret app].
  change (Xrage.SeekToFirst (it 0)) with (it 0).
  replace (Xrage.remaining (it 0)) with n
    by (unfold Xrage.remaining, it; cbn [Xrage.n_ Xrage.i_]; lia).
  fold writer. fold body. rewrite Hloop.
  cbn [bind ret act fst Datatypes.snd Xrage.Finish Xrage.writer_ writer app].
  reflexivity.
Qed.

End XrageRewrite.

(** X14.  [Rewrite] of the unstructured-grid converter, on a grid that has the
    eleven cell fields: it creates the output, opens the writer, streams
    one row per cell, in the order of the cells, that holds the values of
    the eleven fields in the order of the schema exactly as they are
    (nothing is rounded), and closes the writer. *)
Theorem X14_Xrage_Rewrite_stores_the_fields_as_they_are
    env read_vtu from to col n :
  (forall name, In name (map fst Xrage.GetSchema) ->
     Sys.GetAbstractArray (Xrage.CellData (read_vtu from)) name
     = Some (Sys.vtkFloatArray (col name))
     /\ List.length (col name) = n) ->
  Xrage.NumberOfCells (read_vtu from) = Z.of_nat n ->
  Z.of_nat n <= Cxx.INT_MAX ->
  Sys.can_create env to = true ->
  Xrage.Rewrite env read_vtu from to
  = (Run.Ok tt,
     Run.Stdout ("Rewriting " ++ from ++ " to parquet... " ++ Sys.nl)
       :: Run.Create to
       :: Run.OpenWriter to Xrage.GetSchema
            (Xrage.properties Sys.arrow_defaults) []
       :: map (fun row => Run.Write to (Run.Row row))
            (map (Plan.grid_row col) (seq 0 n))
       ++ [Run.Close to]).
Proof.
  intros Hcol Hcells Hfit Hcreate. now apply Xrage_Rewrite_run.
Qed.

Lemma X14_Xrage_Rewrite_stores_witness :
  Xrage.Rewrite Examples.env (fun _ => Cases.grid) "in/a.vtu" "out/a.parquet"
  = (Run.Ok tt,
     [Run.Stdout ("Rewriting in/a.vtu to parquet... " ++ Sys.nl);
      Run.Create "out/a.parquet";
      Run.OpenWriter "out/a.parquet" Xrage.GetSchema
        (Xrage.properties Sys.arrow_defaults) [];
      Run.Write "out/a.parquet"
        (Run.Row (map Run.F32
                    (map F32.of_Z [1; 11; 21; 31; 41; 51; 61; 71; 81]
                       ++ [Examples.x_8_000011; F32.of_Z 101])));
      Run.Write "out/a.parquet"
        (Run.Row (map Run.F32
                    (map F32.of_Z [2; 12; 22; 32; 42; 52; 62; 72; 82]
                       ++ [Examples.x_1e_7; F32.of_Z 102])));
      Run.Close "out/a.parquet"]).
Proof.
  refine (X14_Xrage_Rewrite_stores_the_fields_as_they_are Examples.env
            (fun _ => Cases.grid) "in/a.vtu" "out/a.parquet"
            Cases.grid_column 2 _ eq_refl _ eq_refl).
  - intros name H. cbn in H.
    repeat (destruct H as [<- | H]; [split; reflexivity |]). destruct H.
  - vm_compute. congruence.
Defined.

(** ** A grid that lacks a field *)

Lemma Xrage_Iterator_new_lacks grid :
  Spec.lacks_float (Xrage.CellData grid) (map fst Xrage.GetSchema) ->
  Xrage.Iterator_new grid = Run.stop (Run.Undefined Run.NullDereference).
Proof.
  intros H. unfold Xrage.Iterator_new, Vti.GET_POINTER.
  destruct (Sys.FastDownCast_float (Sys.GetAbstractArray _ "rho")) eqn:E0;
    [| reflexivity].
  destruct (Sys.FastDownCast_float (Sys.GetAbstractArray _ "prs")) eqn:E1;
    [| reflexivity].
  destruct (Sys.FastDownCast_float (Sys.GetAbstractArray _ "tev")) eqn:E2;
    [| reflexivity].
  destruct (Sys.FastDownCast_float (Sys.GetAbstractArray _ "xdt")) eqn:E3;
    [| reflexivity].
  destruct (Sys.FastDownCast_float (Sys.GetAbstractArray _ "ydt")) eqn:E4;
    [| reflexivity].
  destruct (Sys.FastDownCast_float (Sys.GetAbstractArray _ "zdt")) eqn:E5;
    [| reflexivity].
  destruct (Sys.FastDownCast_float (Sys.GetAbstractArray _ "snd")) eqn:E6;
    [| reflexivity].
  destruct (Sys.FastDownCast_float (Sys.GetAbstractArray _ "grd")) eqn:E7;
    [| reflexivity].
  destruct (Sys.FastDownCast_float (Sys.GetAbstractArray _ "mat")) eqn:E8;
    [| reflexivity].
  destruct (Sys.FastDownCast_float (Sys.GetAbstractArray _ "v02")) eqn:E9;
    [| reflexivity].
  destruct (Sys.FastDownCast_float (Sys.GetAbstractArray _ "v03")) eqn:E10;
    [| reflexivity].
  exfalso. unfold Spec.lacks_float in H. cbn [map fst Xrage.GetSchema] in H.
  repeat (apply Exists_cons in H; destruct H as [H | H]; [congruence |]).
  inversion H.
Qed.

(** X15.  The unstructured-grid converter opens its output before it looks up
    the cell fields.  When the output cannot be created the conversion
    stops with an exception whatever the grid holds; when one of the
    eleven fields is absent, or is not a [vtkFloatArray], the null pointer
    is dereferenced after the output was created and the writer opened:
    the file is left without rows and without having been closed. *)
Theorem X15_Xrage_Rewrite_opens_the_output_first env read_vtu from to :
  let line :=
    Run.Stdout ("Rewriting " ++ from ++ " to parquet... " ++ Sys.nl) in
  (Sys.can_create env to = false ->
   Xrage.Rewrite env read_vtu from to
   = (Run.Stop (Run.Terminated "parquet::ParquetStatusException"), [line]))
  /\ (Sys.can_create env to = true ->
      Spec.lacks_float (Xrage.CellData (read_vtu from))
        (map fst Xrage.GetSchema) ->
      Xrage.Rewrite env read_vtu from to
      = (Run.Stop (Run.Undefined Run.NullDereference),
         [line; Run.Create to;
          Run.OpenWriter to Xrage.GetSchema
            (Xrage.properties Sys.arrow_defaults) []])).
Proof.
  cbv zeta. split.
  - intros Hno. unfold Xrage.Rewrite, Sys.FileOutputStream_Open.
    now rewrite Hno.
  - intros Hcreate Hlacks.
    unfold Xrage.Rewrite, Sys.FileOutputStream_Open.
    rewrite Hcreate, (Xrage_Iterator_new_lacks _ Hlacks). reflexivity.
Qed.

Lemma X15_Xrage_Rewrite_opens_the_output_first_witness :
  Xrage.Rewrite Examples.env (fun _ => Xrage.mkGrid 2 []) "in/a.vtu"
    "out/a.parquet"
  = (Run.Stop (Run.Undefined Run.NullDereference),
     [Run.Stdout ("Rewriting in/a.vtu to parquet... " ++ Sys.nl);
      Run.Create "out/a.parquet";
      Run.OpenWriter "out/a.parquet" Xrage.GetSchema
        (Xrage.properties Sys.arrow_defaults) []]).
Proof.
  refine (proj2 (X15_Xrage_Rewrite_opens_the_output_first Examples.env
                   (fun _ => Xrage.mkGrid 2 []) "in/a.vtu" "out/a.parquet")
            eq_refl _).
  apply Exists_cons_hd. reflexivity.
Defined.

(** ** Quantization and the sign *)

Lemma binary_round_aux_opp s m e l :
  binary_round_aux F32.prec F32.emax (negb s) m e l
  = SFopp (binary_round_aux F32.prec F32.emax s m e l).
Proof.
  unfold binary_round_aux.
  destruct (shr_fexp F32.prec F32.emax m e l) as [mrs e'].
  destruct (shr_fexp F32.prec F32.emax _ e' loc_Exact) as [mrs' e''].
  destruct (shr_m mrs'); try reflexivity.
  now destruct (e'' <=? F32.emax - F32.prec).
Qed.

Lemma mul_million_opp x :
  F32.mul (SFopp x) F32.million = SFopp (F32.mul x F32.million).
Proof.
  unfold F32.mul. rewrite million_eq.
  destruct x as [[] | [] | | [] m e]; try reflexivity;
    unfold SFmul, SFopp; cbn [xorb negb];
    first [apply (binary_round_aux_opp false)
          | apply (binary_round_aux_opp true)].
Qed.

Lemma div_million_opp x :
  F32.div (SFopp x) F32.million = SFopp (F32.div x F32.million).
Proof.
  unfold F32.div. rewrite million_eq.
  destruct x as [[] | [] | | [] m e]; try reflexivity;
    unfold SFdiv, SFopp; cbn [xorb negb];
    destruct (SFdiv_core_binary F32.prec F32.emax (Z.pos m) e
                (Z.pos 16000000) (-4)) as [[mz ez] lz];
    first [apply (binary_round_aux_opp false)
          | apply (binary_round_aux_opp true)].
Qed.

Lemma of_int_opp s n : F32.of_int (negb s) n = SFopp (F32.of_int s n).
Proof.
  unfold F32.of_int, binary_normalize, binary_round.
  destruct n as [| q | q]; [now destruct s | |];
    destruct s; cbn [negb Z.opp];
    destruct (shl_align q 0 _) as [mz ez];
    first [apply (binary_round_aux_opp false) | apply (binary_round_aux_opp true)].
Qed.

Lemma roundf_opp x : F32.roundf (SFopp x) = SFopp (F32.roundf x).
Proof.
  destruct x as [s | s | | s m [| k | k]]; try reflexivity.
  cbn [SFopp F32.roundf].
  destruct (F32.nearest_away m (Z.neg k)); [reflexivity | |];
    apply of_int_opp.
Qed.

(** X19.  Quantization is symmetric about zero, and keeps what is not a finite
    number: the quantized value of [- x] is the opposite of that of [x];
    zeros keep their sign, infinities and NaN are stored as they are. *)
Theorem X19_quantize_is_odd x :
  F32.quantize (SFopp x) = SFopp (F32.quantize x)
  /\ (forall s, F32.quantize (S754_zero s) = S754_zero s)
  /\ (forall s, F32.quantize (S754_infinity s) = S754_infinity s)
  /\ F32.quantize S754_nan = S754_nan.
Proof.
  split; [| split; [| split]].
  - unfold F32.quantize.
    now rewrite mul_million_opp, roundf_opp, div_million_opp.
  - intros []; reflexivity.
  - intros []; reflexivity.
  - reflexivity.
Qed.

(** X20.  A value that is a multiple of one millionth already, the [float]
    nearest to [n / 1000000] for an integer [n] below [8000011], is stored
    as it is. *)
Theorem X20_quantize_keeps_millionths s n :
  0 <= n < 8000011 ->
  let x := F32.div (F32.of_int s n) F32.million in
  F32.quantize x = x.
Proof.
  intros Hn. cbv zeta.
  destruct (Z.eq_dec n 0) as [-> | Hne].
  - now destruct s.
  - unfold F32.quantize. now rewrite quantize_fixpoint_below_8000011 by lia.
Qed.

Lemma X20_quantize_keeps_millionths_witness :
  F32.quantize (F32.div (F32.of_int true 1234567) F32.million)
  = F32.div (F32.of_int true 1234567) F32.million.
Proof.
  apply (X20_quantize_keeps_millionths true 1234567). lia.
Defined.

(** ** A finished writer *)

(** X21.  [Finish] closes the stream writer and nulls the pointer to it: a
    second [Finish] does nothing, so that a writer is closed once at most,
    and an [Append] on a finished writer dereferences the null pointer
    without anything streamed. *)
Theorem X21_finished_writer_is_null w :
  exists done,
    V2a.Finish w
    = (Run.Ok done,
       match V2a.writer_ w with
       | Some path => [Run.Close path]
       | None => []
       end)
    /\ V2a.writer_ done = None
    /\ V2a.Finish done = (Run.Ok done, [])
    /\ (forall timestep a b,
          V2a.Append done timestep a b
          = (Run.Stop (Run.Undefined Run.NullDereference), []))
    /\ (forall options file timestep a b,
          Run.bind (V2b.ParquetWriter_new options file) (fun w =>
          Run.bind (V2b.Finish w) (fun w =>
          Run.bind (V2b.Finish w) (fun w =>
          V2b.Append w timestep a b)))
          = (Run.Stop (Run.Undefined Run.NullDereference),
             [Run.OpenWriter file Vti.GetSchema
                (Vti.properties Sys.arrow_defaults) [];
              Run.Close file])).
Proof.
  destruct w as [[path |] r p];
    (eexists; split; [reflexivity |]; split; [reflexivity |];
     split; [reflexivity |]; split;
     [intros timestep a b; now destruct p | reflexivity]).
Qed.

(** ** The command line *)

(** X22.  Without a directory argument every program prints its synopsis on the
    standard error stream and exits with the status [EXIT_FAILURE]; with
    a directory that cannot be opened it prints the reason there and
    exits with the same status.  In both cases nothing is printed on the
    standard output and no file is created.  The output directory is the
    second argument, the working directory when there is none, and
    further arguments are ignored. *)
Theorem X22_main_reports_bad_arguments env prog :
  (V2a.main env [prog] = Plan.usage_error prog " inputdir <outputdir>"
   /\ V2b.main env [prog] = Plan.usage_error prog " inputdir <outputdir>"
   /\ Repack.main env [prog] = Plan.usage_error prog " inputdir"
   /\ (forall to_string_double,
         Meta.main env to_string_double [prog]
         = Plan.usage_error prog " inputdir <outputdir>")
   /\ (forall read_vtu,
         Xrage.main env read_vtu [prog]
         = Plan.usage_error prog " inputdir <outputdir>"))
  /\ (forall indir rest error,
        Sys.opendir env indir = inl error ->
        V2a.main env (prog :: indir :: rest) = Plan.opendir_error indir error
        /\ V2b.main env (prog :: indir :: rest) = Plan.opendir_error indir error
        /\ Repack.main env (prog :: indir :: rest)
           = Plan.opendir_error indir error
        /\ (forall to_string_double,
              Meta.main env to_string_double (prog :: indir :: rest)
              = Plan.opendir_error indir error)
        /\ (forall read_vtu,
              Xrage.main env read_vtu (prog :: indir :: rest)
              = Plan.opendir_error indir error))
  /\ (forall indir,
        V2a.main env [prog; indir] = V2a.main env [prog; indir; "."%string]
        /\ V2b.main env [prog; indir] = V2b.main env [prog; indir; "."%string])
  /\ (forall indir outdir rest,
        V2a.main env (prog :: indir :: outdir :: rest)
        = Run.bind (V2a.ProcessDir env indir outdir) (fun _ => Run.ret 0)
        /\ V2b.main env (prog :: indir :: outdir :: rest)
           = Run.bind (V2b.ProcessDir env V2b.CEILING indir outdir)
               (fun _ => Run.ret 0)
        /\ Repack.main env (prog :: indir :: outdir :: rest)
           = Run.bind (Repack.ProcessDir env Repack.CEILING indir)
               (fun _ => Run.ret 0)).
Proof.
  split; [repeat split |]. split; [| split; [| repeat split]].
  - intros indir rest error Hdir.
    unfold V2a.main, V2b.main, Repack.main, Meta.main, Xrage.main,
      V2a.ProcessDir, V2b.ProcessDir, Repack.ProcessDir, Meta.ProcessDir,
      Xrage.ProcessDir.
    rewrite Hdir. repeat split.
  - intros indir. split; reflexivity.
Qed.

Lemma X22_main_reports_bad_arguments_witness :
  V2a.main Examples.env ["vti2pqt"; "nowhere"]%string
  = Plan.opendir_error "nowhere" "No such file or directory".
Proof.
  exact (proj1 (proj1 (proj2 (X22_main_reports_bad_arguments Examples.env "vti2pqt"))
                  "nowhere"%string [] "No such file or directory"%string
                  eq_refl)).
Defined.
